(** * Memos maintenance scripts: a shallow embedding

    Three Python scripts are modelled here:
    - [delete_memos_duplicates.py] (module [Duplicates]),
    - [delete_old_memos.py]        (module [OldMemos]),
    - [x_scraper_fast_scrolling.py] (module [Scraper]).

    Python [str] values are byte strings (UTF-8); comparing them byte by
    byte orders them as Python orders code points.  Library functions the
    scripts call ([hashlib.md5], [datetime.fromisoformat],
    [datetime.fromtimestamp], [strftime]) are parameters of the sections
    that use them.  The network, the console and the browser are oracles
    that receive the number of interactions that came before. *)

From Stdlib Require Import String Ascii List ZArith Bool Arith Lia.
From Stdlib Require Import Sorting.Permutation.
From Stdlib Require Import Structures.OrderedTypeEx.
From Stdlib Require Import DecimalString.
Import ListNotations.

Open Scope string_scope.
Open Scope list_scope.

Set Implicit Arguments.

(** ** Python built-ins on strings *)

Module Py.

(** [bool(s)] for a [str]. *)
Definition truthy (s : string) : bool :=
  match s with EmptyString => false | String _ _ => true end.

(** [bool(x)] for a value that may be [None]. *)
Definition truthy_opt (o : option string) : bool :=
  match o with None => false | Some s => truthy s end.

(** [s.replace(c, r)] for a one-character pattern [c]. *)
Fixpoint replace (c : ascii) (r : string) (s : string) : string :=
  match s with
  | EmptyString => EmptyString
  | String a s' =>
      if Ascii.eqb a c then (r ++ replace c r s')%string
      else String a (replace c r s')
  end.

(** [str.lower] on the ASCII letters.  The scripts only compare the result
    with "yes", and no character outside ASCII lowers to y, e or s. *)
Definition lower_ascii (a : ascii) : ascii :=
  let n := nat_of_ascii a in
  if (65 <=? n)%nat && (n <=? 90)%nat then ascii_of_nat (n + 32) else a.

Fixpoint lower (s : string) : string :=
  match s with
  | EmptyString => EmptyString
  | String a s' => String (lower_ascii a) (lower s')
  end.

(** [str(n)] for a non-negative [int]. *)
Definition str_nat (n : nat) : string :=
  NilEmpty.string_of_uint (Nat.to_uint n).

(** [str(b)] for a [bool]. *)
Definition str_bool (b : bool) : string :=
  if b then "True" else "False".

(** [f"{x}"] for a value that may be [None]. *)
Definition str_opt (o : option string) : string :=
  match o with None => "None" | Some s => s end.

(** [s.startswith(p)]. *)
Definition startswith (p s : string) : bool := String.prefix p s.

(** ** [list.sort(key=...)] with string keys

    Python's sort is stable; a stable sort of a list is unique, so the
    insertion sort below returns what [list.sort] returns. *)

Section Sort.
Variable A : Type.
Variable key : A -> string.

Fixpoint insert (x : A) (l : list A) : list A :=
  match l with
  | [] => [x]
  | y :: l' =>
      if String.ltb (key y) (key x) then y :: insert x l'
      else x :: l
  end.

Fixpoint sort (l : list A) : list A :=
  match l with
  | [] => []
  | x :: l' => insert x (sort l')
  end.

(** [first_min l x l1 l2]: [x] is the first element of [l] whose key is
    minimal; [l1] precedes it and [l2] follows it. *)
Definition first_min (l : list A) (x : A) (l1 l2 : list A) : Prop :=
  l = l1 ++ x :: l2 /\
  (forall y, In y l1 -> String.ltb (key x) (key y) = true) /\
  (forall y, In y l2 -> String.leb (key x) (key y) = true).
End Sort.

End Py.

(** ** The outside world: requests, answers, events

    A run is a function of the oracles that answer its requests.  Every
    consultation of an oracle (a request sent, a line read from the
    console, a look at the browser page) is an _interaction_; the oracle
    receives the number of interactions that came before it, so that the
    same request may be answered differently at different times. *)

Module Net.

Inductive method := GET | POST | PATCH | DELETE.

(** A [requests] call: method, URL, and the query parameters or the JSON
    payload as key/value pairs.  Headers and timeouts are left out. *)
Record request := Request {
  meth : method;
  url : string;
  fields : list (string * string)
}.

(** Every method but [GET] changes the remote service. *)
Definition mutating (r : request) : bool :=
  match meth r with GET => false | _ => true end.

(** What a [requests] call comes back with: an exception
    ([ConnectionError], [Timeout]), or a response with its status code
    and its body decoded by [.json()] ([None] when decoding raises). *)
Inductive response (B : Type) :=
| Raised
| Answered (status_code : Z) (json : option B).
Arguments Raised {B}.
Arguments Answered {B} _ _.

(** [response.raise_for_status()] raises for 4xx and 5xx. *)
Definition raises_for_status (status_code : Z) : bool :=
  ((400 <=? status_code) && (status_code <? 600))%Z.

Section Events.
Variable Msg : Type.

Inductive event :=
| Sent (r : request)
| Asked (prompt : string) (answer : option string)
| Looked
| Printed (m : Msg)
| Slept.

Definition is_interaction (e : event) : bool :=
  match e with
  | Sent _ | Asked _ _ | Looked => true
  | Printed _ | Slept => false
  end.

Fixpoint interactions (t : list event) : nat :=
  match t with
  | [] => 0
  | e :: t' =>
      if is_interaction e then S (interactions t') else interactions t'
  end.

(** The mutating requests of a trace, in order. *)
Fixpoint mutations (t : list event) : list request :=
  match t with
  | [] => []
  | Sent r :: t' => if mutating r then r :: mutations t' else mutations t'
  | _ :: t' => mutations t'
  end.

(** All requests of a trace, in order. *)
Fixpoint requests (t : list event) : list request :=
  match t with
  | [] => []
  | Sent r :: t' => r :: requests t'
  | _ :: t' => requests t'
  end.

(** An answer that [confirm.lower() != "yes"] lets through. *)
Definition says_yes (answer : option string) : bool :=
  match answer with
  | Some a => String.eqb (Py.lower a) "yes"
  | None => false
  end.

(** [guarded c t]: scanning [t] from the left, starting confirmed or not
    ([c]), no mutating request comes before an answer that says yes. *)
Fixpoint guarded (confirmed : bool) (t : list event) : bool :=
  match t with
  | [] => true
  | Sent r :: t' => (negb (mutating r) || confirmed) && guarded confirmed t'
  | Asked _ a :: t' => guarded (confirmed || says_yes a) t'
  | _ :: t' => guarded confirmed t'
  end.

(** The same property as a proposition on the positions of the trace. *)
Definition confirmed_before_mutation (t : list event) : Prop :=
  forall t1 r t2,
    t = t1 ++ Sent r :: t2 -> mutating r = true ->
    exists p a, In (Asked p a) t1 /\ says_yes a = true.

(** A trace is quiet when it neither changes the service, nor reads the
    console, nor looks at the browser. *)
Definition quiet (t : list event) : bool :=
  forallb
    (fun e =>
       match e with
       | Sent r => negb (mutating r)
       | Asked _ _ | Looked => false
       | _ => true
       end) t.

(** ** Runs

    A computation takes the number of interactions so far and returns
    its result with the events it produced. *)
Definition M (A : Type) : Type := nat -> A * list event.

Definition ret {A} (a : A) : M A := fun _ => (a, []).

Definition bind {A B} (m : M A) (f : A -> M B) : M B :=
  fun n =>
    let (a, t1) := m n in
    let (b, t2) := f a (n + interactions t1) in
    (b, t1 ++ t2).

Definition print (m : Msg) : M unit := fun _ => (tt, [Printed m]).

Definition sleep : M unit := fun _ => (tt, [Slept]).

Definition send {B} (oracle : nat -> request -> response B) (r : request)
  : M (response B) :=
  fun n => (oracle n r, [Sent r]).

Definition input (stdin : nat -> option string) (prompt : string)
  : M (option string) :=
  fun n => (stdin n, [Asked prompt (stdin n)]).

Definition look {B} (oracle : nat -> B) : M B :=
  fun n => (oracle n, [Looked]).

Definition result {A} (m : M A) (n : nat) : A := fst (m n).
Definition trace {A} (m : M A) (n : nat) : list event := snd (m n).

(** A computation that only prints. *)
Definition silent {A} (m : M A) : Prop :=
  forall n, requests (trace m n) = [] /\ interactions (trace m n) = 0.
End Events.

Arguments Sent {Msg} _.
Arguments Asked {Msg} _ _.
Arguments Looked {Msg}.
Arguments Printed {Msg} _.
Arguments Slept {Msg}.
Arguments ret {Msg A} _ _.
Arguments bind {Msg A B} _ _ _.
Arguments print {Msg} _ _.
Arguments sleep {Msg} _.
Arguments send {Msg B} _ _ _.
Arguments input {Msg} _ _ _.
Arguments look {Msg B} _ _.

End Net.

Import Net.

Declare Scope run_scope.
Delimit Scope run_scope with run.
Notation "x <- c1 ;; c2" := (bind c1 (fun x => c2))
  (at level 61, c1 at next level, right associativity) : run_scope.
Notation "c1 ;; c2" := (bind c1 (fun _ => c2))
  (at level 61, right associativity) : run_scope.
Open Scope run_scope.

(** ** [datetime] values

    A [datetime] holds its calendar fields and, when it is aware, the UTC
    offset of its [tzinfo] in seconds; a naive one has [tzinfo = None]. *)

Module Datetime.

Record datetime := Datetime {
  year : Z;
  month : Z;
  day : Z;
  hour : Z;
  minute : Z;
  second : Z;
  microsecond : Z;
  tzinfo : option Z
}.

Definition is_leap (y : Z) : bool :=
  ((y mod 4 =? 0) && (negb (y mod 100 =? 0) || (y mod 400 =? 0)))%Z.

Definition days_before_year (y : Z) : Z :=
  let y := (y - 1)%Z in
  (y * 365 + y / 4 - y / 100 + y / 400)%Z.

Definition days_in_month (y m : Z) : Z :=
  if (m =? 2)%Z then (if is_leap y then 29 else 28)%Z
  else if ((m =? 4) || (m =? 6) || (m =? 9) || (m =? 11))%Z then 30%Z
  else 31%Z.

Fixpoint days_before_month_aux (y : Z) (months : nat) : Z :=
  match months with
  | O => 0%Z
  | S k => (days_before_month_aux y k + days_in_month y (Z.of_nat (S k)))%Z
  end.

Definition days_before_month (y m : Z) : Z :=
  days_before_month_aux y (Z.to_nat (m - 1)).

(** [date.toordinal()]: day 1 is 0001-01-01. *)
Definition toordinal (d : datetime) : Z :=
  (days_before_year (year d) + days_before_month (year d) (month d) + day d)%Z.

(** The place of the calendar fields on the time line, in microseconds. *)
Definition wall (d : datetime) : Z :=
  ((((toordinal d * 24 + hour d) * 60 + minute d) * 60 + second d) * 1000000
   + microsecond d)%Z.

(** [a < b].  Two naive values compare by their fields, two aware values
    by their instants; mixing them raises [TypeError] ([None]). *)
Definition lt (a b : datetime) : option bool :=
  match tzinfo a, tzinfo b with
  | None, None => Some (wall a <? wall b)%Z
  | Some oa, Some ob =>
      Some (wall a - oa * 1000000 <? wall b - ob * 1000000)%Z
  | _, _ => None
  end.

(** The instant an aware value denotes, in microseconds. *)
Definition instant (d : datetime) : option Z :=
  match tzinfo d with
  | Some o => Some (wall d - o * 1000000)%Z
  | None => None
  end.

End Datetime.

Import Datetime.

(** * [delete_memos_duplicates.py] *)

Module Duplicates.

(** A memo as the list endpoint returns it: a dict read through
    [.get("name")], [.get("content", "")] and [.get("createTime", "")]. *)
Record memo := Memo {
  name : option string;
  content : option string;
  createTime : option string
}.

Definition get (field : option string) (default : string) : string :=
  match field with Some s => s | None => default end.

(** One page of the list endpoint: [data.get("memos", [])] and
    [data.get("nextPageToken")]. *)
Record page := Page {
  memos : list memo;
  nextPageToken : option string
}.

(** Functions of the Python libraries. *)
Record library := Library {
  md5 : string -> string;                        (* hashlib.md5(s.encode()).hexdigest() *)
  fromisoformat : string -> option datetime;     (* None: ValueError *)
  strftime : string -> datetime -> string;       (* dt.strftime(fmt) *)
  quote : string -> string                       (* urllib.parse.quote(s, safe='') *)
}.

Record config := Config {
  MEMOS_URL : option string;
  MEMOS_TOKEN : option string;
  DRY_RUN : bool
}.

Record world := World {
  get_memos : nat -> request -> response page;
  delete : nat -> request -> response unit;
  stdin : nat -> option string
}.

Inductive message :=
| MissingToken
| PageBadRequest (page_count : nat)
| PageNoMoreMemos (page_count : nat)
| PageFetched (page_count n : nat)
| TotalFetched (n : nat)
| FetchError
| ContinuingWith (n : nat)
| NoMemosFetched
| ModeBanner (dry_run : bool)
| WillPermanentlyDelete (n : nat)
| DeletionCancelled
| WouldDelete (memo_name : option string)
| Deleted (memo_name : option string)
| FailedToDelete (memo_name : option string)
| Progress (idx total : nat)
| SummaryWouldDelete (deleted_count : nat)
| SummaryDeleted (deleted_count : nat)
| SummaryFailed (failed_count : nat)
| HintSetDryRunFalse.

(** How a function is left: by [return], or by an exception nobody
    catches. *)
Inductive exit := Returned | Uncaught (exception : string).

Definition groups := list (string * list memo).

Section Script.
Variable L : library.
Variable C : config.
Variable W : world.

Definition extract_date (timestamp_str : string) : string :=
  if negb (Py.truthy timestamp_str) then "unknown"
  else
    match fromisoformat L (Py.replace "Z" "+00:00" timestamp_str) with
    | Some dt => strftime L "%Y-%m-%d" dt
    | None => "unknown"
    end.

(** The loop body of [fetch_all_memos]; [fuel] bounds the number of
    pages requested ([None] when it runs out). *)
Definition finish (all_memos : list memo) : M message (option (list memo)) :=
  print (TotalFetched (length all_memos)) ;;
  ret (Some all_memos).

Definition on_exception (all_memos : list memo)
  : M message (option (list memo)) :=
  print FetchError ;;
  match all_memos with
  | _ :: _ =>
      print (ContinuingWith (length all_memos)) ;;
      ret (Some all_memos)
  | [] => ret (Some [])
  end.

Definition page_url (page_token : option string) : string :=
  let url := (Py.str_opt (MEMOS_URL C) ++ "/api/v1/memos?pageSize=100")%string in
  match page_token with
  | Some token =>
      if Py.truthy token then (url ++ "&pageToken=" ++ quote L token)%string
      else url
  | None => url
  end.

Fixpoint fetch_pages (fuel : nat) (all_memos : list memo)
    (page_token : option string) (page_count : nat)
  : M message (option (list memo)) :=
  match fuel with
  | O => ret None
  | S fuel' =>
      let page_count := S page_count in
      response <- send (get_memos W) (Request GET (page_url page_token) []) ;;
      match response with
      | Raised => on_exception all_memos
      | Answered status_code json =>
          if raises_for_status status_code then
            if (status_code =? 400)%Z then
              print (PageBadRequest page_count) ;;
              finish all_memos
            else on_exception all_memos
          else
            match json with
            | None => on_exception all_memos
            | Some data =>
                match memos data with
                | [] =>
                    print (PageNoMoreMemos page_count) ;;
                    finish all_memos
                | _ :: _ =>
                    let all_memos := all_memos ++ memos data in
                    print (PageFetched page_count (length (memos data))) ;;
                    if Py.truthy_opt (nextPageToken data)
                    then fetch_pages fuel' all_memos (nextPageToken data)
                           page_count
                    else finish all_memos
                end
            end
      end
  end.

Definition fetch_all_memos (fuel : nat) : M message (option (list memo)) :=
  fetch_pages fuel [] None 0.

Definition composite_key (memo : memo) : string :=
  let create_time := get (createTime memo) "" in
  let date := extract_date create_time in
  let content_hash := md5 L (get (content memo) "") in
  (content_hash ++ "_" ++ date)%string.

(** [content_date_groups[composite_key].append(memo)] on a
    [defaultdict(list)], which keeps its keys in insertion order. *)
Fixpoint append_to (key : string) (m : memo) (d : groups) : groups :=
  match d with
  | [] => [(key, [m])]
  | (k, memo_list) :: d' =>
      if String.eqb k key then (k, memo_list ++ [m]) :: d'
      else (k, memo_list) :: append_to key m d'
  end.

Definition content_date_groups (memos : list memo) : groups :=
  fold_left
    (fun d memo =>
       if Py.truthy (get (content memo) "")
       then append_to (composite_key memo) memo d
       else d)
    memos [].

(** The dict [find_duplicates] returns; what it prints is left out. *)
Definition find_duplicates (memos : list memo) : groups :=
  filter (fun kv => (1 <? length (snd kv))%nat) (content_date_groups memos).

Definition memo_url (memo_name : option string) : string :=
  (Py.str_opt (MEMOS_URL C) ++ "/api/v1/" ++ Py.str_opt memo_name)%string.

(** [for memo in memo_list[1:]], with the two counters as state. *)
Fixpoint delete_each (rest : list memo) (counts : nat * nat)
  : M message (nat * nat) :=
  match rest with
  | [] => ret counts
  | memo :: rest' =>
      let memo_name := name memo in
      let (deleted_count, failed_count) := counts in
      counts' <-
        (if DRY_RUN C then
           print (WouldDelete memo_name) ;;
           ret (S deleted_count, failed_count)
         else
           response <- send (delete W) (Request DELETE (memo_url memo_name) []) ;;
           match response with
           | Answered status_code _ =>
               if raises_for_status status_code then
                 print (FailedToDelete memo_name) ;;
                 ret (deleted_count, S failed_count)
               else
                 print (Deleted memo_name) ;;
                 ret (S deleted_count, failed_count)
           | Raised =>
               print (FailedToDelete memo_name) ;;
               ret (deleted_count, S failed_count)
           end) ;;
      delete_each rest' counts'
  end.

Definition sort_by_create_time (memo_list : list memo) : list memo :=
  Py.sort (fun x => get (createTime x) "") memo_list.

(** [for idx, (composite_key, memo_list) in enumerate(duplicates.items(), 1)]. *)
Fixpoint delete_sets (total : nat) (idx : nat) (d : groups)
    (counts : nat * nat) : M message (nat * nat) :=
  match d with
  | [] => ret counts
  | (_, memo_list) :: d' =>
      let memo_list := sort_by_create_time memo_list in
      counts' <- delete_each (tl memo_list) counts ;;
      (if (idx mod 10 =? 0)%nat then print (Progress idx total) else ret tt) ;;
      delete_sets total (S idx) d' counts'
  end.

Definition summary (counts : nat * nat) : M message unit :=
  let (deleted_count, failed_count) := counts in
  if DRY_RUN C then print (SummaryWouldDelete deleted_count)
  else
    print (SummaryDeleted deleted_count) ;;
    if (0 <? failed_count)%nat then print (SummaryFailed failed_count)
    else ret tt.

Definition to_delete (duplicates : groups) : nat :=
  list_sum (map (fun kv => length (snd kv) - 1)%nat duplicates).

Definition delete_confirmed (duplicates : groups) : M message exit :=
  counts <- delete_sets (length duplicates) 1 duplicates (0, 0)%nat ;;
  summary counts ;;
  ret Returned.

Definition delete_duplicates (duplicates : groups) : M message exit :=
  match duplicates with
  | [] => ret Returned
  | _ :: _ =>
      print (ModeBanner (DRY_RUN C)) ;;
      if negb (DRY_RUN C) then
        print (WillPermanentlyDelete (to_delete duplicates)) ;;
        confirm <- input (stdin W) "Continue? (yes/no): " ;;
        match confirm with
        | None => ret (Uncaught "EOFError")
        | Some confirm =>
            if negb (String.eqb (Py.lower confirm) "yes") then
              print DeletionCancelled ;;
              ret Returned
            else delete_confirmed duplicates
        end
      else delete_confirmed duplicates
  end.

(** What [main] does with the memos it fetched. *)
Definition process (memos : list memo) : M message exit :=
  match memos with
  | [] =>
      print NoMemosFetched ;;
      ret Returned
  | _ :: _ =>
      let duplicates := find_duplicates memos in
      match duplicates with
      | [] => ret Returned
      | _ :: _ =>
          e <- delete_duplicates duplicates ;;
          match e with
          | Returned =>
              (if DRY_RUN C then print HintSetDryRunFalse else ret tt) ;;
              ret Returned
          | Uncaught x => ret (Uncaught x)
          end
      end
  end.

Definition main (fuel : nat) : M message (option exit) :=
  if negb (Py.truthy_opt (MEMOS_TOKEN C)) then
    print MissingToken ;;
    ret (Some Returned)
  else
    fetched <- fetch_all_memos fuel ;;
    match fetched with
    | None => ret None
    | Some memos =>
        e <- process memos ;;
        ret (Some e)
    end.

(** *** Vocabulary of the statements *)

(** The memos the executor goes through: in every set, all but the first
    after sorting. *)
Definition plan_of (duplicates : groups) : list memo :=
  flat_map (fun kv => tl (sort_by_create_time (snd kv))) duplicates.

(** The memos a run deletes (or would delete). *)
Definition plan (memos : list memo) : list memo :=
  plan_of (find_duplicates memos).

Definition delete_request (m : memo) : request :=
  Request DELETE (memo_url (name m)) [].

(** The memos that have a content and the derived key [key], in fetch
    order. *)
Definition group_of (memos : list memo) (key : string) : list memo :=
  filter
    (fun m =>
       Py.truthy (get (content m) "") && String.eqb (composite_key m) key)
    memos.

(** The memos with the derived key [key], with or without content. *)
Definition sharing (memos : list memo) (key : string) : list memo :=
  filter (fun m => String.eqb (composite_key m) key) memos.

(** The duplicate policy read over every fetched memo: in each group of
    two or more memos sharing a derived key, all but the first after
    sorting are planned for deletion. *)
Definition every_sharing_group_is_planned (memos : list memo) : Prop :=
  forall key kept rest,
    2 <= length (sharing memos key) ->
    sort_by_create_time (sharing memos key) = kept :: rest ->
    incl rest (plan memos).

(** [d[key]] for a dict kept as the list of its items. *)
Fixpoint lookup (key : string) (d : groups) : option (list memo) :=
  match d with
  | [] => None
  | (k, memo_list) :: d' =>
      if String.eqb k key then Some memo_list else lookup key d'
  end.

(** A page that lets the loop go on: it has memos and a next token. *)
Definition continuing (p : page) : Prop :=
  memos p <> [] /\ Py.truthy_opt (nextPageToken p) = true.

(** The requests numbered [n], [n + 1], ... are answered with [pages]. *)
Definition served (n : nat) (pages : list page) : Prop :=
  forall k p r,
    nth_error pages k = Some p ->
    get_memos W (n + k) r = Answered 200 (Some p).

Definition token_after (page_token : option string) (pages : list page)
  : option string :=
  fold_left (fun _ p => nextPageToken p) pages page_token.

Definition records (pages : list page) : list memo :=
  concat (map memos pages).
End Script.

End Duplicates.

(** * [delete_old_memos.py] *)

Module OldMemos.

(** A timestamp field: an ISO string ([createTime]) or a Unix epoch
    ([createdTs]). *)
Inductive stamp := Str (s : string) | Num (n : Z).

Record memo := Memo {
  name : option string;
  id : option string;
  uid : option string;
  content : option string;
  createTime : option stamp;
  createdTs : option stamp
}.

Record page := Page {
  memos : list memo;
  nextPageToken : option string
}.

(** An item of [memos_to_delete]. *)
Record entry := Entry {
  entry_name : option string;
  entry_id : option string;
  entry_content : string;
  entry_date : string
}.

Record library := Library {
  fromisoformat : string -> option datetime;   (* None: ValueError *)
  fromtimestamp : Z -> option datetime;        (* local time; None: OverflowError, OSError *)
  strftime : string -> datetime -> string
}.

Record config := Config {
  MEMOS_URL : string;
  MEMOS_TOKEN : option string;
  CUTOFF_DATE : string;
  DRY_RUN : bool
}.

Record world := World {
  get_memos : nat -> request -> response page;
  delete : nat -> request -> response unit
}.

Inductive message :=
| MissingConfiguration
| InvalidCutoff
| PageCount (page_count n : nat)
| FailedToFetch
| ErrorFetching
| Fetched (n : nat)
| NoMemosFound
| SkippingMemo
| FoundToDelete (n : nat)
| NoMemosToDelete
| WouldDelete (e : entry)
| DeletedOk (e : entry)
| DeleteFailed (e : entry)
| DeleteError
| DryRunSummary (deleted_count : nat)
| SuccessfullyDeleted (deleted_count : nat)
| FailedCount (failed_count : nat).

(** The classifier's verdict on one memo. *)
Inductive action := Delete | Skip.

(** Why the loop over the memos keeps or drops one. *)
Inductive outcome :=
| Selected (e : entry)      (* appended to memos_to_delete *)
| NotBefore                 (* memo_dt < cutoff_dt is False *)
| NoTimestamp               (* not create_time: continue *)
| DateError.                (* except Exception: continue *)

Section Script.
Variable L : library.
Variable C : config.
Variable W : world.

Definition truthy_stamp (v : option stamp) : bool :=
  match v with
  | None => false
  | Some (Str s) => Py.truthy s
  | Some (Num n) => negb (n =? 0)%Z
  end.

(** Python's [a or b]. *)
Definition or_ (a b : option stamp) : option stamp :=
  if truthy_stamp a then a else b.

Definition or_str (a b : option string) : option string :=
  if Py.truthy_opt a then a else b.

Definition get (field : option string) (default : string) : string :=
  match field with Some s => s | None => default end.

Definition done (all_memos : list memo) : M message (option (list memo)) :=
  print (Fetched (length all_memos)) ;;
  ret (Some all_memos).

Definition page_params (page_token : option string) : list (string * string) :=
  if Py.truthy_opt page_token
  then [("pageSize", "100"); ("pageToken", Py.str_opt page_token)]
  else [("pageSize", "100")].

(** The loop of [get_all_memos]; [fuel] bounds the number of pages
    requested ([None] when it runs out). *)
Fixpoint get_pages (fuel : nat) (all_memos : list memo)
    (page_token : option string) (page_count : nat)
  : M message (option (list memo)) :=
  match fuel with
  | O => ret None
  | S fuel' =>
      let page_count := S page_count in
      let url := (MEMOS_URL C ++ "/api/v1/memos")%string in
      response <- send (get_memos W) (Request GET url (page_params page_token)) ;;
      match response with
      | Raised =>
          print ErrorFetching ;;
          done all_memos
      | Answered status_code json =>
          if (status_code =? 200)%Z then
            match json with
            | None =>
                print ErrorFetching ;;
                done all_memos
            | Some data =>
                let all_memos := all_memos ++ memos data in
                print (PageCount page_count (length (memos data))) ;;
                if Py.truthy_opt (nextPageToken data)
                then get_pages fuel' all_memos (nextPageToken data) page_count
                else done all_memos
            end
          else
            print FailedToFetch ;;
            done all_memos
      end
  end.

Definition get_all_memos (fuel : nat) : M message (option (list memo)) :=
  get_pages fuel [] None 0.

Definition delete_url (memo_name memo_id : option string) : string :=
  if Py.truthy_opt memo_name
  then (MEMOS_URL C ++ "/api/v1/" ++ Py.str_opt memo_name)%string
  else (MEMOS_URL C ++ "/api/v1/memos/" ++ Py.str_opt memo_id)%string.

Definition delete_memo (memo_name memo_id : option string) : M message bool :=
  let url := delete_url memo_name memo_id in
  response <- send (delete W) (Request DELETE url []) ;;
  match response with
  | Answered status_code _ => ret (status_code =? 200)%Z
  | Raised =>
      print DeleteError ;;
      ret false
  end.

(** [isinstance(create_time, str)] picks the parser. *)
Definition parse (create_time : stamp) : option datetime :=
  match create_time with
  | Str s => fromisoformat L (Py.replace "Z" "+00:00" s)
  | Num n => fromtimestamp L n
  end.

(** One turn of the loop [for memo in memos]. *)
Definition examine (cutoff_dt : datetime) (memo : memo) : outcome :=
  let create_time := or_ (createTime memo) (createdTs memo) in
  if negb (truthy_stamp create_time) then NoTimestamp
  else
    match create_time with
    | None => NoTimestamp
    | Some create_time =>
        match parse create_time with
        | None => DateError
        | Some memo_dt =>
            match Datetime.lt memo_dt cutoff_dt with
            | None => DateError
            | Some true =>
                Selected
                  {| entry_name := name memo;
                     entry_id := or_str (id memo) (uid memo);
                     entry_content := substring 0 50 (get (content memo) "");
                     entry_date := strftime L "%Y-%m-%d %H:%M:%S" memo_dt |}
            | Some false => NotBefore
            end
        end
    end.

Definition classify (cutoff_dt : datetime) (memo : memo) : action :=
  match examine cutoff_dt memo with
  | Selected _ => Delete
  | _ => Skip
  end.

Fixpoint filter_memos (cutoff_dt : datetime) (memos : list memo)
  : M message (list entry) :=
  match memos with
  | [] => ret []
  | memo :: memos' =>
      match examine cutoff_dt memo with
      | Selected e =>
          rest <- filter_memos cutoff_dt memos' ;;
          ret (e :: rest)
      | DateError =>
          print SkippingMemo ;;
          filter_memos cutoff_dt memos'
      | NotBefore | NoTimestamp => filter_memos cutoff_dt memos'
      end
  end.

(** [memos_to_delete] as a function of the snapshot. *)
Definition memos_to_delete (cutoff_dt : datetime) (memos : list memo)
  : list entry :=
  flat_map
    (fun memo =>
       match examine cutoff_dt memo with Selected e => [e] | _ => [] end)
    memos.

(** [for i, memo in enumerate(memos_to_delete, 1)], with the two
    counters as state. *)
Fixpoint delete_all (plan : list entry) (counts : nat * nat)
  : M message (nat * nat) :=
  match plan with
  | [] => ret counts
  | e :: plan' =>
      let (deleted_count, failed_count) := counts in
      counts' <-
        (if DRY_RUN C then
           print (WouldDelete e) ;;
           ret (S deleted_count, failed_count)
         else
           ok <- delete_memo (entry_name e) (entry_id e) ;;
           counts' <-
             (if ok : bool then
                print (DeletedOk e) ;;
                ret (S deleted_count, failed_count)
              else
                print (DeleteFailed e) ;;
                ret (deleted_count, S failed_count)) ;;
           sleep ;;
           ret counts') ;;
      delete_all plan' counts'
  end.

Definition final_summary (counts : nat * nat) : M message unit :=
  let (deleted_count, failed_count) := counts in
  if DRY_RUN C then print (DryRunSummary deleted_count)
  else
    print (SuccessfullyDeleted deleted_count) ;;
    if (0 <? failed_count)%nat then print (FailedCount failed_count)
    else ret tt.

(** What [main] does with the memos it fetched.  The listing of the first
    ten entries and the progress prefix of each line are left out. *)
Definition process (cutoff_dt : datetime) (memos : list memo)
  : M message unit :=
  match memos with
  | [] => print NoMemosFound
  | _ :: _ =>
      plan <- filter_memos cutoff_dt memos ;;
      print (FoundToDelete (length plan)) ;;
      match plan with
      | [] => print NoMemosToDelete
      | _ :: _ =>
          counts <- delete_all plan (0, 0)%nat ;;
          final_summary counts
      end
  end.

Definition main (fuel : nat) : M message (option unit) :=
  if negb (Py.truthy (MEMOS_URL C) && Py.truthy_opt (MEMOS_TOKEN C)) then
    print MissingConfiguration ;;
    ret (Some tt)
  else
    match fromisoformat L (Py.replace "Z" "+00:00" (CUTOFF_DATE C)) with
    | None =>
        print InvalidCutoff ;;
        ret (Some tt)
    | Some cutoff_dt =>
        fetched <- get_all_memos fuel ;;
        match fetched with
        | None => ret None
        | Some memos =>
            process cutoff_dt memos ;;
            ret (Some tt)
        end
    end.

(** *** Vocabulary of the statements *)

Definition delete_request (e : entry) : request :=
  Request DELETE (delete_url (entry_name e) (entry_id e)) [].

(** The timestamp the loop reads: [createTime], or else [createdTs]. *)
Definition create_time (memo : memo) : option stamp :=
  or_ (createTime memo) (createdTs memo).

(** A page that lets the loop go on: it has a next token. *)
Definition continuing (p : page) : Prop :=
  Py.truthy_opt (nextPageToken p) = true.

(** The requests numbered [n], [n + 1], ... are answered with [pages]. *)
Definition served (n : nat) (pages : list page) : Prop :=
  forall k p r,
    nth_error pages k = Some p ->
    get_memos W (n + k) r = Answered 200 (Some p).

Definition token_after (page_token : option string) (pages : list page)
  : option string :=
  fold_left (fun _ p => nextPageToken p) pages page_token.

Definition records (pages : list page) : list memo :=
  concat (map memos pages).
End Script.

End OldMemos.

(** * [x_scraper_fast_scrolling.py] *)

Module Scraper.

(** What the locators find in one [article[data-testid="tweet"]]. *)
Record tweet := Tweet {
  tweet_texts : list (option string);  (* inner_text() of each tweetText element; None: the call raises *)
  time_datetime : option string;       (* the datetime attribute of the first <time>, if any *)
  img_srcs : list (option string);     (* src of each media image *)
  has_video : bool;                    (* a <video> element is present *)
  status_href : option string          (* href of the first link to /status/, if any *)
}.

Record library := Library {
  md5 : string -> string;              (* hashlib.md5(s.encode()).hexdigest() *)
  b64encode : string -> string         (* base64.b64encode(b).decode("utf-8") *)
}.

Record config := Config {
  MEMOS_URL : option string;
  MEMOS_TOKEN : option string;
  MAX_SCROLLS : nat
}.

Record world := World {
  visible : nat -> list (option tweet);                 (* the tweets on the page; None: a locator call raises *)
  post_memo : nat -> request -> response (option string);       (* body: data.get("name") *)
  patch_memo : nat -> request -> response unit;
  get_image : nat -> request -> response string;                (* body: resp.content *)
  post_attachment : nat -> request -> response (option string); (* body: res.json().get("name") *)
  yt_dlp : nat -> option string                                 (* the downloaded file, if any *)
}.

Inductive message :=
| MemoCreated (memo_name : option string)
| TimestampUpdated (timestamp : string)
| TimestampUpdateFailed (status_code : Z)
| Attached (attachment : string)
| FailedToCreateMemo
| UnexpectedError
| FailedToUploadImage
| UnexpectedImageError
| DownloadingVideo
| VideoDownloaded (path : string)
| YtDlpFailed
| UploadingVideo
| VideoUploaded (attachment : option string)
| FailedToUploadVideo
| Scanning (n : nat)
| DetectedRepost
| DetectedVideo
| NewTweet (text : string)
| TweetDate (timestamp : string)
| ErrorProcessingTweet
| NoNewTweets
| Scrolling
| Finished (n : nat).

Definition nl : string := String "010" EmptyString.

Section Script.
Variable L : library.
Variable C : config.
Variable W : world.

Definition api (path : string) : string :=
  (Py.str_opt (MEMOS_URL C) ++ "/api/v1/" ++ path)%string.

(** [s.split('?')[0]]. *)
Fixpoint before_question_mark (s : string) : string :=
  match s with
  | EmptyString => EmptyString
  | String a s' =>
      if Ascii.eqb a "?" then EmptyString
      else String a (before_question_mark s')
  end.

(** [s.split("/")[-1]]. *)
Fixpoint after_last_slash (s : string) : string :=
  match s with
  | EmptyString => EmptyString
  | String a s' =>
      if existsb (Ascii.eqb "/") (list_ascii_of_string s')
      then after_last_slash s'
      else if Ascii.eqb a "/" then s' else s
  end.

Definition endswith (suffix s : string) : bool :=
  let n := String.length s in
  let k := String.length suffix in
  (k <=? n)%nat && String.eqb (substring (n - k) k s) suffix.

Definition upload_image_to_memos (img_url memo_name : option string)
  : M message (option string) :=
  match img_url with
  | None =>
      print UnexpectedImageError ;;
      ret None
  | Some img_url =>
      let img_url :=
        (before_question_mark img_url ++ "?format=jpg&name=large")%string in
      resp <- send (get_image W) (Request GET img_url []) ;;
      match resp with
      | Raised =>
          print FailedToUploadImage ;;
          ret None
      | Answered status_code body =>
          if raises_for_status status_code then
            print FailedToUploadImage ;;
            ret None
          else
            let filename :=
              before_question_mark (after_last_slash img_url) in
            let filename :=
              if existsb (fun ext => endswith ext filename)
                   [".jpg"; ".jpeg"; ".png"; ".gif"; ".webp"]
              then filename else (filename ++ ".jpg")%string in
            let encoded :=
              b64encode L (match body with Some b => b | None => "" end) in
            res <- send (post_attachment W)
                     (Request POST (api "attachments")
                        [("filename", filename); ("content", encoded);
                         ("type", "image/jpeg");
                         ("memo", Py.str_opt memo_name)]) ;;
            match res with
            | Raised =>
                print FailedToUploadImage ;;
                ret None
            | Answered status_code json =>
                if raises_for_status status_code then
                  print FailedToUploadImage ;;
                  ret None
                else
                  match json with
                  | None =>
                      print FailedToUploadImage ;;
                      ret None
                  | Some attachment => ret attachment
                  end
            end
      end
  end.

Definition download_video_with_ytdlp (tweet_url : string)
  : M message (option string) :=
  print DownloadingVideo ;;
  downloaded <- look (yt_dlp W) ;;
  match downloaded with
  | Some temp_file =>
      print (VideoDownloaded temp_file) ;;
      ret (Some temp_file)
  | None =>
      print YtDlpFailed ;;
      ret None
  end.

(** The calls on the file system ([os.path.exists], reading the file, the
    removal of the temporary file) are left out, and with them the
    content of the payload. *)
Definition upload_video_to_memos (video_path : string)
    (memo_name : option string) : M message (option string) :=
  print UploadingVideo ;;
  res <- send (post_attachment W)
           (Request POST (api "attachments")
              [("filename", after_last_slash video_path);
               ("type", "video/mp4"); ("memo", Py.str_opt memo_name)]) ;;
  match res with
  | Raised =>
      print FailedToUploadVideo ;;
      ret None
  | Answered status_code json =>
      if raises_for_status status_code then
        print FailedToUploadVideo ;;
        ret None
      else
        match json with
        | None =>
            print FailedToUploadVideo ;;
            ret None
        | Some attachment_name =>
            print (VideoUploaded attachment_name) ;;
            ret attachment_name
        end
  end.

Fixpoint upload_images (images : list (option string))
    (memo_name : option string) : M message unit :=
  match images with
  | [] => ret tt
  | img_url :: images' =>
      attachment <- upload_image_to_memos img_url memo_name ;;
      (match attachment with
       | Some a => if Py.truthy a then print (Attached a) else ret tt
       | None => ret tt
       end) ;;
      upload_images images' memo_name
  end.

(** The tail of [create_memo]: images, then the video. *)
Definition attach (images : list (option string))
    (video_url memo_name : option string) : M message unit :=
  upload_images images memo_name ;;
  match video_url with
  | Some url =>
      if Py.truthy url then
        video_path <- download_video_with_ytdlp url ;;
        match video_path with
        | Some path =>
            if Py.truthy path then
              upload_video_to_memos path memo_name ;;
              ret tt
            else ret tt
        | None => ret tt
        end
      else ret tt
  | None => ret tt
  end.

Definition create_request (text : string) : request :=
  Request POST (api "memos") [("content", text); ("visibility", "PRIVATE")].

Definition backdate_request (memo_name : option string) (timestamp : string)
  : request :=
  Request PATCH (api (Py.str_opt memo_name)) [("createTime", timestamp)].

Definition create_memo (text : string) (timestamp : option string)
    (images : list (option string)) (video_url : option string)
  : M message unit :=
  resp <- send (post_memo W) (create_request text) ;;
  match resp with
  | Raised => print FailedToCreateMemo
  | Answered status_code json =>
      if raises_for_status status_code then print FailedToCreateMemo
      else
        match json with
        | None => print FailedToCreateMemo
        | Some memo_name =>
            print (MemoCreated memo_name) ;;
            match timestamp with
            | Some ts =>
                if Py.truthy ts then
                  patch_response <-
                    send (patch_memo W) (backdate_request memo_name ts) ;;
                  match patch_response with
                  | Raised => print FailedToCreateMemo
                  | Answered patch_status _ =>
                      (if (patch_status =? 200)%Z
                       then print (TimestampUpdated ts)
                       else print (TimestampUpdateFailed patch_status)) ;;
                      attach images video_url memo_name
                  end
                else attach images video_url memo_name
            | None => attach images video_url memo_name
            end
        end
  end.

Definition parse_twitter_timestamp (datetime_attr : option string)
  : option string :=
  if Py.truthy_opt datetime_attr then datetime_attr else None.

Definition extract_tweet_url (href : option string) : option string :=
  match href with
  | Some h =>
      if Py.truthy h then
        if Py.startswith "/" h then Some ("https://x.com" ++ h)%string
        else Some h
      else None
  | None => None
  end.

(** The text of a tweet: the non-empty [inner_text]s, the first two
    joined when there are several ([None] when there is none). *)
Definition texts_of (t : tweet) : list string :=
  flat_map
    (fun txt =>
       match txt with
       | Some s => if Py.truthy s then [s] else []
       | None => []
       end)
    (tweet_texts t).

Definition text_of (t : tweet) : option string :=
  match texts_of t with
  | [] => None
  | t0 :: [] => Some t0
  | t0 :: t1 :: _ => Some (t0 ++ nl ++ nl ++ "---" ++ nl ++ nl ++ t1)%string
  end.

Definition timestamp_of (t : tweet) : option string :=
  parse_twitter_timestamp (time_datetime t).

Definition video_url_of (t : tweet) : option string :=
  if has_video t then extract_tweet_url (status_href t) else None.

(** [sig]: the digest of text, timestamp, number of images and
    [bool(video_url)]. *)
Definition signature (text : string) (timestamp : option string)
    (images : list (option string)) (video_url : option string) : string :=
  md5 L (text ++ Py.str_opt timestamp ++ Py.str_nat (length images)
           ++ Py.str_bool (Py.truthy_opt video_url))%string.

Definition signature_of (t : tweet) : option string :=
  match text_of t with
  | Some text =>
      Some (signature text (timestamp_of t) (img_srcs t) (video_url_of t))
  | None => None
  end.

(** [sig in seen_tweets]; the set is kept as the list of its members. *)
Definition mem (sig : string) (seen_tweets : list string) : bool :=
  existsb (String.eqb sig) seen_tweets.

(** [seen_tweets.add(sig)]. *)
Definition add (sig : string) (seen_tweets : list string) : list string :=
  if mem sig seen_tweets then seen_tweets else sig :: seen_tweets.

(** [for tweet in tweets], with [seen_tweets] and [found_new] as state. *)
Fixpoint scan (tweets : list (option tweet)) (seen_tweets : list string)
    (found_new : bool) : M message (list string * bool) :=
  match tweets with
  | [] => ret (seen_tweets, found_new)
  | None :: tweets' =>
      print ErrorProcessingTweet ;;
      scan tweets' seen_tweets found_new
  | Some t :: tweets' =>
      match text_of t with
      | None => scan tweets' seen_tweets found_new
      | Some text =>
          (match texts_of t with
           | _ :: _ :: _ => print DetectedRepost
           | _ => ret tt
           end) ;;
          let timestamp := timestamp_of t in
          let images := img_srcs t in
          let video_url := video_url_of t in
          (if Py.truthy_opt video_url then print DetectedVideo else ret tt) ;;
          let sig := signature text timestamp images video_url in
          if mem sig seen_tweets then scan tweets' seen_tweets found_new
          else
            print (NewTweet (substring 0 50 text)) ;;
            (match timestamp with
             | Some ts => print (TweetDate ts)
             | None => ret tt
             end) ;;
            create_memo text timestamp images video_url ;;
            scan tweets' (add sig seen_tweets) true
      end
  end.

(** [while scroll_attempts < MAX_SCROLLS], [remaining] being
    [MAX_SCROLLS - scroll_attempts]. *)
Fixpoint scroll (remaining : nat) (seen_tweets : list string)
  : M message (list string) :=
  match remaining with
  | O =>
      print (Finished (length seen_tweets)) ;;
      ret seen_tweets
  | S remaining' =>
      tweets <- look (visible W) ;;
      print (Scanning (length tweets)) ;;
      scanned <- scan tweets seen_tweets false ;;
      (if negb (snd scanned) then print NoNewTweets else ret tt) ;;
      print Scrolling ;;
      sleep ;;
      scroll remaining' (fst scanned)
  end.

(** The scraping part of [scrape_x], once the tweets have loaded. *)
Definition scrape_x : M message (list string) :=
  scroll (MAX_SCROLLS C) [].

(** *** Vocabulary of the statements *)

(** A request that creates a memo. *)
Definition is_creation (r : request) : bool :=
  match meth r with
  | POST => String.eqb (url r) (api "memos")
  | _ => false
  end.

Definition creations (t : list (event message)) : list request :=
  filter is_creation (requests t).

(** What the attachment uploads produce: image downloads and posts to
    the attachment endpoint, no update, no deletion, no creation. *)
Definition harmless (e : event message) : bool :=
  match e with
  | Sent r =>
      match meth r with
      | GET => true
      | POST => negb (is_creation r)
      | _ => false
      end
  | _ => true
  end.
End Script.

End Scraper.

(** * A reference instance of the library functions

    The statements below hold for every library and every world.  The
    instance here makes the scripts run on concrete data: an ISO parser
    for the form [YYYY-MM-DD?HH:MM:SS] with an optional [+HH:MM] or
    [-HH:MM], a UTC [fromtimestamp], zero-padded [strftime], and the
    identity in place of the digest and of the URL quoting. *)

Module Reference.

Definition digit (a : ascii) : option Z :=
  let n := nat_of_ascii a in
  if (48 <=? n)%nat && (n <=? 57)%nat then Some (Z.of_nat (n - 48)) else None.

(** The number written by the [k] characters of [s] from position [i]. *)
Fixpoint number (k : nat) (acc : Z) (s : list ascii) : option Z :=
  match k with
  | O => Some acc
  | S k' =>
      match s with
      | [] => None
      | a :: s' =>
          match digit a with
          | Some d => number k' (acc * 10 + d)%Z s'
          | None => None
          end
      end
  end.

Definition field (i k : nat) (s : list ascii) : option Z :=
  number k 0%Z (skipn i s).

Definition char_at (i : nat) (s : list ascii) : option ascii := nth_error s i.

Definition is_char (c : ascii) (o : option ascii) : bool :=
  match o with Some a => Ascii.eqb a c | None => false end.

Definition offset_of (s : list ascii) : option (option Z) :=
  match s with
  | [] => Some None
  | sign :: _ =>
      if (length s =? 6)%nat && is_char ":" (char_at 3 s) then
        match field 1 2 s, field 4 2 s with
        | Some h, Some m =>
            if ((h <? 24) && (m <? 60))%Z then
              if Ascii.eqb sign "+" then Some (Some (h * 3600 + m * 60)%Z)
              else if Ascii.eqb sign "-" then Some (Some (- (h * 3600 + m * 60))%Z)
              else None
            else None
        | _, _ => None
        end
      else None
  end.

Definition fromisoformat (date_string : string) : option datetime :=
  let s := list_ascii_of_string date_string in
  if (19 <=? length s)%nat
     && is_char "-" (char_at 4 s) && is_char "-" (char_at 7 s)
     && is_char ":" (char_at 13 s) && is_char ":" (char_at 16 s)
  then
    match field 0 4 s, field 5 2 s, field 8 2 s,
          field 11 2 s, field 14 2 s, field 17 2 s, offset_of (skipn 19 s) with
    | Some y, Some mo, Some d, Some h, Some mi, Some sec, Some tz =>
        if ((1 <=? y) && (1 <=? mo) && (mo <=? 12)
            && (1 <=? d) && (d <=? days_in_month y mo)
            && (h <? 24) && (mi <? 60) && (sec <? 60))%Z
        then Some (Datetime y mo d h mi sec 0 tz)
        else None
    | _, _, _, _, _, _, _ => None
    end
  else None.

(** Days since 1970-01-01 to year, month, day. *)
Definition civil_from_days (z : Z) : Z * Z * Z :=
  let z := (z + 719468)%Z in
  let era := (z / 146097)%Z in
  let doe := (z - era * 146097)%Z in
  let yoe := ((doe - doe / 1460 + doe / 36524 - doe / 146096) / 365)%Z in
  let doy := (doe - (365 * yoe + yoe / 4 - yoe / 100))%Z in
  let mp := ((5 * doy + 2) / 153)%Z in
  let d := (doy - (153 * mp + 2) / 5 + 1)%Z in
  let m := (if (mp <? 10)%Z then mp + 3 else mp - 9)%Z in
  let y := (yoe + era * 400 + (if (m <=? 2)%Z then 1 else 0))%Z in
  (y, m, d).

(** [datetime.fromtimestamp(ts)] on a machine whose local time is UTC:
    a naive value. *)
Definition fromtimestamp (ts : Z) : option datetime :=
  let days := (ts / 86400)%Z in
  let rem := (ts mod 86400)%Z in
  let '(y, m, d) := civil_from_days days in
  if ((1 <=? y) && (y <=? 9999))%Z
  then Some (Datetime y m d (rem / 3600) (rem mod 3600 / 60) (rem mod 60) 0 None)
  else None.

Definition pad (width : nat) (n : Z) : string :=
  let s := Py.str_nat (Z.to_nat n) in
  (string_of_list_ascii (repeat "0"%char (width - String.length s)) ++ s)%string.

Definition strftime (format : string) (d : datetime) : string :=
  let ymd := (pad 4 (year d) ++ "-" ++ pad 2 (month d) ++ "-" ++ pad 2 (day d))%string in
  if String.eqb format "%Y-%m-%d" then ymd
  else if String.eqb format "%Y-%m-%d %H:%M:%S" then
    (ymd ++ " " ++ pad 2 (hour d) ++ ":" ++ pad 2 (minute d) ++ ":"
         ++ pad 2 (second d))%string
  else format.

Definition duplicates_library : Duplicates.library :=
  Duplicates.Library (fun s => s) fromisoformat strftime (fun s => s).

Definition old_memos_library : OldMemos.library :=
  OldMemos.Library fromisoformat fromtimestamp strftime.

Definition scraper_library : Scraper.library :=
  Scraper.Library (fun s => s) (fun s => s).

End Reference.

(** * Concrete runs

    Data for the examples: the scenarios of the specification and a few
    small worlds. *)

Module Scenario.

Definition url : string := "http://memos".

(** ** Duplicates: records A, B and C *)

Definition A : Duplicates.memo :=
  Duplicates.Memo (Some "memos/A") (Some "hi") (Some "2024-01-01T10:00:00Z").
Definition B : Duplicates.memo :=
  Duplicates.Memo (Some "memos/B") (Some "hi") (Some "2024-01-01T12:00:00Z").
Definition C : Duplicates.memo :=
  Duplicates.Memo (Some "memos/C") (Some "bye") (Some "2024-01-01T09:00:00Z").

(** Two memos without content, created on the same day. *)
Definition E1 : Duplicates.memo :=
  Duplicates.Memo (Some "memos/E1") (Some "") (Some "2024-01-01T10:00:00Z").
Definition E2 : Duplicates.memo :=
  Duplicates.Memo (Some "memos/E2") (Some "") (Some "2024-01-01T12:00:00Z").

Definition dup_live : Duplicates.config :=
  Duplicates.Config (Some url) (Some "token") false.
Definition dup_dry : Duplicates.config :=
  Duplicates.Config (Some url) (Some "token") true.

(** One page with A, B and C; every delete succeeds; the console answers
    [answer]. *)
Definition dup_world (answer : option string) : Duplicates.world :=
  Duplicates.World
    (fun _ _ => Answered 200 (Some (Duplicates.Page [A; B; C] None)))
    (fun _ _ => Answered 200 (Some tt))
    (fun _ => answer).

(** A first page with A and B and a next token, then [failure]. *)
Definition dup_first_page : Duplicates.page :=
  Duplicates.Page [A; B] (Some "t1").

Definition dup_world_failing (failure : response Duplicates.page)
  : Duplicates.world :=
  Duplicates.World
    (fun k _ => match k with O => Answered 200 (Some dup_first_page) | _ => failure end)
    (fun _ _ => Answered 200 (Some tt))
    (fun _ => Some "no").

(** ** Old memos: a cutoff at the start of 2025 *)

Definition before : OldMemos.memo :=
  OldMemos.Memo (Some "memos/1") None None (Some "last of 2024")
    (Some (OldMemos.Str "2024-12-31T23:59:59Z")) None.
Definition at_cutoff : OldMemos.memo :=
  OldMemos.Memo (Some "memos/2") None None (Some "first of 2025")
    (Some (OldMemos.Str "2025-01-01T00:00:00Z")) None.
Definition undated : OldMemos.memo :=
  OldMemos.Memo (Some "memos/3") None None (Some "no date") None None.
Definition garbled : OldMemos.memo :=
  OldMemos.Memo (Some "memos/4") None None (Some "bad date")
    (Some (OldMemos.Str "yesterday")) None.

(** A memo of an older API: [createdTs] is 2023-11-14T22:13:20Z. *)
Definition epoch : OldMemos.memo :=
  OldMemos.Memo (Some "memos/5") None None (Some "from 2023") None
    (Some (OldMemos.Num 1700000000)).

Definition old_live : OldMemos.config :=
  OldMemos.Config url (Some "token") "2025-01-01T00:00:00Z" false.
Definition old_dry : OldMemos.config :=
  OldMemos.Config url (Some "token") "2025-01-01T00:00:00Z" true.

(** The configuration the script ships with. *)
Definition old_default : OldMemos.config :=
  OldMemos.Config url (Some "token") "2025-12-26T00:00:00Z" false.

Definition cutoff_2025 : datetime := Datetime 2025 1 1 0 0 0 0 (Some 0%Z).
Definition cutoff_default : datetime := Datetime 2025 12 26 0 0 0 0 (Some 0%Z).

Definition old_world (memos : list OldMemos.memo) : OldMemos.world :=
  OldMemos.World
    (fun _ _ => Answered 200 (Some (OldMemos.Page memos None)))
    (fun _ _ => Answered 200 (Some tt)).

Definition old_first_page : OldMemos.page :=
  OldMemos.Page [before; at_cutoff] (Some "t1").

Definition old_world_failing (failure : response OldMemos.page)
  : OldMemos.world :=
  OldMemos.World
    (fun k _ => match k with O => Answered 200 (Some old_first_page) | _ => failure end)
    (fun _ _ => Answered 200 (Some tt)).

(** ** Scraper: the same tweet seen twice, then another *)

Definition tweet1 : Scraper.tweet :=
  Scraper.Tweet [Some "hello"] (Some "2024-05-01T08:00:00.000Z") [] false None.
Definition tweet2 : Scraper.tweet :=
  Scraper.Tweet [Some "world"] (Some "2024-05-02T08:00:00.000Z") [] false None.

Definition scraper_config : Scraper.config :=
  Scraper.Config (Some url) (Some "token") 2.

(** Creation succeeds; the update of the timestamp is answered with
    [patch_status]. *)
Definition scraper_world (patch_status : Z) : Scraper.world :=
  Scraper.World
    (fun _ => [Some tweet1; Some tweet1; Some tweet2])
    (fun _ _ => Answered 200 (Some (Some "memos/9")))
    (fun _ _ => Answered patch_status (Some tt))
    (fun _ _ => Raised)
    (fun _ _ => Raised)
    (fun _ => None).

End Scenario.

(** * Further vocabulary

    Parts of the scripts that the models above leave out, and the words
    the further statements use. *)

Module Count.

(** The pauses of a trace ([time.sleep]). *)
Definition sleeps {Msg} (t : list (event Msg)) : nat :=
  length
    (filter (fun e => match e with Slept => true | _ => false end) t).

End Count.

Module DuplicatesReport.
Import Duplicates.

(** [display_limit] of [find_duplicates]. *)
Definition display_limit : nat := 15.

(** The counter [total_to_delete] of [find_duplicates]: one loop over the
    sets shown in detail, one over the sets that are not. *)
Definition total_to_delete (duplicates : groups) : nat :=
  let count := fun total (kv : string * list memo) =>
                 (total + (length (snd kv) - 1))%nat in
  let shown := fold_left count (firstn display_limit duplicates) 0%nat in
  fold_left count (skipn display_limit duplicates) shown.

(** [memo_list[0]] as [find_duplicates] reads it for its line
    "Will keep: ... (oldest)": the first memo of the set in fetch order. *)
Definition will_keep (memo_list : list memo) : option memo :=
  hd_error memo_list.

(** [memo_list[0]] as [delete_duplicates] leaves it: the first memo of the
    set once sorted by createTime. *)
Definition kept (memo_list : list memo) : option memo :=
  hd_error (sort_by_create_time memo_list).

(** The names a trace announces as "[DRY RUN] Would delete". *)
Definition would_delete_names (t : list (event message))
  : list (option string) :=
  flat_map
    (fun e => match e with Printed (WouldDelete n) => [n] | _ => [] end) t.


(** The page request the loop sends with [page_token]. *)
Definition page_request (L : library) (C : config)
    (page_token : option string) : request :=
  Request GET (page_url L C page_token) [].

(** The instant the createTime of a memo denotes, read the way
    [extract_date] reads it ([None] when it does not parse or carries no
    offset). *)
Definition created_at (L : library) (m : memo) : option Z :=
  match fromisoformat L (Py.replace "Z" "+00:00" (get (createTime m) "")) with
  | Some dt => Datetime.instant dt
  | None => None
  end.

(** The createTime texts of the memos of [G] compare as the instants they
    denote. *)
Definition text_order_is_time_order (L : library) (G : list memo) : Prop :=
  forall a b, In a G -> In b G ->
    exists ia ib,
      created_at L a = Some ia /\ created_at L b = Some ib /\
      (String.ltb (get (createTime a) "") (get (createTime b) "") = true
       <-> (ia < ib)%Z).

(** [kept] is the member of [G] with the minimal instant, the first in
    fetch order when several have it: the members before it, [l1], are
    strictly younger, the members after it, [l2], are not older. *)
Definition oldest_first (L : library) (G : list memo) (kept : memo)
    (l1 l2 : list memo) : Prop :=
  G = l1 ++ kept :: l2 /\
  exists ik,
    created_at L kept = Some ik /\
    (forall y, In y l1 ->
       exists iy, created_at L y = Some iy /\ (ik < iy)%Z) /\
    (forall y, In y l2 ->
       exists iy, created_at L y = Some iy /\ (ik <= iy)%Z).

(** The events of a page that is taken: its request and the line that
    counts its memos. *)
Definition page_taken (e : event message) : bool :=
  match e with
  | Sent _ => true
  | Printed (PageFetched _ _) => true
  | _ => false
  end.

(** The fetch ended the way it does at the end of the stream: the loop
    was left through [break] and the total announced, the handler of the
    outer [try] did not run. *)
Definition ends_normally (t : list (event message)) : Prop :=
  (exists total, In (Printed (TotalFetched total)) t) /\
  ~ In (Printed FetchError) t.

(** What [fetch_all_memos] prints after a page request answered with the
    error status [status_code], [all_memos] being the memos gathered so
    far and [page_count] the number of the page: the end of the results
    for 400, the error handler for every other status. *)
Definition after_refusal (status_code : Z) (page_count : nat)
    (all_memos : list memo) : list (event message) :=
  if (status_code =? 400)%Z then
    [Printed (PageBadRequest page_count);
     Printed (TotalFetched (length all_memos))]
  else
    Printed FetchError
    :: match all_memos with
       | [] => []
       | _ :: _ => [Printed (ContinuingWith (length all_memos))]
       end.

End DuplicatesReport.

Module OldMemosReport.
Import OldMemos.

(** The page request the loop sends with [page_token]. *)
Definition page_request (C : config) (page_token : option string) : request :=
  Request GET (MEMOS_URL C ++ "/api/v1/memos")%string (page_params page_token).

(** The events of a page that is taken: its request and the line that
    counts its memos. *)
Definition page_taken (e : event message) : bool :=
  match e with
  | Sent _ => true
  | Printed (PageCount _ _) => true
  | _ => false
  end.

(** The fetch ended the way it does at the end of the stream: the loop
    was left through [break] outside the exception handler and the total
    announced. *)
Definition ends_normally (t : list (event message)) : Prop :=
  (exists total, In (Printed (Fetched total)) t) /\
  ~ In (Printed ErrorFetching) t.

(** The memos the classifier marks for deletion, as a test. *)
Definition is_delete (L : library) (cutoff_dt : datetime) (memo : memo) : bool :=
  match classify L cutoff_dt memo with Delete => true | Skip => false end.

End OldMemosReport.

(** Further concrete data for the examples. *)

Module More.

(** A first page with a token, then a last page without. *)
Definition old_world_two_pages : OldMemos.world :=
  OldMemos.World
    (fun k _ =>
       match k with
       | O => Answered 200 (Some Scenario.old_first_page)
       | _ => Answered 200 (Some (OldMemos.Page [Scenario.epoch] None))
       end)
    (fun _ _ => Raised).

(** Two memos with the same content written on the same calendar day,
    the first at 01:00 UTC with the offset +09:00, the second at 09:00
    UTC. *)
Definition tokyo : Duplicates.memo :=
  Duplicates.Memo (Some "memos/T") (Some "hi") (Some "2024-01-01T10:00:00+09:00").
Definition greenwich : Duplicates.memo :=
  Duplicates.Memo (Some "memos/G") (Some "hi") (Some "2024-01-01T09:00:00+00:00").

(** A server on which images can be downloaded and attached. *)
Definition scraper_world_images : Scraper.world :=
  Scraper.World
    (fun _ => [])
    (fun _ _ => Answered 200 (Some (Some "memos/9")))
    (fun _ _ => Answered 200 (Some tt))
    (fun _ _ => Answered 200 (Some "bytes"))
    (fun _ _ => Answered 200 (Some (Some "attachments/1")))
    (fun _ => None).

End More.

Module ScraperReport.
Import Scraper.

(** An event that is not a pause. *)
Definition awake (e : event message) : bool :=
  match e with Slept => false | _ => true end.

(** A computation that never pauses. *)
Definition Awake {A} (m : M message A) : Prop :=
  forall n, forallb awake (trace m n) = true.

(** The URL [upload_image_to_memos] downloads an image from: the query
    string dropped, the large JPEG asked for. *)
Definition large_url (img_url : string) : string :=
  (before_question_mark img_url ++ "?format=jpg&name=large")%string.

(** The extensions [upload_image_to_memos] accepts in a file name. *)
Definition known_extension (filename : string) : bool :=
  existsb (fun ext => endswith ext filename)
    [".jpg"; ".jpeg"; ".png"; ".gif"; ".webp"].

(** The downloads of a trace: its [GET] requests. *)
Definition downloads (t : list (event message)) : list request :=
  filter (fun r => match meth r with GET => true | _ => false end) (requests t).

(** The image URLs that are present. *)
Definition present (images : list (option string)) : list string :=
  flat_map (fun o => match o with Some u => [u] | None => [] end) images.

(** The signatures of the tweets of a page that have one: the tweets
    that could be read and have a text. *)
Definition signatures (L : library) (tweets : list (option tweet))
  : list string :=
  flat_map
    (fun o =>
       match o with
       | Some t => match signature_of L t with Some s => [s] | None => [] end
       | None => []
       end)
    tweets.

(** Every tweet of the page that has a signature has been seen. *)
Definition all_seen (L : library) (tweets : list (option tweet))
    (seen_tweets : list string) : Prop :=
  forall sig, In sig (signatures L tweets) -> mem sig seen_tweets = true.

(** The creation did not go through: the request raised, was refused, or
    its answer could not be decoded. *)
Definition creation_failed (answer : response (option string)) : Prop :=
  match answer with
  | Raised => True
  | Answered status_code json =>
      raises_for_status status_code = true \/ json = None
  end.

End ScraperReport.

(** * Properties *)

(** ** Order facts on strings *)

Lemma ltb_lts (a b : string) :
  String.ltb a b = true <-> String_as_OT.lt a b.
Proof.
  unfold String.ltb. rewrite <- String_as_OT.cmp_lt.
  unfold String_as_OT.cmp. destruct (String.compare a b); split; congruence.
Qed.

Lemma ltb_trans (a b c : string) :
  String.ltb a b = true -> String.ltb b c = true -> String.ltb a c = true.
Proof.
  rewrite !ltb_lts. apply String_as_OT.lt_trans.
Qed.

Lemma ltb_leb (a b : string) : String.ltb a b = true -> String.leb a b = true.
Proof.
  unfold String.ltb, String.leb. destruct (String.compare a b); congruence.
Qed.

Lemma ltb_false_leb (a b : string) :
  String.ltb a b = false <-> String.leb b a = true.
Proof.
  unfold String.ltb, String.leb.
  pose proof (String_as_OT.cmp_antisym b a) as H.
  unfold String_as_OT.cmp in H. rewrite H.
  destruct (String.compare a b); simpl; split; congruence.
Qed.

Lemma leb_refl (a : string) : String.leb a a = true.
Proof.
  unfold String.leb.
  assert (H : String.compare a a = Eq) by (now apply String_as_OT.cmp_eq).
  now rewrite H.
Qed.

Lemma leb_ltb_trans (a b c : string) :
  String.leb a b = true -> String.ltb b c = true -> String.ltb a c = true.
Proof.
  intros Hab Hbc. unfold String.leb in Hab.
  destruct (String.compare a b) eqn:E; try discriminate.
  - apply String_as_OT.cmp_eq in E. now subst.
  - apply ltb_trans with b; [|assumption]. unfold String.ltb. now rewrite E.
Qed.

Lemma leb_trans (a b c : string) :
  String.leb a b = true -> String.leb b c = true -> String.leb a c = true.
Proof.
  intros Hab Hbc. unfold String.leb in Hbc.
  destruct (String.compare b c) eqn:E; try discriminate.
  - apply String_as_OT.cmp_eq in E. now subst.
  - apply ltb_leb, leb_ltb_trans with b; [assumption|].
    unfold String.ltb. now rewrite E.
Qed.

Lemma ltb_irrefl (a : string) : String.ltb a a = false.
Proof. apply ltb_false_leb, leb_refl. Qed.

(** ** The stable sort puts the first minimal element in front *)

Section SortFacts.
Variable A : Type.
Variable key : A -> string.

Lemma insert_perm (x : A) (l : list A) :
  Permutation (x :: l) (Py.insert key x l).
Proof.
  induction l as [|y l IH]; simpl; [reflexivity|].
  destruct (String.ltb (key y) (key x)); [|reflexivity].
  rewrite perm_swap. now constructor.
Qed.

Lemma sort_perm (l : list A) : Permutation l (Py.sort key l).
Proof.
  induction l as [|x l IH]; simpl; [reflexivity|].
  rewrite <- insert_perm. now constructor.
Qed.

Lemma sort_length (l : list A) : length (Py.sort key l) = length l.
Proof. symmetry. apply Permutation_length, sort_perm. Qed.

Lemma sort_head_first_min (l : list A) (x : A) (rest : list A) :
  Py.sort key l = x :: rest ->
  exists l1 l2, Py.first_min key l x l1 l2.
Proof.
  revert x rest. induction l as [|a l IH]; simpl; intros x rest H.
  - discriminate.
  - destruct (Py.sort key l) as [|y s] eqn:Es.
    + simpl in H. injection H as -> _.
      assert (l = []) as ->.
      { apply length_zero_iff_nil. rewrite <- (sort_length l), Es. reflexivity. }
      exists [], []. repeat split; simpl; intros; contradiction.
    + simpl in H. destruct (IH y s eq_refl) as (l1 & l2 & Hl & Hlt & Hle).
      destruct (String.ltb (key y) (key a)) eqn:E.
      * injection H as -> _.
        exists (a :: l1), l2. repeat split.
        -- simpl. now rewrite Hl.
        -- intros z [<-|Hz]; [assumption|now apply Hlt].
        -- assumption.
      * injection H as -> _.
        apply ltb_false_leb in E.
        exists [], l. repeat split.
        -- intros z [].
        -- intros z Hz. rewrite Hl in Hz. apply in_app_or in Hz.
           destruct Hz as [Hz|[<-|Hz]].
           ++ apply leb_trans with (key y); [assumption|].
              now apply ltb_leb, Hlt.
           ++ assumption.
           ++ apply leb_trans with (key y); [assumption|now apply Hle].
Qed.
End SortFacts.


(** ** Traces *)

Section TraceFacts.
Variable Msg : Type.
Implicit Types t : list (event Msg).

Lemma interactions_app t1 t2 :
  interactions (t1 ++ t2) = interactions t1 + interactions t2.
Proof.
  induction t1 as [|e t1 IH]; simpl; [reflexivity|].
  destruct (is_interaction e); simpl; now rewrite IH.
Qed.

Lemma mutations_app t1 t2 : mutations (t1 ++ t2) = mutations t1 ++ mutations t2.
Proof.
  induction t1 as [|e t1 IH]; simpl; [reflexivity|].
  destruct e; try assumption.
  destruct (mutating r); simpl; now rewrite IH.
Qed.

Lemma requests_app t1 t2 : requests (t1 ++ t2) = requests t1 ++ requests t2.
Proof.
  induction t1 as [|e t1 IH]; simpl; [reflexivity|].
  destruct e; try assumption. simpl. now rewrite IH.
Qed.

Lemma In_requests t r : In r (requests t) <-> In (Sent r) t.
Proof.
  induction t as [|e t IH]; simpl; [tauto|].
  destruct e; simpl; rewrite IH; clear IH;
    try (split; [now right|intros [H|H]; [discriminate H|exact H]]).
  split; intros [H|H]; auto; left; congruence.
Qed.

Lemma mutations_requests t : mutations t = filter mutating (requests t).
Proof.
  induction t as [|e t IH]; simpl; [reflexivity|].
  destruct e; try assumption. simpl. destruct (mutating r); now rewrite IH.
Qed.

Lemma requests_nil_mutations t : requests t = [] -> mutations t = [].
Proof. intros H. now rewrite mutations_requests, H. Qed.

(** Once confirmed, every trace is guarded. *)
Lemma guarded_confirmed t : guarded true t = true.
Proof.
  induction t as [|e t IH]; simpl; [reflexivity|].
  destruct e; try assumption. now rewrite orb_true_r.
Qed.

Lemma guarded_no_mutation c t : mutations t = [] -> guarded c t = true.
Proof.
  revert c. induction t as [|e t IH]; simpl; intros c H; [reflexivity|].
  destruct e; try now apply IH.
  destruct (mutating r); [discriminate|]. simpl. now apply IH.
Qed.

Lemma guarded_app c t1 t2 :
  guarded c t1 = true ->
  (c = true \/ mutations t2 = [] \/
     (exists p a, In (Asked p a) t1 /\ says_yes a = true)) ->
  guarded c (t1 ++ t2) = true.
Proof.
  revert c. induction t1 as [|e t1 IH]; simpl; intros c H1 H2.
  - destruct H2 as [->|[H2|(p & a & [] & _)]].
    + apply guarded_confirmed.
    + now apply guarded_no_mutation.
  - destruct e; try (apply IH; [assumption|]).
    + apply andb_true_iff in H1 as [Hr H1]. rewrite Hr. simpl.
      apply IH; [assumption|].
      destruct H2 as [H2|[H2|(p & a & [H|H] & Hy)]];
        [now left|now (right; left)|discriminate|right; right; eauto].
    + destruct (says_yes answer) eqn:E.
      * rewrite orb_true_r. left; reflexivity.
      * rewrite orb_false_r.
        destruct H2 as [H2|[H2|(p & a & [H|H] & Hy)]];
          [now left|now (right; left)| |right; right; eauto].
        injection H as -> ->. congruence.
    + destruct H2 as [H2|[H2|(p & a & [H|H] & Hy)]];
        [now left|now (right; left)|discriminate|right; right; eauto].
    + destruct H2 as [H2|[H2|(p & a & [H|H] & Hy)]];
        [now left|now (right; left)|discriminate|right; right; eauto].
    + destruct H2 as [H2|[H2|(p & a & [H|H] & Hy)]];
        [now left|now (right; left)|discriminate|right; right; eauto].
Qed.

(** The scan decides the property on positions. *)
Lemma guarded_sound c t :
  guarded c t = true ->
  forall t1 r t2,
    t = t1 ++ Sent r :: t2 -> mutating r = true ->
    c = true \/ exists p a, In (Asked p a) t1 /\ says_yes a = true.
Proof.
  revert c. induction t as [|e t IH]; intros c Hg t1 r t2 Ht Hm.
  - destruct t1; discriminate.
  - destruct t1 as [|e1 t1]; simpl in Ht; injection Ht as -> Ht.
    + simpl in Hg. rewrite Hm in Hg. simpl in Hg.
      apply andb_true_iff in Hg as [-> _]. now left.
    + assert (Hstep : forall c', guarded c' t = true ->
                c' = true \/ exists p a, In (Asked p a) t1 /\ says_yes a = true)
        by (intros c' Hc'; now apply (IH c' Hc' t1 r t2)).
      destruct e1; simpl in Hg.
      * apply andb_true_iff in Hg as [_ Hg].
        destruct (Hstep _ Hg) as [?|(p & a & ? & ?)]; [now left|].
        right; exists p, a; simpl; auto.
      * destruct (Hstep _ Hg) as [Hc|(p & a & ? & ?)].
        -- apply orb_true_iff in Hc as [?|Hy]; [now left|].
           right; exists prompt, answer; simpl; auto.
        -- right; exists p, a; simpl; auto.
      * destruct (Hstep _ Hg) as [?|(p & a & ? & ?)]; [now left|].
        right; exists p, a; simpl; auto.
      * destruct (Hstep _ Hg) as [?|(p & a & ? & ?)]; [now left|].
        right; exists p, a; simpl; auto.
      * destruct (Hstep _ Hg) as [?|(p & a & ? & ?)]; [now left|].
        right; exists p, a; simpl; auto.
Qed.

Lemma guarded_confirmed_before_mutation t :
  guarded false t = true -> confirmed_before_mutation t.
Proof.
  intros Hg t1 r t2 Ht Hm.
  destruct (guarded_sound _ Hg _ _ _ Ht Hm) as [?|?]; [discriminate|assumption].
Qed.

Lemma confirmed_before_mutation_guarded t :
  confirmed_before_mutation t -> guarded false t = true.
Proof.
  assert (G : forall t c,
             (forall t1 r t2, t = t1 ++ Sent r :: t2 -> mutating r = true ->
                c = true \/ exists p a, In (Asked p a) t1 /\ says_yes a = true) ->
             guarded c t = true).
  { clear t. induction t as [|e t IH]; intros c H; simpl; [reflexivity|].
    destruct e.
    - apply andb_true_iff; split.
      + destruct (mutating r) eqn:Hm; [|reflexivity]. simpl.
        destruct (H [] r t eq_refl Hm) as [?|(p & a & [] & _)]; assumption.
      + apply IH. intros t1 r' t2 -> Hm.
        destruct (H (Sent r :: t1) r' t2 eq_refl Hm) as [?|(p & a & [E|?] & ?)];
          [now left|discriminate|right; eauto].
    - apply IH. intros t1 r' t2 -> Hm.
      destruct (H (Asked prompt answer :: t1) r' t2 eq_refl Hm)
        as [->|(p & a & [E|?] & Hy)]; [now left| |right; eauto].
      injection E as <- <-. rewrite Hy. left. apply orb_true_r.
    - apply IH. intros t1 r' t2 -> Hm.
      destruct (H (Looked :: t1) r' t2 eq_refl Hm) as [?|(p & a & [E|?] & ?)];
        [now left|discriminate|right; eauto].
    - apply IH. intros t1 r' t2 -> Hm.
      destruct (H (Printed m :: t1) r' t2 eq_refl Hm) as [?|(p & a & [E|?] & ?)];
        [now left|discriminate|right; eauto].
    - apply IH. intros t1 r' t2 -> Hm.
      destruct (H (Slept :: t1) r' t2 eq_refl Hm) as [?|(p & a & [E|?] & ?)];
        [now left|discriminate|right; eauto]. }
  intros H. apply G. intros t1 r t2 Ht Hm. right. eapply H; eauto.
Qed.

(** Without an answer that says yes, a guarded trace has no mutation. *)
Lemma guarded_unconfirmed t :
  guarded false t = true ->
  (forall p a, In (Asked p a) t -> says_yes a = false) ->
  mutations t = [].
Proof.
  induction t as [|e t IH]; simpl; intros Hg Hno; [reflexivity|].
  destruct e; try (apply IH; [assumption|intros; eapply Hno; eauto]).
  - apply andb_true_iff in Hg as [Hr Hg]. rewrite orb_false_r in Hr.
    apply negb_true_iff in Hr. rewrite Hr.
    apply IH; [assumption|intros; eapply Hno; eauto].
  - rewrite (Hno prompt answer) in Hg by now left. simpl in Hg.
    apply IH; [assumption|intros; eapply Hno; eauto].
Qed.

(** ** Runs *)

Lemma bind_run {A B} (m : M Msg A) (f : A -> M Msg B) n :
  bind m f n =
  (fst (f (fst (m n)) (n + interactions (snd (m n)))),
   snd (m n) ++ snd (f (fst (m n)) (n + interactions (snd (m n))))).
Proof.
  unfold bind. destruct (m n) as [a t1]. simpl.
  now destruct (f a (n + interactions t1)).
Qed.

Lemma trace_bind {A B} (m : M Msg A) (f : A -> M Msg B) n :
  trace (bind m f) n =
  trace m n ++ trace (f (result m n)) (n + interactions (trace m n)).
Proof. unfold trace, result. now rewrite bind_run. Qed.

Lemma result_bind {A B} (m : M Msg A) (f : A -> M Msg B) n :
  result (bind m f) n = result (f (result m n)) (n + interactions (trace m n)).
Proof. unfold trace, result. now rewrite bind_run. Qed.

Lemma trace_print {A} (x : Msg) (k : M Msg A) n :
  trace (print x ;; k) n = Printed x :: trace k n.
Proof. rewrite trace_bind. simpl. now rewrite Nat.add_0_r. Qed.

Lemma result_print {A} (x : Msg) (k : M Msg A) n :
  result (print x ;; k) n = result k n.
Proof. rewrite result_bind. simpl. now rewrite Nat.add_0_r. Qed.
Lemma trace_when {A} (b : bool) (x : Msg) (k : M Msg A) n :
  trace ((if b then print x else ret tt) ;; k) n =
  (if b then [Printed x] else []) ++ trace k n.
Proof.
  rewrite trace_bind. destruct b; simpl; now rewrite Nat.add_0_r.
Qed.

Lemma result_when {A} (b : bool) (x : Msg) (k : M Msg A) n :
  result ((if b then print x else ret tt) ;; k) n = result k n.
Proof.
  rewrite result_bind. destruct b; simpl; now rewrite Nat.add_0_r.
Qed.

Lemma trace_ret {A} (a : A) n : trace (ret (Msg := Msg) a) n = [].
Proof. reflexivity. Qed.

Lemma result_ret {A} (a : A) n : result (ret (Msg := Msg) a) n = a.
Proof. reflexivity. Qed.

Lemma requests_when (b : bool) (x : Msg) t :
  requests ((if b then [Printed x] else []) ++ t) = requests t.
Proof. now destruct b. Qed.

Lemma interactions_when (b : bool) (x : Msg) :
  interactions (if b then [Printed x] else []) = 0.
Proof. now destruct b. Qed.

Lemma In_when_asked (b : bool) (x : Msg) t p a :
  In (Asked p a) ((if b then [Printed x] else []) ++ t) -> In (Asked p a) t.
Proof. destruct b; simpl; [intros [H|H]; [discriminate|assumption]|auto]. Qed.
Lemma trace_input {A} stdin (prompt : string) (k : option string -> M Msg A) n :
  trace (x <- input stdin prompt ;; k x) n
  = Asked prompt (stdin n) :: trace (k (stdin n)) (n + 1).
Proof. now rewrite trace_bind. Qed.

Lemma result_input {A} stdin (prompt : string) (k : option string -> M Msg A) n :
  result (x <- input stdin prompt ;; k x) n = result (k (stdin n)) (n + 1).
Proof. now rewrite result_bind. Qed.

Lemma trace_send {A B} (oracle : nat -> request -> response B) (r : request)
    (k : response B -> M Msg A) n :
  trace (x <- send oracle r ;; k x) n
  = Sent r :: trace (k (oracle n r)) (n + 1).
Proof. now rewrite trace_bind. Qed.

Lemma result_send {A B} (oracle : nat -> request -> response B) (r : request)
    (k : response B -> M Msg A) n :
  result (x <- send oracle r ;; k x) n = result (k (oracle n r)) (n + 1).
Proof. now rewrite result_bind. Qed.

Lemma trace_look {A B} (oracle : nat -> B) (k : B -> M Msg A) n :
  trace (x <- look oracle ;; k x) n = Looked :: trace (k (oracle n)) (n + 1).
Proof. now rewrite trace_bind. Qed.

Lemma result_look {A B} (oracle : nat -> B) (k : B -> M Msg A) n :
  result (x <- look oracle ;; k x) n = result (k (oracle n)) (n + 1).
Proof. now rewrite result_bind. Qed.

Lemma trace_sleep {A} (k : M Msg A) n :
  trace (sleep ;; k) n = Slept :: trace k n.
Proof. rewrite trace_bind. simpl. now rewrite Nat.add_0_r. Qed.

Lemma result_sleep {A} (k : M Msg A) n :
  result (sleep ;; k) n = result k n.
Proof. rewrite result_bind. simpl. now rewrite Nat.add_0_r. Qed.
Lemma silent_print (x : Msg) : silent (print x).
Proof. intros n. split; reflexivity. Qed.

Lemma silent_ret {A} (a : A) : silent (ret (Msg := Msg) a).
Proof. intros n. split; reflexivity. Qed.

Lemma silent_when (b : bool) (x : Msg) : silent (if b then print x else ret tt).
Proof. destruct b; [apply silent_print|apply silent_ret]. Qed.

Lemma requests_silent {A B} (m : M Msg A) (k : M Msg B) n :
  silent m -> requests (trace (m ;; k) n) = requests (trace k n).
Proof.
  intros Hm. destruct (Hm n) as [Hr Hi].
  now rewrite trace_bind, requests_app, Hr, Hi, Nat.add_0_r.
Qed.

Lemma result_silent {A B} (m : M Msg A) (k : M Msg B) n :
  silent m -> result (m ;; k) n = result k n.
Proof.
  intros Hm. destruct (Hm n) as [Hr Hi].
  now rewrite result_bind, Hi, Nat.add_0_r.
Qed.

Lemma interactions_silent {A B} (m : M Msg A) (k : M Msg B) n :
  silent m -> interactions (trace (m ;; k) n) = interactions (trace k n).
Proof.
  intros Hm. destruct (Hm n) as [Hr Hi].
  now rewrite trace_bind, interactions_app, Hi, Nat.add_0_r.
Qed.
End TraceFacts.

Section QuietFacts.
Variable Msg : Type.
Implicit Types t : list (event Msg).

Lemma quiet_app t1 t2 : quiet (t1 ++ t2) = quiet t1 && quiet t2.
Proof. apply forallb_app. Qed.

Lemma quiet_mutations t : quiet t = true -> mutations t = [].
Proof.
  induction t as [|e t IH]; simpl; intros H; [reflexivity|].
  apply andb_true_iff in H as [He H].
  destruct e; try now apply IH.
  apply negb_true_iff in He. rewrite He. now apply IH.
Qed.

Lemma quiet_not_asked t p a : quiet t = true -> ~ In (Asked p a) t.
Proof.
  unfold quiet. rewrite forallb_forall. intros H Hin.
  specialize (H _ Hin). discriminate.
Qed.

Lemma guarded_quiet_app c t1 t2 :
  quiet t1 = true -> guarded c (t1 ++ t2) = guarded c t2.
Proof.
  induction t1 as [|e t1 IH]; simpl; intros H; [reflexivity|].
  apply andb_true_iff in H as [He H].
  destruct e; try discriminate; try now apply IH.
  rewrite He. simpl. now apply IH.
Qed.

Lemma quiet_interactions t :
  quiet t = true -> interactions t = length (requests t).
Proof.
  induction t as [|e t IH]; simpl; intros H; [reflexivity|].
  apply andb_true_iff in H as [He H].
  destruct e; try discriminate; simpl; now rewrite IH.
Qed.
End QuietFacts.

(** ** [delete_memos_duplicates.py]: the executor *)

Module DuplicatesFacts.
Import Duplicates.

Section Executor.
Variable L : library.
Variable C : config.
Variable W : world.

Lemma to_delete_plan_of (duplicates : groups) :
  to_delete duplicates = length (plan_of duplicates).
Proof.
  unfold to_delete, plan_of. induction duplicates as [|[k l] d IH]; simpl;
    [reflexivity|].
  rewrite length_app, IH. f_equal.
  unfold sort_by_create_time.
  pose proof (sort_length (fun x => get (createTime x) "") l) as Hl.
  destruct (Py.sort _ l); simpl in *; lia.
Qed.

(** Dry run: one line per memo, no request. *)
Lemma delete_each_dry (rest : list memo) (d f n : nat) :
  DRY_RUN C = true ->
  delete_each C W rest (d, f) n =
  ((d + length rest, f)%nat,
   map (fun m => Printed (WouldDelete (name m))) rest).
Proof.
  intros Hdry. revert d n. induction rest as [|m rest IH]; intros d n.
  - simpl. unfold ret. now rewrite Nat.add_0_r.
  - simpl. rewrite Hdry. rewrite bind_run. simpl.
    rewrite IH. simpl. now rewrite Nat.add_succ_r.
Qed.

(** Live run: one delete request per memo, and every memo counted once. *)
Lemma delete_each_live (rest : list memo) (c : nat * nat) (n : nat) :
  DRY_RUN C = false ->
  requests (trace (delete_each C W rest c) n) = map (delete_request C) rest /\
  (forall p a, ~ In (Asked p a) (trace (delete_each C W rest c) n)) /\
  interactions (trace (delete_each C W rest c) n) = length rest /\
  (fst (result (delete_each C W rest c) n) + snd (result (delete_each C W rest c) n)
   = fst c + snd c + length rest)%nat.
Proof.
  intros Hlive. revert c n. induction rest as [|m rest IH]; intros [d f] n.
  - simpl. repeat split; auto; simpl; lia.
  - unfold trace, result in *. simpl. rewrite Hlive. rewrite !bind_run. simpl.
    destruct (delete W n _) as [|status_code json]; simpl;
      [|destruct (raises_for_status status_code); simpl];
      match goal with
      | |- context [delete_each C W rest ?c ?k] =>
          destruct (IH c k) as (Hr & Ha & Hi & Hc)
      end; simpl in *;
      (repeat split;
       [ now rewrite Hr
       | intros p a [H|[H|H]]; try discriminate; now apply (Ha p a)
       | now rewrite Hi
       | lia ]).
Qed.
Lemma delete_sets_dry (total idx : nat) (d : groups) (c : nat * nat) (n : nat) :
  DRY_RUN C = true ->
  result (delete_sets C W total idx d c) n
    = (fst c + length (plan_of d), snd c)%nat /\
  requests (trace (delete_sets C W total idx d c) n) = [] /\
  (forall p a, ~ In (Asked p a) (trace (delete_sets C W total idx d c) n)).
Proof.
  intros Hdry. revert idx c n.
  induction d as [|[k l] d IH]; intros idx [dc fc] n.
  - simpl. repeat split; auto. now rewrite Nat.add_0_r.
  - simpl delete_sets. simpl plan_of.
    rewrite result_bind, trace_bind, result_when, trace_when.
    assert (Et : trace (delete_each C W (tl (sort_by_create_time l)) (dc, fc)) n
                 = map (fun m => Printed (WouldDelete (name m)))
                     (tl (sort_by_create_time l)))
      by (unfold trace; now rewrite delete_each_dry).
    assert (Er : result (delete_each C W (tl (sort_by_create_time l)) (dc, fc)) n
                 = (dc + length (tl (sort_by_create_time l)), fc)%nat)
      by (unfold result; now rewrite delete_each_dry).
    rewrite !Et, !Er.
    match goal with
    | |- context [result (delete_sets C W total (S idx) d ?c) ?k] =>
        destruct (IH (S idx) c k) as (Hr & Hq & Ha)
    end.
    repeat split.
    + rewrite Hr. simpl. rewrite length_app. f_equal. lia.
    + rewrite requests_app, requests_when, Hq, app_nil_r.
      clear. induction (tl _) as [|x xs IHx]; simpl; auto.
    + intros p a Hin. apply in_app_or in Hin as [Hin|Hin].
      * apply in_map_iff in Hin as (x & Hx & _). discriminate.
      * apply In_when_asked in Hin. now apply (Ha p a).
Qed.

Lemma delete_sets_live (total idx : nat) (d : groups) (c : nat * nat) (n : nat) :
  DRY_RUN C = false ->
  requests (trace (delete_sets C W total idx d c) n)
    = map (delete_request C) (plan_of d) /\
  (forall p a, ~ In (Asked p a) (trace (delete_sets C W total idx d c) n)) /\
  (fst (result (delete_sets C W total idx d c) n)
   + snd (result (delete_sets C W total idx d c) n)
   = fst c + snd c + length (plan_of d))%nat.
Proof.
  intros Hlive. revert idx c n.
  induction d as [|[k l] d IH]; intros idx c n.
  - simpl. repeat split; auto; simpl; lia.
  - simpl delete_sets. simpl plan_of.
    rewrite result_bind, trace_bind, result_when, trace_when.
    destruct (delete_each_live (tl (sort_by_create_time l)) c n Hlive)
      as (Er & Ea & Ei & Ec).
    match goal with
    | |- context [result (delete_sets C W total (S idx) d ?c) ?k] =>
        destruct (IH (S idx) c k) as (Hr & Ha & Hc)
    end.
    repeat split.
    + now rewrite requests_app, requests_when, Er, Hr, map_app.
    + intros p a Hin. apply in_app_or in Hin as [Hin|Hin].
      * now apply (Ea p a).
      * apply In_when_asked in Hin. now apply (Ha p a).
    + rewrite Hc, Ec, length_app. lia.
Qed.

Lemma delete_confirmed_dry (d : groups) (n : nat) :
  DRY_RUN C = true ->
  trace (delete_confirmed C W d) n
    = trace (delete_sets C W (length d) 1 d (0, 0)%nat) n
      ++ [Printed (SummaryWouldDelete (length (plan_of d)))] /\
  result (delete_confirmed C W d) n = Returned.
Proof.
  intros Hdry. unfold delete_confirmed.
  destruct (delete_sets_dry (length d) 1 d (0, 0)%nat n Hdry) as (Hr & _ & _).
  rewrite trace_bind, result_bind, Hr. simpl fst. simpl snd.
  unfold summary. rewrite Hdry. split.
  - now rewrite trace_print.
  - now rewrite result_print.
Qed.

Lemma delete_confirmed_live (d : groups) (n : nat) :
  DRY_RUN C = false ->
  requests (trace (delete_confirmed C W d) n) = map (delete_request C) (plan_of d) /\
  (forall p a, ~ In (Asked p a) (trace (delete_confirmed C W d) n)) /\
  result (delete_confirmed C W d) n = Returned.
Proof.
  intros Hlive. unfold delete_confirmed.
  destruct (delete_sets_live (length d) 1 d (0, 0)%nat n Hlive) as (Hr & Ha & _).
  rewrite trace_bind, result_bind.
  destruct (result (delete_sets C W (length d) 1 d (0, 0)%nat) n) as [dc fc].
  unfold summary. rewrite Hlive.
  set (k := (n + interactions _)%nat).
  assert (Es : trace
                 ((print (SummaryDeleted dc) ;;
                   (if (0 <? fc)%nat then print (SummaryFailed fc) else ret tt)) ;;
                  ret Returned) k
               = Printed (SummaryDeleted dc)
                 :: (if (0 <? fc)%nat then [Printed (SummaryFailed fc)] else [])).
  { unfold trace, bind, print, ret. simpl. destruct (0 <? fc)%nat; reflexivity. }
  assert (Ex : result
                 ((print (SummaryDeleted dc) ;;
                   (if (0 <? fc)%nat then print (SummaryFailed fc) else ret tt)) ;;
                  ret Returned) k = Returned).
  { unfold result, bind, print, ret. simpl. destruct (0 <? fc)%nat; reflexivity. }
  rewrite Es, Ex. repeat split.
  - rewrite requests_app, Hr. simpl. destruct (0 <? fc)%nat; simpl;
      now rewrite app_nil_r.
  - intros p a Hin. apply in_app_or in Hin as [Hin|Hin]; [now apply (Ha p a)|].
    destruct Hin as [Hin|Hin]; [discriminate|].
    destruct (0 <? fc)%nat; simpl in Hin; [destruct Hin as [Hin|[]]; discriminate|
                                           contradiction].
Qed.

(** The three ways a live [delete_duplicates] goes, by what the console
    answers. *)
Lemma delete_duplicates_live (d : groups) (n : nat) :
  DRY_RUN C = false -> d <> [] ->
  trace (delete_duplicates C W d) n
  = Printed (ModeBanner false)
    :: Printed (WillPermanentlyDelete (to_delete d))
    :: Asked "Continue? (yes/no): " (stdin W n)
    :: (if says_yes (stdin W n) then trace (delete_confirmed C W d) (n + 1)
        else match stdin W n with
             | Some _ => [Printed DeletionCancelled]
             | None => []
             end).
Proof.
  intros Hlive Hd. destruct d as [|kv d]; [congruence|].
  unfold delete_duplicates. rewrite Hlive. simpl negb. cbv iota.
  rewrite !trace_print, trace_input.
  destruct (stdin W n) as [confirm|]; simpl says_yes.
  - destruct (String.eqb (Py.lower confirm) "yes"); simpl negb; cbv iota.
    + reflexivity.
    + rewrite trace_print. reflexivity.
  - reflexivity.
Qed.

Lemma delete_duplicates_dry (d : groups) (n : nat) :
  DRY_RUN C = true -> d <> [] ->
  trace (delete_duplicates C W d) n
    = Printed (ModeBanner true) :: trace (delete_confirmed C W d) n /\
  result (delete_duplicates C W d) n = Returned.
Proof.
  intros Hdry Hd. destruct d as [|kv d]; [congruence|].
  unfold delete_duplicates. rewrite Hdry. simpl negb. cbv iota.
  rewrite trace_print, result_print. split; [reflexivity|].
  now apply delete_confirmed_dry.
Qed.

Lemma delete_duplicates_guarded (d : groups) (n : nat) :
  DRY_RUN C = false ->
  guarded false (trace (delete_duplicates C W d) n) = true.
Proof.
  intros Hlive. destruct d as [|kv d]; [reflexivity|].
  rewrite delete_duplicates_live by (assumption || discriminate).
  simpl. destruct (says_yes (stdin W n)).
  - apply guarded_confirmed.
  - now destruct (stdin W n).
Qed.

(** *** Pagination *)

Lemma fetch_pages_quiet (fuel : nat) (all_memos : list memo)
    (page_token : option string) (page_count n : nat) :
  quiet (trace (fetch_pages L C W fuel all_memos page_token page_count) n) = true.
Proof.
  revert all_memos page_token page_count n.
  induction fuel as [|fuel IH]; intros all_memos page_token page_count n;
    [reflexivity|].
  simpl fetch_pages. rewrite trace_send. simpl.
  destruct (get_memos W n _) as [|status_code json].
  - unfold on_exception. rewrite trace_print. destruct all_memos; reflexivity.
  - destruct (raises_for_status status_code).
    + destruct (status_code =? 400)%Z.
      * unfold finish. now rewrite !trace_print.
      * unfold on_exception. rewrite trace_print. destruct all_memos; reflexivity.
    + destruct json as [data|].
      * destruct (memos data) as [|m ms] eqn:Em.
        -- unfold finish. now rewrite !trace_print.
        -- rewrite trace_print. simpl.
           destruct (Py.truthy_opt (nextPageToken data)); [apply IH|].
           unfold finish. now rewrite trace_print.
      * unfold on_exception. rewrite trace_print. destruct all_memos; reflexivity.
Qed.

Lemma served_tail n p pages : served W n (p :: pages) -> served W (S n) pages.
Proof.
  intros H k q r Hk. specialize (H (S k) q r Hk).
  now rewrite Nat.add_succ_r in H.
Qed.

(** Going through the pages that are served. *)
Lemma fetch_pages_served (pages : list page) :
  forall fuel all_memos page_token page_count n,
    Forall continuing pages -> served W n pages ->
    let rest :=
      fetch_pages L C W fuel (all_memos ++ records pages)
        (token_after page_token pages) (page_count + length pages) in
    result (fetch_pages L C W (length pages + fuel) all_memos page_token
              page_count) n
      = result rest (n + length pages) /\
    length (requests (trace (fetch_pages L C W (length pages + fuel) all_memos
                               page_token page_count) n))
      = (length pages + length (requests (trace rest (n + length pages))))%nat /\
    (In (Printed FetchError)
        (trace (fetch_pages L C W (length pages + fuel) all_memos page_token
                  page_count) n)
     <-> In (Printed FetchError) (trace rest (n + length pages))).
Proof.
  induction pages as [|p pages IH];
    intros fuel all_memos page_token page_count n Hc Hs; simpl.
  - unfold records. simpl. rewrite app_nil_r, !Nat.add_0_r. tauto.
  - inversion Hc as [|? ? [Hm Ht] Hc']; subst.
    rewrite result_send, trace_send.
    pose proof (fun r => Hs 0%nat p r eq_refl) as H0.
    rewrite Nat.add_0_r in H0. rewrite H0. change (raises_for_status 200) with false. cbv iota.
    destruct (memos p) as [|m ms] eqn:Em; [congruence|].
    rewrite result_print, trace_print, Ht. simpl requests. simpl length.
    destruct (IH fuel (all_memos ++ m :: ms) (nextPageToken p) (S page_count)
                (n + 1)%nat Hc') as (Hr & Hq & Hf).
    { rewrite Nat.add_1_r. eapply served_tail; eauto. }
    unfold records in *. simpl. rewrite Em.
    replace (n + S (length pages))%nat with (n + 1 + length pages)%nat by lia.
    replace (page_count + S (length pages))%nat
      with (S page_count + length pages)%nat by lia.
    rewrite <- app_assoc in Hr, Hq, Hf.
    unfold token_after in *. simpl.
    repeat split.
    + exact Hr.
    + now rewrite Hq.
    + intros [H|[H|H]]; try discriminate. now apply Hf.
    + intros H. right. right. now apply Hf.
Qed.

(** The page after them is refused with an HTTP error status. *)
Lemma fetch_pages_refused (fuel : nat) (all_memos : list memo)
    (page_token : option string) (page_count n : nat)
    (status_code : Z) (json : option page) :
  (forall r, get_memos W n r = Answered status_code json) ->
  raises_for_status status_code = true ->
  let run := fetch_pages L C W (S fuel) all_memos page_token page_count in
  result run n = Some all_memos /\
  length (requests (trace run n)) = 1%nat /\
  (status_code = 400%Z -> ~ In (Printed FetchError) (trace run n)).
Proof.
  intros Hw Hs. simpl. rewrite result_send, trace_send, Hw, Hs.
  destruct (status_code =? 400)%Z eqn:E.
  - unfold finish. rewrite !result_print, !trace_print. simpl.
    repeat split; auto. intros _ [H|[H|[H|[]]]]; discriminate.
  - apply Z.eqb_neq in E.
    unfold on_exception. rewrite result_print, trace_print.
    destruct all_memos; [|rewrite result_print, trace_print]; simpl;
      repeat split; auto; intros ->; congruence.
Qed.

(** The page after them fails with a network-level exception. *)
Lemma fetch_pages_raised (fuel : nat) (all_memos : list memo)
    (page_token : option string) (page_count n : nat) :
  (forall r, get_memos W n r = Raised) ->
  let run := fetch_pages L C W (S fuel) all_memos page_token page_count in
  result run n = Some all_memos /\
  length (requests (trace run n)) = 1%nat.
Proof.
  intros Hw. simpl. rewrite result_send, trace_send, Hw.
  unfold on_exception. rewrite result_print, trace_print.
  destruct all_memos; [|rewrite result_print, trace_print]; simpl; auto.
Qed.

(** *** The whole run *)

Lemma process_guarded (memos : list memo) (n : nat) :
  DRY_RUN C = false ->
  guarded false (trace (process L C W memos) n) = true.
Proof.
  intros Hlive. unfold process. destruct memos as [|m ms]; [reflexivity|].
  destruct (find_duplicates L (m :: ms)) as [|kv d] eqn:Ed; [reflexivity|].
  rewrite trace_bind. apply guarded_app.
  - now apply delete_duplicates_guarded.
  - right; left. rewrite Hlive.
    destruct (result (delete_duplicates C W (kv :: d)) n); reflexivity.
Qed.

Lemma delete_duplicates_dry_requests (d : groups) (n : nat) :
  DRY_RUN C = true ->
  requests (trace (delete_duplicates C W d) n) = [] /\
  (forall p a, ~ In (Asked p a) (trace (delete_duplicates C W d) n)).
Proof.
  intros Hdry. destruct d as [|kv d].
  - split; [reflexivity|intros p a []].
  - assert (Hd : kv :: d <> []) by discriminate.
    destruct (delete_duplicates_dry n Hdry Hd) as [Et _].
    destruct (delete_confirmed_dry (kv :: d) n Hdry) as [Ec _].
    destruct (delete_sets_dry (length (kv :: d)) 1 (kv :: d) (0, 0)%nat n Hdry)
      as (_ & Hq & Ha).
    rewrite Et, Ec. split.
    + cbn [requests]. rewrite requests_app, Hq. reflexivity.
    + intros p a [H|H]; [discriminate|].
      apply in_app_or in H as [H|[H|[]]]; [now apply (Ha p a)|discriminate].
Qed.

(** In a dry run the summary carries the size of the plan, and nothing
    else is called a summary. *)
Lemma delete_duplicates_dry_summary (d : groups) (n : nat) :
  DRY_RUN C = true -> d <> [] ->
  exists lines,
    trace (delete_duplicates C W d) n
      = Printed (ModeBanner true) :: lines
        ++ [Printed (SummaryWouldDelete (length (plan_of d)))] /\
    requests lines = [] /\
    (forall k, ~ In (Printed (SummaryWouldDelete k)) lines).
Proof.
  intros Hdry Hd.
  destruct (delete_duplicates_dry n Hdry Hd) as [Et _].
  destruct (delete_confirmed_dry d n Hdry) as [Ec _].
  destruct (delete_sets_dry (length d) 1 d (0, 0)%nat n Hdry) as (_ & Hq & _).
  exists (trace (delete_sets C W (length d) 1 d (0, 0)%nat) n).
  rewrite Et, Ec. repeat split; auto.
  clear. generalize 1%nat (0, 0)%nat n (length d). clear n.
  induction d as [|[k l] d IH]; intros idx c n total j; [intros []|].
  simpl delete_sets. rewrite trace_bind, trace_when.
  intros Hin. apply in_app_or in Hin as [Hin|Hin].
  - revert Hin. generalize (tl (sort_by_create_time l)) c n.
    induction l0 as [|m rest IHr]; intros [dc fc] n0; [intros []|].
    simpl delete_each. rewrite trace_bind.
    destruct (DRY_RUN C).
    + rewrite trace_print. simpl. intros [H|H]; [discriminate|].
      now apply IHr in H.
    + rewrite trace_send. simpl.
      intros [H|H]; [discriminate|]. apply in_app_or in H as [H|H].
      * destruct (delete W n0 _) as [|st js]; [|destruct (raises_for_status st)];
          simpl in H; destruct H as [H|[]]; discriminate.
      * now apply IHr in H.
  - apply in_app_or in Hin as [Hin|Hin].
    + destruct (_ =? _)%nat; simpl in Hin; [destruct Hin as [H|[]]; discriminate|
                                            contradiction].
    + now apply IH in Hin.
Qed.

Lemma process_dry_requests (memos : list memo) (n : nat) :
  DRY_RUN C = true ->
  requests (trace (process L C W memos) n) = [].
Proof.
  intros Hdry. unfold process. destruct memos as [|m ms]; [reflexivity|].
  destruct (find_duplicates L (m :: ms)) as [|kv d] eqn:Ed; [reflexivity|].
  rewrite trace_bind, requests_app.
  destruct (delete_duplicates_dry_requests (kv :: d) n Hdry) as [-> _].
  rewrite Hdry.
  destruct (result (delete_duplicates C W (kv :: d)) n); reflexivity.
Qed.

Lemma main_trace (fuel n : nat) :
  Py.truthy_opt (MEMOS_TOKEN C) = true ->
  trace (main L C W fuel) n
  = trace (fetch_all_memos L C W fuel) n
    ++ match result (fetch_all_memos L C W fuel) n with
       | Some memos =>
           trace (process L C W memos)
             (n + interactions (trace (fetch_all_memos L C W fuel) n))
       | None => []
       end.
Proof.
  intros Ht. unfold main. rewrite Ht. simpl negb. cbv iota.
  rewrite trace_bind. f_equal.
  destruct (result (fetch_all_memos L C W fuel) n) as [memos|]; [|reflexivity].
  rewrite trace_bind. simpl. now rewrite app_nil_r.
Qed.

Lemma main_guarded (fuel n : nat) :
  DRY_RUN C = false ->
  guarded false (trace (main L C W fuel) n) = true.
Proof.
  intros Hlive.
  destruct (Py.truthy_opt (MEMOS_TOKEN C)) eqn:Ht.
  - rewrite main_trace by assumption.
    rewrite guarded_quiet_app by apply fetch_pages_quiet.
    destruct (result (fetch_all_memos L C W fuel) n); [|reflexivity].
    now apply process_guarded.
  - unfold main. rewrite Ht. reflexivity.
Qed.

Lemma main_dry_mutations (fuel n : nat) :
  DRY_RUN C = true ->
  mutations (trace (main L C W fuel) n) = [].
Proof.
  intros Hdry.
  destruct (Py.truthy_opt (MEMOS_TOKEN C)) eqn:Ht.
  - rewrite main_trace by assumption. unfold fetch_all_memos.
    rewrite mutations_app, (quiet_mutations _ (fetch_pages_quiet _ _ _ _ _)).
    simpl app.
    destruct (result (fetch_pages L C W fuel [] None 0) n); [|reflexivity].
    apply requests_nil_mutations. now apply process_dry_requests.
  - unfold main. rewrite Ht. reflexivity.
Qed.

End Executor.

(** ** [delete_memos_duplicates.py]: grouping *)

Section Grouping.
Variable L : library.

Lemma lookup_append_to (k key : string) (m : memo) (d : groups) :
  lookup k (append_to key m d)
  = if String.eqb key k
    then Some (match lookup key d with Some l => l ++ [m] | None => [m] end)
    else lookup k d.
Proof.
  induction d as [|[k' l] d IH]; simpl.
  - reflexivity.
  - destruct (String.eqb_spec k' key) as [->|Hne]; simpl.
    + destruct (String.eqb key k); reflexivity.
    + rewrite IH. destruct (String.eqb_spec k' k) as [->|Hne'].
      * destruct (String.eqb_spec key k); [congruence|reflexivity].
      * reflexivity.
Qed.

Lemma keys_append_to (key : string) (m : memo) (d : groups) :
  forall k, In k (map fst (append_to key m d)) <-> k = key \/ In k (map fst d).
Proof.
  induction d as [|[k' l] d IH]; intros k; simpl.
  - intuition congruence.
  - destruct (String.eqb_spec k' key) as [->|Hne]; simpl.
    + intuition congruence.
    + rewrite IH. tauto.
Qed.

Lemma NoDup_append_to (key : string) (m : memo) (d : groups) :
  NoDup (map fst d) -> NoDup (map fst (append_to key m d)).
Proof.
  induction d as [|[k' l] d IH]; simpl; intros Hd.
  - constructor; [intros []|constructor].
  - inversion Hd as [|? ? Hk Hd']; subst.
    destruct (String.eqb_spec k' key) as [->|Hne]; simpl.
    + now constructor.
    + constructor; [|now apply IH].
      rewrite keys_append_to. intros [->|H]; congruence.
Qed.

Lemma In_lookup (k : string) (l : list memo) (d : groups) :
  NoDup (map fst d) -> (In (k, l) d <-> lookup k d = Some l).
Proof.
  induction d as [|[k' l'] d IH]; simpl; intros Hd.
  - split; [intros []|discriminate].
  - inversion Hd as [|? ? Hk Hd']; subst.
    destruct (String.eqb_spec k' k) as [->|Hne].
    + split.
      * intros [H|H]; [congruence|].
        exfalso. apply Hk. change k with (fst (k, l)). now apply in_map.
      * intros H. left. congruence.
    + rewrite <- IH by assumption. split.
      * intros [H|H]; [congruence|assumption].
      * now right.
Qed.

Lemma group_of_app (l1 l2 : list memo) (k : string) :
  group_of L (l1 ++ l2) k = group_of L l1 k ++ group_of L l2 k.
Proof. apply filter_app. Qed.

Lemma content_date_groups_snoc (memos : list memo) (m : memo) :
  content_date_groups L (memos ++ [m])
  = if Py.truthy (get (content m) "")
    then append_to (composite_key L m) m (content_date_groups L memos)
    else content_date_groups L memos.
Proof. unfold content_date_groups. now rewrite fold_left_app. Qed.

(** The dict holds, under every key, the memos of that key in fetch
    order. *)
Lemma content_date_groups_spec (memos : list memo) :
  NoDup (map fst (content_date_groups L memos)) /\
  forall k,
    lookup k (content_date_groups L memos)
    = match group_of L memos k with [] => None | l => Some l end.
Proof.
  induction memos as [|m memos IH] using rev_ind.
  - split; [constructor|reflexivity].
  - destruct IH as [Hnd Hl]. rewrite content_date_groups_snoc.
    split.
    + destruct (Py.truthy _); [now apply NoDup_append_to|assumption].
    + intros k. rewrite group_of_app. unfold group_of at 2. simpl.
      destruct (Py.truthy (get (content m) "")) eqn:Hc; simpl.
      * rewrite lookup_append_to.
        destruct (String.eqb_spec (composite_key L m) k) as [E|Hne].
        -- rewrite E, Hl. destruct (group_of L memos k); reflexivity.
        -- rewrite Hl, app_nil_r. reflexivity.
      * rewrite Hl, app_nil_r. reflexivity.
Qed.

(** The duplicate sets are the groups of two memos or more. *)
Lemma find_duplicates_spec (memos : list memo) (k : string) (l : list memo) :
  In (k, l) (find_duplicates L memos)
  <-> l = group_of L memos k /\ 2 <= length l.
Proof.
  destruct (content_date_groups_spec memos) as [Hnd Hl].
  unfold find_duplicates. rewrite filter_In, In_lookup, Hl by assumption.
  simpl. rewrite Nat.ltb_lt. split.
  - intros [H ?]. split; [|lia].
    destruct (group_of L memos k); congruence.
  - intros [-> ?]. split; [|lia].
    destruct (group_of L memos k); [simpl in *; lia|reflexivity].
Qed.

Lemma group_of_In (memos : list memo) (k : string) (m : memo) :
  In m (group_of L memos k)
  <-> In m memos /\ Py.truthy (get (content m) "") = true
      /\ composite_key L m = k.
Proof.
  unfold group_of. rewrite filter_In, andb_true_iff, String.eqb_eq. tauto.
Qed.

(** Whatever is planned belongs to a group of two or more. *)
Lemma plan_In (memos : list memo) (m : memo) :
  In m (plan L memos) ->
  In m memos /\ Py.truthy (get (content m) "") = true /\
  2 <= length (group_of L memos (composite_key L m)).
Proof.
  unfold plan, plan_of. rewrite in_flat_map. intros ([k l] & Hkl & Hin).
  apply find_duplicates_spec in Hkl as [-> Hlen]. simpl in Hin.
  assert (Hg : In m (group_of L memos k)).
  { unfold sort_by_create_time in Hin.
    assert (Hs : In m (Py.sort (fun x => get (createTime x) "")
                         (group_of L memos k)))
      by (destruct (Py.sort _ _); [destruct Hin|right; exact Hin]).
    eapply Permutation_in; [apply Permutation_sym, sort_perm|exact Hs]. }
  apply group_of_In in Hg as (? & ? & <-). auto.
Qed.
End Grouping.

End DuplicatesFacts.

(** ** [delete_old_memos.py] *)

Module OldMemosFacts.
Import OldMemos.

Section Run.
Variable L : library.
Variable C : config.
Variable W : world.

(** *** Pagination *)

Lemma get_pages_quiet (fuel : nat) (all_memos : list memo)
    (page_token : option string) (page_count n : nat) :
  quiet (trace (get_pages C W fuel all_memos page_token page_count) n) = true.
Proof.
  revert all_memos page_token page_count n.
  induction fuel as [|fuel IH]; intros all_memos page_token page_count n;
    [reflexivity|].
  simpl get_pages. rewrite trace_send. simpl.
  destruct (get_memos W n _) as [|status_code json].
  - unfold done. now rewrite !trace_print.
  - destruct (status_code =? 200)%Z.
    + destruct json as [data|].
      * rewrite trace_print. simpl.
        destruct (Py.truthy_opt (nextPageToken data)); [apply IH|].
        unfold done. now rewrite trace_print.
      * unfold done. now rewrite !trace_print.
    + unfold done. now rewrite !trace_print.
Qed.

Lemma served_rest n p pages : served W n (p :: pages) -> served W (S n) pages.
Proof.
  intros H k q r Hk. specialize (H (S k) q r Hk).
  now rewrite Nat.add_succ_r in H.
Qed.

Lemma get_pages_served (pages : list page) :
  forall fuel all_memos page_token page_count n,
    Forall continuing pages -> served W n pages ->
    let rest :=
      get_pages C W fuel (all_memos ++ records pages)
        (token_after page_token pages) (page_count + length pages) in
    result (get_pages C W (length pages + fuel) all_memos page_token
              page_count) n
      = result rest (n + length pages) /\
    length (requests (trace (get_pages C W (length pages + fuel) all_memos
                               page_token page_count) n))
      = (length pages + length (requests (trace rest (n + length pages))))%nat.
Proof.
  induction pages as [|p pages IH];
    intros fuel all_memos page_token page_count n Hc Hs; simpl.
  - unfold records. simpl. rewrite app_nil_r, !Nat.add_0_r. tauto.
  - inversion Hc as [|? ? Ht Hc']; subst. unfold continuing in Ht.
    rewrite result_send, trace_send.
    pose proof (fun r => Hs 0%nat p r eq_refl) as H0.
    rewrite Nat.add_0_r in H0. rewrite H0.
    change (200 =? 200)%Z with true. cbv iota.
    rewrite result_print, trace_print, Ht. simpl requests. simpl length.
    destruct (IH fuel (all_memos ++ memos p) (nextPageToken p) (S page_count)
                (n + 1)%nat Hc') as (Hr & Hq).
    { rewrite Nat.add_1_r. eapply served_rest; eauto. }
    unfold records in *. simpl.
    replace (n + S (length pages))%nat with (n + 1 + length pages)%nat by lia.
    replace (page_count + S (length pages))%nat
      with (S page_count + length pages)%nat by lia.
    rewrite <- app_assoc in Hr, Hq.
    unfold token_after in *. simpl.
    split; [exact Hr|now rewrite Hq].
Qed.

(** The next page is answered with a status other than 200. *)
Lemma get_pages_refused (fuel : nat) (all_memos : list memo)
    (page_token : option string) (page_count n : nat)
    (status_code : Z) (json : option page) :
  (forall r, get_memos W n r = Answered status_code json) ->
  status_code <> 200%Z ->
  let run := get_pages C W (S fuel) all_memos page_token page_count in
  result run n = Some all_memos /\
  length (requests (trace run n)) = 1%nat.
Proof.
  intros Hw Hs. simpl. rewrite result_send, trace_send, Hw.
  apply Z.eqb_neq in Hs. rewrite Hs.
  unfold done. rewrite !result_print, !trace_print. simpl. auto.
Qed.

(** The next page fails with a network-level exception. *)
Lemma get_pages_raised (fuel : nat) (all_memos : list memo)
    (page_token : option string) (page_count n : nat) :
  (forall r, get_memos W n r = Raised) ->
  let run := get_pages C W (S fuel) all_memos page_token page_count in
  result run n = Some all_memos /\
  length (requests (trace run n)) = 1%nat.
Proof.
  intros Hw. simpl. rewrite result_send, trace_send, Hw.
  unfold done. rewrite !result_print, !trace_print. simpl. auto.
Qed.

(** *** The classifier *)

Lemma filter_memos_spec (cutoff_dt : datetime) (memos : list memo) (n : nat) :
  result (filter_memos L cutoff_dt memos) n = memos_to_delete L cutoff_dt memos /\
  quiet (trace (filter_memos L cutoff_dt memos) n) = true /\
  requests (trace (filter_memos L cutoff_dt memos) n) = [] /\
  interactions (trace (filter_memos L cutoff_dt memos) n) = 0%nat.
Proof.
  revert n. induction memos as [|m memos IH]; intros n; simpl.
  - auto.
  - destruct (examine L cutoff_dt m) as [e| | |].
    + rewrite result_bind, trace_bind. destruct (IH n) as (Hr & Hq & Hreq & Hi).
      rewrite Hi, Nat.add_0_r. simpl. rewrite app_nil_r, Hr. auto.
    + apply IH.
    + apply IH.
    + rewrite result_print, trace_print. simpl. apply IH.
Qed.

Lemma memos_to_delete_app (cutoff_dt : datetime) (l1 l2 : list memo) :
  memos_to_delete L cutoff_dt (l1 ++ l2)
  = memos_to_delete L cutoff_dt l1 ++ memos_to_delete L cutoff_dt l2.
Proof. apply flat_map_app. Qed.

(** A memo the classifier skips leaves no mark on the plan. *)
Lemma memos_to_delete_skip (cutoff_dt : datetime) (l1 l2 : list memo)
    (memo : memo) :
  classify L cutoff_dt memo = Skip ->
  memos_to_delete L cutoff_dt (l1 ++ memo :: l2)
  = memos_to_delete L cutoff_dt (l1 ++ l2).
Proof.
  intros Hs. rewrite !memos_to_delete_app. f_equal. simpl.
  unfold classify in Hs. destruct (examine L cutoff_dt memo); [discriminate|..];
    reflexivity.
Qed.
Lemma examine_no_timestamp (cutoff_dt : datetime) (memo : memo) :
  truthy_stamp (create_time memo) = false ->
  examine L cutoff_dt memo = NoTimestamp.
Proof.
  unfold examine, create_time. intros H. now rewrite H.
Qed.

Lemma examine_parsed (cutoff_dt : datetime) (memo : memo) (ct : stamp) :
  create_time memo = Some ct -> truthy_stamp (Some ct) = true ->
  examine L cutoff_dt memo
  = match parse L ct with
    | None => DateError
    | Some memo_dt =>
        match Datetime.lt memo_dt cutoff_dt with
        | None => DateError
        | Some true =>
            Selected
              {| entry_name := name memo;
                 entry_id := or_str (id memo) (uid memo);
                 entry_content := substring 0 50 (get (content memo) "");
                 entry_date := strftime L "%Y-%m-%d %H:%M:%S" memo_dt |}
        | Some false => NotBefore
        end
    end.
Proof.
  unfold examine, create_time. intros -> H. now rewrite H.
Qed.

Lemma examine_unparseable (cutoff_dt : datetime) (memo : memo) (ct : stamp) :
  create_time memo = Some ct -> parse L ct = None ->
  examine L cutoff_dt memo = NoTimestamp \/ examine L cutoff_dt memo = DateError.
Proof.
  intros Hc Hp. destruct (truthy_stamp (Some ct)) eqn:Ht.
  - right. rewrite (examine_parsed cutoff_dt memo Hc Ht). now rewrite Hp.
  - left. apply examine_no_timestamp. now rewrite Hc.
Qed.

(** Where the comparison is defined, the classifier is the strict
    comparison with the cutoff. *)
Lemma classify_comparable (cutoff_dt memo_dt : datetime) (memo : memo)
    (ct : stamp) (before : bool) :
  create_time memo = Some ct -> truthy_stamp (Some ct) = true ->
  parse L ct = Some memo_dt ->
  Datetime.lt memo_dt cutoff_dt = Some before ->
  (classify L cutoff_dt memo = Delete <-> before = true).
Proof.
  intros Hc Ht Hp Hlt. unfold classify.
  rewrite (examine_parsed cutoff_dt memo Hc Ht), Hp, Hlt.
  destruct before; split; congruence.
Qed.

(** A timestamp equal to the cutoff is not before it. *)
Lemma lt_irreflexive (d : datetime) : Datetime.lt d d <> Some true.
Proof.
  unfold Datetime.lt. destruct (tzinfo d); rewrite Z.ltb_irrefl; discriminate.
Qed.

(** *** The executor *)

Lemma delete_all_dry (plan : list entry) (d f n : nat) :
  DRY_RUN C = true ->
  delete_all C W plan (d, f) n
  = ((d + length plan, f)%nat, map (fun e => Printed (WouldDelete e)) plan).
Proof.
  intros Hdry. revert d n. induction plan as [|e plan IH]; intros d n.
  - simpl. unfold ret. now rewrite Nat.add_0_r.
  - simpl. rewrite Hdry. rewrite bind_run. simpl.
    rewrite IH. simpl. now rewrite Nat.add_succ_r.
Qed.

Lemma delete_all_live (plan : list entry) (c : nat * nat) (n : nat) :
  DRY_RUN C = false ->
  requests (trace (delete_all C W plan c) n) = map (delete_request C) plan /\
  (forall p a, ~ In (Asked p a) (trace (delete_all C W plan c) n)) /\
  (fst (result (delete_all C W plan c) n) + snd (result (delete_all C W plan c) n)
   = fst c + snd c + length plan)%nat.
Proof.
  intros Hlive. revert c n. induction plan as [|e plan IH]; intros [d f] n.
  - simpl. repeat split; auto; simpl; lia.
  - unfold trace, result in *. simpl. rewrite Hlive.
    unfold delete_memo. rewrite !bind_run. simpl.
    destruct (delete W n _) as [|status_code json]; simpl;
      [|destruct (status_code =? 200)%Z; simpl];
      match goal with
      | |- context [delete_all C W plan ?c ?k] =>
          destruct (IH c k) as (Hr & Ha & Hc)
      end; simpl in *;
      (repeat split;
       [ now rewrite Hr
       | intros p a H;
         repeat (destruct H as [H|H]; [discriminate|]); now apply (Ha p a)
       | lia ]).
Qed.

Lemma process_not_asked (cutoff_dt : datetime) (memos : list memo) (n : nat)
    (p : string) (a : option string) :
  ~ In (Asked p a) (trace (process L C W cutoff_dt memos) n).
Proof.
  unfold process. destruct memos as [|m ms].
  - intros [H|[]]; discriminate.
  - rewrite trace_bind.
    destruct (filter_memos_spec cutoff_dt (m :: ms) n) as (Hr & Hq & _ & Hi).
    intros Hin. apply in_app_or in Hin as [Hin|Hin].
    + eapply quiet_not_asked; eauto.
    + rewrite Hr, Hi, Nat.add_0_r, trace_print in Hin.
      destruct Hin as [Hin|Hin]; [discriminate|].
      destruct (memos_to_delete L cutoff_dt (m :: ms)) as [|e plan].
      * destruct Hin as [Hin|[]]; discriminate.
      * rewrite trace_bind in Hin. apply in_app_or in Hin as [Hin|Hin].
        -- destruct (DRY_RUN C) eqn:Hd.
           ++ unfold trace in Hin. rewrite delete_all_dry in Hin by assumption.
              simpl in Hin. destruct Hin as [Hin|Hin]; [discriminate|].
              apply in_map_iff in Hin as (x & Hx & _). discriminate.
           ++ now apply (delete_all_live (e :: plan) (0, 0)%nat n Hd) in Hin.
        -- unfold final_summary in Hin.
           destruct (result (delete_all C W (e :: plan) (0, 0)%nat) n)
             as [dc fc].
           destruct (DRY_RUN C);
             [simpl in Hin; destruct Hin as [Hin|[]]; discriminate|].
           rewrite trace_print in Hin. destruct Hin as [Hin|Hin]; [discriminate|].
           destruct (0 <? fc)%nat; simpl in Hin; [destruct Hin as [Hin|[]];
                                                  discriminate|contradiction].
Qed.

(** Live: one delete request for every entry of the plan, in order. *)
Lemma process_live_requests (cutoff_dt : datetime) (memos : list memo) (n : nat) :
  DRY_RUN C = false ->
  requests (trace (process L C W cutoff_dt memos) n)
  = map (delete_request C) (memos_to_delete L cutoff_dt memos).
Proof.
  intros Hlive. unfold process. destruct memos as [|m ms]; [reflexivity|].
  rewrite trace_bind.
  destruct (filter_memos_spec cutoff_dt (m :: ms) n) as (Hr & _ & Hq & Hi).
  rewrite requests_app, Hq, Hr, Hi, Nat.add_0_r, trace_print.
  destruct (memos_to_delete L cutoff_dt (m :: ms)) as [|e plan]; [reflexivity|].
  cbn [app requests]. rewrite trace_bind, requests_app.
  destruct (delete_all_live (e :: plan) (0, 0)%nat n Hlive) as (-> & _ & _).
  unfold final_summary.
  destruct (result (delete_all C W (e :: plan) (0, 0)%nat) n) as [dc fc].
  rewrite Hlive, trace_print. cbn [requests].
  destruct (0 <? fc)%nat; simpl; now rewrite app_nil_r.
Qed.

(** Dry: no request, and the summary carries the size of the plan. *)
Lemma process_dry (cutoff_dt : datetime) (memos : list memo) (n : nat) :
  DRY_RUN C = true ->
  requests (trace (process L C W cutoff_dt memos) n) = [] /\
  (memos_to_delete L cutoff_dt memos <> [] ->
   exists lines,
     trace (process L C W cutoff_dt memos) n
     = lines
       ++ [Printed (DryRunSummary (length (memos_to_delete L cutoff_dt memos)))] /\
     forall k, ~ In (Printed (DryRunSummary k)) lines).
Proof.
  intros Hdry. unfold process. destruct memos as [|m ms].
  - split; [reflexivity|]. intros H. now elim H.
  - rewrite trace_bind.
    destruct (filter_memos_spec cutoff_dt (m :: ms) n) as (Hr & Hquiet & Hq & Hi).
    rewrite Hr, Hi, Nat.add_0_r, trace_print.
    destruct (memos_to_delete L cutoff_dt (m :: ms)) as [|e plan] eqn:Ep.
    + split; [|intros H; now elim H].
      rewrite requests_app, Hq. reflexivity.
    + rewrite trace_bind.
      assert (Et : trace (delete_all C W (e :: plan) (0, 0)%nat) n
                   = map (fun e => Printed (WouldDelete e)) (e :: plan))
        by (unfold trace; now rewrite delete_all_dry).
      assert (Er : result (delete_all C W (e :: plan) (0, 0)%nat) n
                   = (length (e :: plan), 0)%nat)
        by (unfold result; now rewrite delete_all_dry).
      rewrite Et, Er. unfold final_summary. rewrite Hdry.
      assert (Hw : forall l : list entry,
                 requests (map (fun e => Printed (Msg := message) (WouldDelete e)) l) = [])
        by (induction l; simpl; auto).
      split.
      * rewrite requests_app, Hq. cbn [app requests].
        rewrite requests_app, Hw. reflexivity.
      * intros _.
        exists (trace (filter_memos L cutoff_dt (m :: ms)) n
                ++ Printed (FoundToDelete (length (e :: plan)))
                :: map (fun e => Printed (WouldDelete e)) (e :: plan)).
        split.
        -- rewrite <- app_assoc. reflexivity.
        -- intros k Hin. apply in_app_or in Hin as [Hin|Hin].
           ++ clear - Hin. revert n Hin.
              induction (m :: ms) as [|x xs IHx]; intros n Hin; [destruct Hin|].
              simpl in Hin. destruct (examine L cutoff_dt x).
              ** rewrite trace_bind in Hin. simpl in Hin.
                 rewrite app_nil_r in Hin. now apply IHx in Hin.
              ** now apply IHx in Hin.
              ** now apply IHx in Hin.
              ** rewrite trace_print in Hin.
                 destruct Hin as [Hin|Hin]; [discriminate|now apply IHx in Hin].
           ++ destruct Hin as [Hin|Hin]; [discriminate|].
              apply in_map_iff in Hin as (x & Hx & _). discriminate.
Qed.

(** *** The whole run *)

Lemma cleanup_trace (fuel n : nat) (cutoff_dt : datetime) :
  Py.truthy (MEMOS_URL C) && Py.truthy_opt (MEMOS_TOKEN C) = true ->
  fromisoformat L (Py.replace "Z" "+00:00" (CUTOFF_DATE C)) = Some cutoff_dt ->
  trace (main L C W fuel) n
  = trace (get_all_memos C W fuel) n
    ++ match result (get_all_memos C W fuel) n with
       | Some memos =>
           trace (process L C W cutoff_dt memos)
             (n + interactions (trace (get_all_memos C W fuel) n))
       | None => []
       end.
Proof.
  intros Hc Hp. unfold main. rewrite Hc, Hp. simpl negb. cbv iota.
  rewrite trace_bind. f_equal.
  destruct (result (get_all_memos C W fuel) n) as [memos|]; [|reflexivity].
  rewrite trace_bind. simpl. now rewrite app_nil_r.
Qed.

(** The console is never read. *)
Lemma main_not_asked (fuel n : nat) (p : string) (a : option string) :
  ~ In (Asked p a) (trace (main L C W fuel) n).
Proof.
  destruct (Py.truthy (MEMOS_URL C) && Py.truthy_opt (MEMOS_TOKEN C)) eqn:Hc.
  - destruct (fromisoformat L (Py.replace "Z" "+00:00" (CUTOFF_DATE C)))
      as [cutoff_dt|] eqn:Hp.
    + rewrite (cleanup_trace fuel n Hc Hp). intros Hin.
      apply in_app_or in Hin as [Hin|Hin].
      * eapply quiet_not_asked; [apply get_pages_quiet|exact Hin].
      * destruct (result (get_all_memos C W fuel) n); [|destruct Hin].
        now apply process_not_asked in Hin.
    + unfold main. rewrite Hc, Hp. intros [H|[]]; discriminate.
  - unfold main. rewrite Hc. intros [H|[]]; discriminate.
Qed.

Lemma cleanup_dry_mutations (fuel n : nat) :
  DRY_RUN C = true ->
  mutations (trace (main L C W fuel) n) = [].
Proof.
  intros Hdry.
  destruct (Py.truthy (MEMOS_URL C) && Py.truthy_opt (MEMOS_TOKEN C)) eqn:Hc.
  - destruct (fromisoformat L (Py.replace "Z" "+00:00" (CUTOFF_DATE C)))
      as [cutoff_dt|] eqn:Hp.
    + rewrite (cleanup_trace fuel n Hc Hp). unfold get_all_memos.
      rewrite mutations_app, (quiet_mutations _ (get_pages_quiet _ _ _ _ _)).
      simpl app.
      destruct (result (get_pages C W fuel [] None 0) n); [|reflexivity].
      apply requests_nil_mutations. now apply process_dry.
    + unfold main. rewrite Hc, Hp. reflexivity.
  - unfold main. rewrite Hc. reflexivity.
Qed.

(** The mutating requests of a run are those of its plan. *)
Lemma process_mutations (cutoff_dt : datetime) (memos : list memo) (n : nat) :
  mutations (trace (process L C W cutoff_dt memos) n)
  = if DRY_RUN C then []
    else map (delete_request C) (memos_to_delete L cutoff_dt memos).
Proof.
  destruct (DRY_RUN C) eqn:Hd.
  - apply requests_nil_mutations. now apply process_dry.
  - rewrite mutations_requests, process_live_requests by assumption.
    clear. induction (memos_to_delete L cutoff_dt memos) as [|e l IH];
      simpl; [reflexivity|now rewrite IH].
Qed.

End Run.

End OldMemosFacts.

(** ** [x_scraper_fast_scrolling.py] *)

Lemma append_inj_l (p a b : string) : (p ++ a = p ++ b)%string -> a = b.
Proof.
  induction p as [|c p IH]; simpl; intros H; [assumption|].
  injection H as H. now apply IH.
Qed.

Module ScraperFacts.
Import Scraper.

Section Run.
Variable L : library.
Variable C : config.
Variable W : world.

Lemma attachments_not_creation (fields : list (string * string)) :
  is_creation C (Request POST (api C "attachments") fields) = false.
Proof.
  unfold is_creation, api. simpl. apply String.eqb_neq. intros H.
  apply append_inj_l in H. discriminate.
Qed.

Lemma harmless_requests (t : list (event message)) :
  forallb (harmless C) t = true ->
  creations C t = [] /\
  forall r, In (Sent r) t -> meth r <> DELETE /\ meth r <> PATCH.
Proof.
  induction t as [|e t IH]; simpl; intros H.
  - split; [reflexivity|intros r []].
  - apply andb_true_iff in H as [He H]. destruct (IH H) as [Hc Hr].
    unfold creations in *. split.
    + destruct e; simpl; try assumption.
      simpl in He. unfold is_creation in *.
      destruct (meth r); try discriminate; try assumption.
      apply negb_true_iff in He. now rewrite He.
    + intros r [->|Hin]; [|now apply Hr].
      simpl in He. destruct (meth r); try discriminate; split; discriminate.
Qed.

Lemma upload_image_harmless (img_url memo_name : option string) (n : nat) :
  forallb (harmless C) (trace (upload_image_to_memos L C W img_url memo_name) n)
  = true.
Proof.
  unfold upload_image_to_memos. destruct img_url as [img_url|]; [|reflexivity].
  rewrite trace_send. simpl.
  destruct (get_image W n _) as [|status_code body]; [reflexivity|].
  destruct (raises_for_status status_code); [reflexivity|].
  rewrite trace_send. cbn [forallb harmless meth].
  rewrite attachments_not_creation. simpl.
  destruct (post_attachment W (n + 1) _) as [|st json]; [reflexivity|].
  destruct (raises_for_status st); [reflexivity|].
  destruct json; reflexivity.
Qed.

Lemma upload_images_harmless (images : list (option string))
    (memo_name : option string) (n : nat) :
  forallb (harmless C) (trace (upload_images L C W images memo_name) n) = true.
Proof.
  revert n. induction images as [|img images IH]; intros n; [reflexivity|].
  simpl upload_images. rewrite trace_bind, forallb_app, upload_image_harmless.
  simpl. rewrite trace_bind, forallb_app, IH, andb_true_r.
  destruct (result _ _) as [a|]; [destruct (Py.truthy a)|]; reflexivity.
Qed.

Lemma upload_video_harmless (video_path : string) (memo_name : option string)
    (n : nat) :
  forallb (harmless C) (trace (upload_video_to_memos C W video_path memo_name) n)
  = true.
Proof.
  unfold upload_video_to_memos. rewrite trace_print, trace_send.
  cbn [forallb harmless meth]. rewrite attachments_not_creation. simpl.
  destruct (post_attachment W _ _) as [|st json]; [reflexivity|].
  destruct (raises_for_status st); [reflexivity|].
  destruct json; reflexivity.
Qed.

Lemma attach_harmless (images : list (option string))
    (video_url memo_name : option string) (n : nat) :
  forallb (harmless C) (trace (attach L C W images video_url memo_name) n) = true.
Proof.
  unfold attach. rewrite trace_bind, forallb_app, upload_images_harmless.
  simpl. destruct video_url as [url|]; [|reflexivity].
  destruct (Py.truthy url); [|reflexivity].
  unfold download_video_with_ytdlp.
  rewrite trace_bind, trace_print, trace_look, forallb_app. simpl.
  rewrite result_print, result_look.
  destruct (yt_dlp W _) as [path|]; simpl; [|reflexivity].
  destruct (Py.truthy path); [|reflexivity].
  rewrite trace_bind, forallb_app, upload_video_harmless. reflexivity.
Qed.
(** *** [create_memo] *)

(** The events of [create_memo], by what the service answers. *)
Lemma create_memo_trace (text : string) (timestamp : option string)
    (images : list (option string)) (video_url : option string) (n : nat) :
  trace (create_memo L C W text timestamp images video_url) n
  = Sent (create_request C text)
    :: match post_memo W n (create_request C text) with
       | Raised => [Printed FailedToCreateMemo]
       | Answered status_code json =>
           if raises_for_status status_code then [Printed FailedToCreateMemo]
           else
             match json with
             | None => [Printed FailedToCreateMemo]
             | Some memo_name =>
                 Printed (MemoCreated memo_name)
                 :: (if Py.truthy_opt timestamp then
                       let ts := Py.str_opt timestamp in
                       Sent (backdate_request C memo_name ts)
                       :: match patch_memo W (n + 1)
                                  (backdate_request C memo_name ts) with
                          | Raised => [Printed FailedToCreateMemo]
                          | Answered patch_status _ =>
                              Printed
                                (if (patch_status =? 200)%Z
                                 then TimestampUpdated ts
                                 else TimestampUpdateFailed patch_status)
                              :: trace (attach L C W images video_url memo_name)
                                   (n + 1 + 1)
                          end
                     else trace (attach L C W images video_url memo_name) (n + 1))
             end
       end.
Proof.
  unfold create_memo. rewrite trace_send. f_equal.
  destruct (post_memo W n _) as [|status_code json]; [reflexivity|].
  destruct (raises_for_status status_code); [reflexivity|].
  destruct json as [memo_name|]; [|reflexivity].
  rewrite trace_print. f_equal.
  destruct timestamp as [ts|]; [|reflexivity]. simpl.
  destruct (Py.truthy ts); [|reflexivity].
  rewrite trace_send. f_equal.
  destruct (patch_memo W (n + 1) _) as [|patch_status body]; [reflexivity|].
  rewrite trace_bind. destruct (patch_status =? 200)%Z; simpl;
    now rewrite Nat.add_0_r.
Qed.

Lemma create_request_is_creation (text : string) :
  is_creation C (create_request C text) = true.
Proof. unfold is_creation, create_request. simpl. apply String.eqb_refl. Qed.

(** One creation request, neither more nor less. *)
Lemma create_memo_creations (text : string) (timestamp : option string)
    (images : list (option string)) (video_url : option string) (n : nat) :
  creations C (trace (create_memo L C W text timestamp images video_url) n)
  = [create_request C text].
Proof.
  rewrite create_memo_trace. unfold creations. cbn [requests filter].
  rewrite create_request_is_creation. f_equal.
  assert (Ha : forall memo_name k,
             filter (is_creation C)
               (requests (trace (attach L C W images video_url memo_name) k)) = [])
    by (intros; apply (proj1 (harmless_requests _ (attach_harmless _ _ _ _)))).
  destruct (post_memo W n _) as [|status_code json]; [reflexivity|].
  destruct (raises_for_status status_code); [reflexivity|].
  destruct json as [memo_name|]; [|reflexivity].
  cbn [requests]. destruct (Py.truthy_opt timestamp); [|apply Ha].
  cbn [requests filter is_creation meth backdate_request].
  destruct (patch_memo W (n + 1) _) as [|patch_status body]; [reflexivity|].
  cbn [requests]. apply Ha.
Qed.

(** No request of [create_memo] deletes anything. *)
Lemma create_memo_no_delete (text : string) (timestamp : option string)
    (images : list (option string)) (video_url : option string) (n : nat)
    (r : request) :
  In (Sent r) (trace (create_memo L C W text timestamp images video_url) n) ->
  meth r <> DELETE.
Proof.
  rewrite create_memo_trace.
  assert (Ha : forall memo_name k,
             In (Sent r) (trace (attach L C W images video_url memo_name) k) ->
             meth r <> DELETE).
  { intros memo_name k Hin.
    apply (proj2 (harmless_requests _
                    (attach_harmless images video_url memo_name k)) r Hin). }
  intros [H|H]; [injection H as <-; discriminate|].
  destruct (post_memo W n _) as [|status_code json];
    [destruct H as [H|[]]; discriminate|].
  destruct (raises_for_status status_code);
    [destruct H as [H|[]]; discriminate|].
  destruct json as [memo_name|]; [|destruct H as [H|[]]; discriminate].
  destruct H as [H|H]; [discriminate|].
  destruct (Py.truthy_opt timestamp); [|now apply Ha in H].
  destruct H as [H|H]; [injection H as <-; discriminate|].
  destruct (patch_memo W (n + 1) _) as [|patch_status body];
    [destruct H as [H|[]]; discriminate|].
  destruct H as [H|H]; [discriminate|now apply Ha in H].
Qed.

(** *** The loop over the visible tweets *)

Lemma silent_repost (t : tweet) :
  silent (match texts_of t with
          | _ :: _ :: _ => print DetectedRepost
          | _ => ret tt
          end).
Proof.
  destruct (texts_of t) as [|? [|? ?]];
    (apply silent_print || apply silent_ret).
Qed.

Lemma silent_date (timestamp : option string) :
  silent (match timestamp with
          | Some ts => print (TweetDate ts)
          | None => ret tt
          end).
Proof. destruct timestamp; (apply silent_print || apply silent_ret). Qed.

(** A tweet with a text: skipped when its signature has been seen,
    turned into a memo otherwise. *)
Lemma scan_cons (t : tweet) (text : string) (tweets : list (option tweet))
    (seen_tweets : list string) (found_new : bool) (n : nat) :
  text_of t = Some text ->
  let sig := signature L text (timestamp_of t) (img_srcs t) (video_url_of t) in
  let created :=
    trace (create_memo L C W text (timestamp_of t) (img_srcs t) (video_url_of t)) n in
  requests (trace (scan L C W (Some t :: tweets) seen_tweets found_new) n)
  = (if mem sig seen_tweets
     then requests (trace (scan L C W tweets seen_tweets found_new) n)
     else requests created
          ++ requests (trace (scan L C W tweets (add sig seen_tweets) true)
                         (n + interactions created))) /\
  result (scan L C W (Some t :: tweets) seen_tweets found_new) n
  = (if mem sig seen_tweets
     then result (scan L C W tweets seen_tweets found_new) n
     else result (scan L C W tweets (add sig seen_tweets) true)
            (n + interactions created)).
Proof.
  intros Ht sig created. simpl scan. rewrite Ht.
  rewrite (requests_silent _ _ (silent_repost t)),
          (result_silent _ _ (silent_repost t)).
  rewrite (requests_silent _ _ (silent_when _ _)),
          (result_silent _ _ (silent_when _ _)).
  fold sig. destruct (mem sig seen_tweets); [split; reflexivity|].
  rewrite (requests_silent _ _ (silent_print _)),
          (result_silent _ _ (silent_print _)).
  rewrite (requests_silent _ _ (silent_date _)),
          (result_silent _ _ (silent_date _)).
  rewrite trace_bind, result_bind, requests_app. split; reflexivity.
Qed.

Lemma mem_In (sig : string) (seen_tweets : list string) :
  mem sig seen_tweets = true <-> In sig seen_tweets.
Proof.
  unfold mem. rewrite existsb_exists. split.
  - intros (x & Hx & E). apply String.eqb_eq in E. now subst.
  - intros H. exists sig. split; [assumption|apply String.eqb_refl].
Qed.

Lemma creations_app (t1 t2 : list (event message)) :
  creations C (t1 ++ t2) = creations C t1 ++ creations C t2.
Proof. unfold creations. now rewrite requests_app, filter_app. Qed.

(** The seen set only grows, holds no signature twice, and gains one
    member for every creation request. *)
Lemma scan_spec (tweets : list (option tweet)) :
  forall (seen_tweets : list string) (found_new : bool) (n : nat),
    NoDup seen_tweets ->
    let run := scan L C W tweets seen_tweets found_new in
    NoDup (fst (result run n)) /\
    incl seen_tweets (fst (result run n)) /\
    (length (filter (is_creation C) (requests (trace run n))) + length seen_tweets
     = length (fst (result run n)))%nat.
Proof.
  induction tweets as [|[t|] tweets IH]; intros seen_tweets found_new n Hnd.
  - simpl. repeat split; auto using incl_refl.
  - destruct (text_of t) as [text|] eqn:Ht.
    + destruct (scan_cons t tweets seen_tweets found_new n Ht) as [Hq Hr].
      cbv zeta. rewrite Hq, Hr.
      destruct (mem _ seen_tweets) eqn:Hm; [now apply IH|].
      set (sig := signature L text (timestamp_of t) (img_srcs t) (video_url_of t))
        in *.
      assert (Hnew : ~ In sig seen_tweets)
        by (rewrite <- mem_In; congruence).
      unfold add. rewrite Hm.
      destruct (IH (sig :: seen_tweets) true
                  (n + interactions
                         (trace (create_memo L C W text (timestamp_of t)
                                   (img_srcs t) (video_url_of t)) n))%nat)
        as (H1 & H2 & H3); [now constructor|].
      repeat split.
      * exact H1.
      * intros x Hx. apply H2. now right.
      * rewrite filter_app, length_app.
        pose proof (create_memo_creations text (timestamp_of t) (img_srcs t)
                      (video_url_of t) n) as Hc.
        unfold creations in Hc. rewrite Hc. simpl in *. lia.
    + cbv zeta. simpl scan. rewrite Ht. now apply IH.
  - cbv zeta. simpl scan. rewrite trace_print, result_print. now apply IH.
Qed.

(** The seen set only grows, whatever it holds. *)
Lemma scan_grows (tweets : list (option tweet)) :
  forall (seen_tweets : list string) (found_new : bool) (n : nat),
    incl seen_tweets (fst (result (scan L C W tweets seen_tweets found_new) n)).
Proof.
  induction tweets as [|[t|] tweets IH]; intros seen_tweets found_new n.
  - apply incl_refl.
  - destruct (text_of t) as [text|] eqn:Ht.
    + destruct (scan_cons t tweets seen_tweets found_new n Ht) as [_ Hr].
      cbv zeta in Hr. rewrite Hr.
      destruct (mem _ seen_tweets) eqn:Hm; [apply IH|].
      unfold add. rewrite Hm.
      intros x Hx. apply IH. now right.
    + simpl scan. rewrite Ht. apply IH.
  - simpl scan. rewrite result_print. apply IH.
Qed.

Lemma scroll_grows (remaining : nat) :
  forall (seen_tweets : list string) (n : nat),
    incl seen_tweets (result (scroll L C W remaining seen_tweets) n).
Proof.
  induction remaining as [|remaining IH]; intros seen_tweets n.
  - apply incl_refl.
  - simpl scroll. rewrite result_look, result_print, result_bind.
    rewrite result_when, result_print, result_sleep.
    intros x Hx. apply IH, scan_grows, Hx.
Qed.

(** The same for the whole run of scrolls. *)
Lemma scroll_spec (remaining : nat) :
  forall (seen_tweets : list string) (n : nat),
    NoDup seen_tweets ->
    let run := scroll L C W remaining seen_tweets in
    NoDup (result run n) /\
    incl seen_tweets (result run n) /\
    (length (filter (is_creation C) (requests (trace run n))) + length seen_tweets
     = length (result run n))%nat.
Proof.
  induction remaining as [|remaining IH]; intros seen_tweets n Hnd; cbv zeta.
  - simpl. repeat split; auto using incl_refl.
  - simpl scroll. rewrite trace_look, result_look, trace_print, result_print.
    rewrite trace_bind, result_bind.
    set (run := scan L C W (visible W n) seen_tweets false).
    destruct (scan_spec (visible W n) false (n + 1) Hnd)
      as (H1 & H2 & H3). fold run in H1, H2, H3.
    rewrite result_when, trace_when, result_print, trace_print,
            result_sleep, trace_sleep.
    cbn [requests]. rewrite requests_app, requests_when. cbn [requests].
    rewrite filter_app, length_app.
    destruct (IH (fst (result run (n + 1)))
                (n + 1 + interactions (trace run (n + 1)))%nat H1)
      as (G1 & G2 & G3).
    repeat split.
    + exact G1.
    + intros x Hx. apply G2, H2, Hx.
    + lia.
Qed.

End Run.

End ScraperFacts.

(** * The claims *)

Lemma filter_mutating_deletes {X} (f : X -> string) (l : list X) :
  filter mutating (map (fun x => Request DELETE (f x) []) l)
  = map (fun x => Request DELETE (f x) []) l.
Proof. induction l as [|x l IH]; simpl; [reflexivity|now rewrite IH]. Qed.

(** ** C1: no deletion before the user has confirmed *)

(** C1, as stated, fails for the cutoff cleaner.  With one memo older than
    the cutoff and the dry-run flag off, [delete_old_memos.py] sends its
    delete request without having read anything from the console: the
    mutating request of the trace is not preceded by any confirmation. *)
Lemma C1_cutoff_cleaner_deletes_unasked :
  let t :=
    trace (OldMemos.main Reference.old_memos_library Scenario.old_live
             (Scenario.old_world [Scenario.before]) 3) 0 in
  OldMemos.DRY_RUN Scenario.old_live = false /\
  mutations t = [Request DELETE "http://memos/api/v1/memos/1" []] /\
  ~ confirmed_before_mutation t.
Proof.
  cbv zeta. split; [reflexivity|]. split; [reflexivity|].
  intros H. apply confirmed_before_mutation_guarded in H.
  vm_compute in H. discriminate.
Qed.

(** C1, amended.  In the duplicate cleaner run live, every mutating
    request comes after an answer to the prompt that says yes (in any
    letter case), and a run in which no answer says yes (a refusal, or the
    console closed) sends no mutating request at all.  The cutoff cleaner
    has no confirmation step: it never reads the console, and run live it
    sends one delete request for each memo of its plan. *)
Theorem C1_confirmation_gate :
  (forall L C W fuel n,
     Duplicates.DRY_RUN C = false ->
     let t := trace (Duplicates.main L C W fuel) n in
     confirmed_before_mutation t /\
     ((forall p a, In (Asked p a) t -> says_yes a = false) ->
      mutations t = [])) /\
  (forall L C W fuel n p a,
     ~ In (Asked p a) (trace (OldMemos.main L C W fuel) n)) /\
  (forall L C W cutoff_dt memos n,
     OldMemos.DRY_RUN C = false ->
     mutations (trace (OldMemos.process L C W cutoff_dt memos) n)
     = map (OldMemos.delete_request C)
         (OldMemos.memos_to_delete L cutoff_dt memos)).
Proof.
  split; [|split].
  - intros L C W fuel n Hlive t.
    pose proof (@DuplicatesFacts.main_guarded L C W fuel n Hlive) as Hg.
    split.
    + now apply guarded_confirmed_before_mutation.
    + now apply guarded_unconfirmed.
  - intros L C W fuel n p a. apply OldMemosFacts.main_not_asked.
  - intros L C W cutoff_dt memos n Hlive.
    rewrite mutations_requests, OldMemosFacts.process_live_requests by assumption.
    apply filter_mutating_deletes.
Qed.

(** C1, on a concrete run: the console answers "no", nothing is deleted. *)
Lemma C1_confirmation_gate_witness :
  Duplicates.DRY_RUN Scenario.dup_live = false /\
  mutations
    (trace (Duplicates.main Reference.duplicates_library Scenario.dup_live
              (Scenario.dup_world (Some "no")) 3) 0) = [] /\
  OldMemos.DRY_RUN Scenario.old_live = false /\
  mutations
    (trace (OldMemos.process Reference.old_memos_library Scenario.old_live
              (Scenario.old_world [Scenario.before]) Scenario.cutoff_2025
              [Scenario.before; Scenario.at_cutoff]) 1)
  = [Request DELETE "http://memos/api/v1/memos/1" []].
Proof.
  split; [reflexivity|]. split; [|split; [reflexivity|]].
  - apply (proj1 C1_confirmation_gate Reference.duplicates_library
             Scenario.dup_live (Scenario.dup_world (Some "no")) 3 0 eq_refl).
    intros p a Hin. vm_compute in Hin.
    repeat (destruct Hin as [Hin|Hin]; [try discriminate Hin|]);
      [injection Hin as <- <-; reflexivity|destruct Hin].
  - rewrite (proj2 (proj2 C1_confirmation_gate) Reference.old_memos_library
               Scenario.old_live (Scenario.old_world [Scenario.before])
               Scenario.cutoff_2025 [Scenario.before; Scenario.at_cutoff] 1
               eq_refl).
    reflexivity.
Defined.

(** ** C5: a dry run changes nothing and reports the size of the plan *)

(** C5.  With the dry-run flag set, neither script sends a mutating
    request in the whole run (the page requests are its only requests), the
    executors send no request at all, and the one summary line they print
    ("would delete N") carries the number of deletions of the plan. *)
Theorem C5_dry_run_is_harmless :
  (forall L C W fuel n,
     Duplicates.DRY_RUN C = true ->
     mutations (trace (Duplicates.main L C W fuel) n) = []) /\
  (forall C W duplicates n,
     Duplicates.DRY_RUN C = true -> duplicates <> [] ->
     exists lines,
       trace (Duplicates.delete_duplicates C W duplicates) n
       = Printed (Duplicates.ModeBanner true) :: lines
         ++ [Printed (Duplicates.SummaryWouldDelete
                        (length (Duplicates.plan_of duplicates)))] /\
       requests lines = [] /\
       forall k, ~ In (Printed (Duplicates.SummaryWouldDelete k)) lines) /\
  (forall L C W fuel n,
     OldMemos.DRY_RUN C = true ->
     mutations (trace (OldMemos.main L C W fuel) n) = []) /\
  (forall L C W cutoff_dt memos n,
     OldMemos.DRY_RUN C = true ->
     requests (trace (OldMemos.process L C W cutoff_dt memos) n) = [] /\
     (OldMemos.memos_to_delete L cutoff_dt memos <> [] ->
      exists lines,
        trace (OldMemos.process L C W cutoff_dt memos) n
        = lines
          ++ [Printed (OldMemos.DryRunSummary
                         (length (OldMemos.memos_to_delete L cutoff_dt memos)))] /\
        forall k, ~ In (Printed (OldMemos.DryRunSummary k)) lines)).
Proof.
  repeat split.
  - intros. now apply DuplicatesFacts.main_dry_mutations.
  - intros. now apply DuplicatesFacts.delete_duplicates_dry_summary.
  - intros. now apply OldMemosFacts.cleanup_dry_mutations.
  - now apply OldMemosFacts.process_dry.
  - now apply OldMemosFacts.process_dry.
Qed.

(** C5, on the scenario of the specification: the dry run over A, B and C
    sends nothing but its page request and would delete one memo. *)
Lemma C5_dry_run_is_harmless_witness :
  Duplicates.DRY_RUN Scenario.dup_dry = true /\
  mutations
    (trace (Duplicates.main Reference.duplicates_library Scenario.dup_dry
              (Scenario.dup_world None) 3) 0) = [] /\
  In (Printed (Duplicates.SummaryWouldDelete 1))
    (trace (Duplicates.main Reference.duplicates_library Scenario.dup_dry
              (Scenario.dup_world None) 3) 0) /\
  OldMemos.DRY_RUN Scenario.old_dry = true /\
  mutations
    (trace (OldMemos.main Reference.old_memos_library Scenario.old_dry
              (Scenario.old_world [Scenario.before; Scenario.at_cutoff]) 3) 0)
  = [] /\
  requests
    (trace (OldMemos.process Reference.old_memos_library Scenario.old_dry
              (Scenario.old_world [Scenario.before]) Scenario.cutoff_2025
              [Scenario.before; Scenario.at_cutoff]) 1) = [].
Proof.
  split; [reflexivity|]. split; [|split; [|split; [reflexivity|split]]].
  - exact (proj1 C5_dry_run_is_harmless Reference.duplicates_library
             Scenario.dup_dry (Scenario.dup_world None) 3 0 eq_refl).
  - destruct (proj1 (proj2 C5_dry_run_is_harmless) Scenario.dup_dry
                (Scenario.dup_world None)
                (Duplicates.find_duplicates Reference.duplicates_library
                   [Scenario.A; Scenario.B; Scenario.C]) 1 eq_refl)
      as (lines & Ht & _); [vm_compute; discriminate|].
    vm_compute. tauto.
  - exact (proj1 (proj2 (proj2 C5_dry_run_is_harmless))
             Reference.old_memos_library Scenario.old_dry
             (Scenario.old_world [Scenario.before; Scenario.at_cutoff])
             3 0 eq_refl).
  - exact (proj1 (proj2 (proj2 (proj2 C5_dry_run_is_harmless))
                    Reference.old_memos_library Scenario.old_dry
                    (Scenario.old_world [Scenario.before])
                    Scenario.cutoff_2025
                    [Scenario.before; Scenario.at_cutoff] 1 eq_refl)).
Defined.


(** ** C2: which duplicates are kept and which are deleted *)

Lemma NoDup_another {A : Type} (l : list A) (m : A) :
  NoDup l -> 2 <= length l -> In m l -> exists m', m' <> m /\ In m' l.
Proof.
  intros Hnd Hlen Hin.
  destruct l as [|x [|y l']]; simpl in Hlen; try lia.
  inversion Hnd as [|? ? Hx Hnd']; subst.
  destruct Hin as [<-|[<-|Hin]].
  - exists y. split; [|right; now left].
    intros ->. apply Hx. now left.
  - exists x. split; [|now left].
    intros ->. apply Hx. now left.
  - exists x. split; [|now left].
    intros ->. apply Hx. now right.
Qed.

Lemma first_min_oldest_first (L : Duplicates.library)
    (G : list Duplicates.memo) (kept : Duplicates.memo)
    (l1 l2 : list Duplicates.memo) :
  Py.first_min (fun x => Duplicates.get (Duplicates.createTime x) "") G kept l1 l2 ->
  DuplicatesReport.text_order_is_time_order L G ->
  DuplicatesReport.oldest_first L G kept l1 l2.
Proof.
  intros (HG & Hbefore & Hafter) Horder.
  assert (Hk : In kept G) by (rewrite HG; apply in_or_app; right; now left).
  destruct (Horder kept kept Hk Hk) as (ik & ik' & Hik & _ & _).
  split; [exact HG|]. exists ik. split; [exact Hik|]. split.
  - intros y Hy.
    assert (HyG : In y G) by (rewrite HG; apply in_or_app; now left).
    destruct (Horder kept y Hk HyG) as (i1 & iy & H1 & Hiy & Hiff).
    exists iy. split; [exact Hiy|].
    assert (E : i1 = ik) by congruence. subst i1.
    apply Hiff. now apply Hbefore.
  - intros y Hy.
    assert (HyG : In y G)
      by (rewrite HG; apply in_or_app; right; now right).
    destruct (Horder y kept HyG Hk) as (iy & i1 & Hiy & H1 & Hiff).
    exists iy. split; [exact Hiy|].
    assert (E : i1 = ik) by congruence. subst i1.
    apply Hafter in Hy. apply ltb_false_leb in Hy.
    destruct (Z.lt_ge_cases iy ik) as [Hlt|Hge]; [|exact Hge].
    apply Hiff in Hlt. congruence.
Qed.

(** C2, as stated, fails in three ways.
    Memos without content: E1 and E2 have the same (empty) content and
    the same date, hence the same derived key, yet neither is planned for
    deletion, since [find_duplicates] only groups the memos whose content
    is not empty.
    The memo kept is not always the one created first: of two memos with
    the same content and the same calendar date, one written at 10:00
    with the offset +09:00 (01:00 UTC) and one at 09:00 UTC, the executor
    deletes the first and keeps the second, whatever the order they were
    fetched in, since it sorts the createTime texts.
    A memo alone with its key can be planned: when the fetched list holds
    A twice, A forms a set with itself and is planned for deletion,
    though it is also the memo kept and no other memo shares its key. *)
Lemma C2_policy_fails_as_worded :
  let L := Reference.duplicates_library in
  (Duplicates.composite_key L Scenario.E1 = Duplicates.composite_key L Scenario.E2 /\
   Duplicates.plan L [Scenario.E1; Scenario.E2] = [] /\
   ~ Duplicates.every_sharing_group_is_planned L [Scenario.E1; Scenario.E2]) /\
  (Duplicates.composite_key L More.tokyo = Duplicates.composite_key L More.greenwich /\
   (exists it ig,
      DuplicatesReport.created_at L More.tokyo = Some it /\
      DuplicatesReport.created_at L More.greenwich = Some ig /\
      (it < ig)%Z) /\
   Duplicates.plan L [More.tokyo; More.greenwich] = [More.tokyo] /\
   Duplicates.plan L [More.greenwich; More.tokyo] = [More.tokyo] /\
   DuplicatesReport.kept [More.tokyo; More.greenwich] = Some More.greenwich) /\
  (Duplicates.composite_key L Scenario.C <> Duplicates.composite_key L Scenario.A /\
   Duplicates.find_duplicates L [Scenario.A; Scenario.C; Scenario.A]
   = [(Duplicates.composite_key L Scenario.A, [Scenario.A; Scenario.A])] /\
   DuplicatesReport.kept [Scenario.A; Scenario.A] = Some Scenario.A /\
   Duplicates.plan L [Scenario.A; Scenario.C; Scenario.A] = [Scenario.A]).
Proof.
  intros L. split; [|split].
  - split; [reflexivity|]. split; [reflexivity|].
    intros H.
    specialize (H "_2024-01-01" Scenario.E1 [Scenario.E2]).
    assert (Hin : In Scenario.E2 []).
    { apply H; [vm_compute; lia|reflexivity|now left]. }
    destruct Hin.
  - split; [reflexivity|]. split.
    + exists 63839754000000000%Z, 63839782800000000%Z.
      split; [vm_compute; reflexivity|]. split; [vm_compute; reflexivity|].
      reflexivity.
    + split; [reflexivity|]. split; reflexivity.
  - split; [vm_compute; discriminate|]. split; [reflexivity|].
    split; reflexivity.
Qed.

(** C2, amended.  Take the fetched memos that have a content and share a
    derived key (the digest of the content, "_", and the calendar date of
    createTime, or "unknown").  When there are two or more of them they
    form a duplicate set; the executor sorts the set by the text of
    createTime (a missing one counts as the empty text) with a stable
    sort, keeps the head and plans every other member for deletion.
    When the texts of the set compare as the instants they denote, the
    memo kept is the one with the minimal instant, the first in fetch
    order among those that have it.  When no memo occurs twice in the
    fetched list, the memo kept is not planned, and every planned memo
    shares its derived key with another fetched memo that has a content.
    Whatever is planned has a content and belongs to a set of two or
    more, and the live executor sends its delete requests for exactly
    the planned memos. *)
Theorem C2_duplicate_policy (L : Duplicates.library)
    (memos : list Duplicates.memo) (key : string) :
  let G := Duplicates.group_of L memos key in
  let created := fun x => Duplicates.get (Duplicates.createTime x) "" in
  (2 <= length G ->
   exists kept rest l1 l2,
     In (key, G) (Duplicates.find_duplicates L memos) /\
     Duplicates.sort_by_create_time G = kept :: rest /\
     Py.first_min created G kept l1 l2 /\
     Permutation G (kept :: rest) /\
     incl rest (Duplicates.plan L memos) /\
     (NoDup memos -> ~ In kept (Duplicates.plan L memos)) /\
     (DuplicatesReport.text_order_is_time_order L G ->
      DuplicatesReport.oldest_first L G kept l1 l2)) /\
  (forall m,
     In m (Duplicates.plan L memos) ->
     In m memos /\
     Py.truthy (Duplicates.get (Duplicates.content m) "") = true /\
     2 <= length (Duplicates.group_of L memos (Duplicates.composite_key L m))) /\
  (NoDup memos ->
   forall m,
     In m (Duplicates.plan L memos) ->
     exists m',
       m' <> m /\ In m' memos /\
       Py.truthy (Duplicates.get (Duplicates.content m') "") = true /\
       Duplicates.composite_key L m' = Duplicates.composite_key L m) /\
  (forall C W n,
     Duplicates.DRY_RUN C = false ->
     requests
       (trace (Duplicates.delete_confirmed C W (Duplicates.find_duplicates L memos)) n)
     = map (Duplicates.delete_request C) (Duplicates.plan L memos)).
Proof.
  intros G created. subst G. split; [|split; [|split]].
  - intros Hlen.
    set (G := Duplicates.group_of L memos key) in *.
    assert (Hdup : In (key, G) (Duplicates.find_duplicates L memos))
      by (apply DuplicatesFacts.find_duplicates_spec; auto).
    assert (Hsort : Duplicates.sort_by_create_time G = Py.sort created G)
      by reflexivity.
    destruct (Py.sort created G) as [|kept rest] eqn:Es.
    { pose proof (sort_length created G) as Hl.
      rewrite Es in Hl. simpl in Hl. lia. }
    destruct (sort_head_first_min created G Es) as (l1 & l2 & Hmin).
    assert (Hperm : Permutation G (kept :: rest))
      by (rewrite <- Es; apply sort_perm).
    assert (Hrest : incl rest (Duplicates.plan L memos)).
    { intros x Hx. unfold Duplicates.plan, Duplicates.plan_of.
      apply in_flat_map. exists (key, G). split; [assumption|].
      simpl. rewrite Hsort. exact Hx. }
    exists kept, rest, l1, l2.
    split; [assumption|]. split; [assumption|]. split; [assumption|].
    split; [assumption|]. split; [assumption|].
    split; [|intros Horder; now apply first_min_oldest_first].
    intros Hnd Hin.
    unfold Duplicates.plan, Duplicates.plan_of in Hin.
    apply in_flat_map in Hin as ([k' G'] & Hk & Hin). cbn [snd] in Hin.
    apply DuplicatesFacts.find_duplicates_spec in Hk as [-> _].
    assert (HkG : In kept G)
      by (apply (Permutation_in _ (Permutation_sym Hperm)); now left).
    assert (Hk' : In kept (Duplicates.group_of L memos k')).
    { assert (Hs : In kept (Py.sort created (Duplicates.group_of L memos k'))).
      { change (Duplicates.sort_by_create_time (Duplicates.group_of L memos k'))
          with (Py.sort created (Duplicates.group_of L memos k')) in Hin.
        destruct (Py.sort created (Duplicates.group_of L memos k'));
          [destruct Hin|right; exact Hin]. }
      eapply Permutation_in; [apply Permutation_sym, sort_perm|exact Hs]. }
    apply DuplicatesFacts.group_of_In in HkG as (_ & _ & E1).
    apply DuplicatesFacts.group_of_In in Hk' as (_ & _ & E2).
    assert (Ek : k' = key) by congruence. rewrite Ek in Hin.
    change (Duplicates.group_of L memos key) with G in Hin.
    rewrite Hsort in Hin. simpl in Hin.
    assert (Hnd' : NoDup (kept :: rest)).
    { apply (Permutation_NoDup Hperm). unfold G, Duplicates.group_of.
      now apply NoDup_filter. }
    inversion Hnd'; contradiction.
  - intros m Hin. now apply DuplicatesFacts.plan_In.
  - intros Hnd m Hin.
    destruct (DuplicatesFacts.plan_In _ _ _ Hin) as (Hm & Hcontent & Hlen).
    assert (HmG : In m (Duplicates.group_of L memos (Duplicates.composite_key L m))).
    { apply DuplicatesFacts.group_of_In. repeat split; auto. }
    destruct (@NoDup_another _ _ m
                (NoDup_filter _ Hnd) Hlen HmG) as (m' & Hne & Hin').
    apply DuplicatesFacts.group_of_In in Hin' as (H1 & H2 & H3).
    exists m'. repeat split; assumption.
  - intros C W n Hlive. unfold Duplicates.plan.
    now apply DuplicatesFacts.delete_confirmed_live.
Qed.

Ltac instants :=
  eexists; eexists;
  split; [vm_compute; reflexivity|];
  split; [vm_compute; reflexivity|];
  split; intros H; first [reflexivity | vm_compute in H; discriminate H].

(** C2, on the scenario of the specification: of A, B and C, fetched
    once each, the set {A, B} keeps A, the older of the two, and deletes
    B, and C is in no set. *)
Lemma C2_duplicate_policy_witness :
  let L := Reference.duplicates_library in
  let memos := [Scenario.A; Scenario.B; Scenario.C] in
  2 <= length (Duplicates.group_of L memos "hi_2024-01-01") /\
  NoDup memos /\
  DuplicatesReport.text_order_is_time_order L
    (Duplicates.group_of L memos "hi_2024-01-01") /\
  Duplicates.find_duplicates L memos
  = [("hi_2024-01-01", [Scenario.A; Scenario.B])] /\
  Duplicates.plan L memos = [Scenario.B] /\
  exists kept rest l1 l2,
    Duplicates.sort_by_create_time
      (Duplicates.group_of L memos "hi_2024-01-01") = kept :: rest /\
    incl rest (Duplicates.plan L memos) /\
    ~ In kept (Duplicates.plan L memos) /\
    DuplicatesReport.oldest_first L
      (Duplicates.group_of L memos "hi_2024-01-01") kept l1 l2.
Proof.
  intros L memos.
  assert (Hlen : 2 <= length (Duplicates.group_of L memos "hi_2024-01-01"))
    by (vm_compute; lia).
  assert (Hnd : NoDup memos).
  { repeat constructor; simpl; intros H;
      repeat (destruct H as [H|H]; [discriminate H|]); exact H. }
  assert (Horder : DuplicatesReport.text_order_is_time_order L
                     (Duplicates.group_of L memos "hi_2024-01-01")).
  { intros a b Ha Hb.
    change (Duplicates.group_of L memos "hi_2024-01-01")
      with [Scenario.A; Scenario.B] in Ha, Hb.
    destruct Ha as [<-|[<-|[]]]; destruct Hb as [<-|[<-|[]]]; instants. }
  split; [exact Hlen|]. split; [exact Hnd|]. split; [exact Horder|].
  split; [reflexivity|]. split; [reflexivity|].
  destruct (proj1 (C2_duplicate_policy L memos "hi_2024-01-01") Hlen)
    as (kept & rest & l1 & l2 & _ & Hs & _ & _ & Hr & Hk & Ho).
  exists kept, rest, l1, l2.
  split; [exact Hs|]. split; [exact Hr|]. split; [exact (Hk Hnd)|].
  exact (Ho Horder).
Defined.


(** ** C3, C4, C10: the date-cutoff classifier *)

Lemma Reference_fromtimestamp_naive (ts : Z) (dt : datetime) :
  Reference.fromtimestamp ts = Some dt -> tzinfo dt = None.
Proof.
  unfold Reference.fromtimestamp.
  destruct (Reference.civil_from_days (ts / 86400)) as [[y m] d].
  destruct ((1 <=? y) && (y <=? 9999))%Z; [|discriminate].
  intros H. injection H as <-. reflexivity.
Qed.

(** The scenario of the specification: one second before the cutoff is
    deleted, the cutoff itself is not. *)
Example cutoff_scenario :
  Reference.fromisoformat
    (Py.replace "Z" "+00:00" (OldMemos.CUTOFF_DATE Scenario.old_live))
  = Some Scenario.cutoff_2025 /\
  OldMemos.classify Reference.old_memos_library Scenario.cutoff_2025
    Scenario.before = OldMemos.Delete /\
  OldMemos.classify Reference.old_memos_library Scenario.cutoff_2025
    Scenario.at_cutoff = OldMemos.Skip.
Proof. repeat split; reflexivity. Qed.

(** C3: the code departs from the claim.  The memo [Scenario.epoch]
    carries the Unix time 1700000000 (2023-11-14), an instant before the
    cutoff 2025-12-26T00:00:00Z the script ships with, so the claim makes
    it a Delete.  [fromtimestamp] yields a naive value, its comparison
    with the aware cutoff raises, the handler takes the error for a date
    that does not parse, and the memo is skipped: the live run sends no
    delete request. *)
Theorem C3_epoch_before_cutoff_is_skipped :
  Reference.fromisoformat
    (Py.replace "Z" "+00:00" (OldMemos.CUTOFF_DATE Scenario.old_default))
  = Some Scenario.cutoff_default /\
  OldMemos.create_time Scenario.epoch = Some (OldMemos.Num 1700000000) /\
  (exists cutoff_instant,
     Datetime.instant Scenario.cutoff_default = Some cutoff_instant /\
     (1700000000 * 1000000 < cutoff_instant)%Z) /\
  OldMemos.examine Reference.old_memos_library Scenario.cutoff_default
    Scenario.epoch = OldMemos.DateError /\
  OldMemos.classify Reference.old_memos_library Scenario.cutoff_default
    Scenario.epoch = OldMemos.Skip /\
  mutations
    (trace (OldMemos.main Reference.old_memos_library Scenario.old_default
              (Scenario.old_world [Scenario.epoch]) 3) 0) = [].
Proof.
  split; [reflexivity|]. split; [reflexivity|]. split.
  - eexists. split; [reflexivity|]. vm_compute. reflexivity.
  - repeat split; reflexivity.
Qed.

(** C4.  A memo whose timestamp is missing (no createTime and no
    createdTs, or an empty or zero one) or does not parse is a Skip for
    every cutoff; the plan, and with it the mutating requests of the run,
    are what they would be without the memo. *)
Theorem C4_ambiguous_date_is_skipped (L : OldMemos.library)
    (cutoff_dt : datetime) (memo : OldMemos.memo) :
  (OldMemos.truthy_stamp (OldMemos.create_time memo) = false \/
   exists ct, OldMemos.create_time memo = Some ct /\ OldMemos.parse L ct = None) ->
  OldMemos.classify L cutoff_dt memo = OldMemos.Skip /\
  (forall l1 l2,
     OldMemos.memos_to_delete L cutoff_dt (l1 ++ memo :: l2)
     = OldMemos.memos_to_delete L cutoff_dt (l1 ++ l2)) /\
  (forall C W l1 l2 n,
     mutations (trace (OldMemos.process L C W cutoff_dt (l1 ++ memo :: l2)) n)
     = mutations (trace (OldMemos.process L C W cutoff_dt (l1 ++ l2)) n)).
Proof.
  intros H.
  assert (Hskip : OldMemos.classify L cutoff_dt memo = OldMemos.Skip).
  { unfold OldMemos.classify. destruct H as [H|(ct & Hc & Hp)].
    - now rewrite (OldMemosFacts.examine_no_timestamp L cutoff_dt memo H).
    - destruct (OldMemosFacts.examine_unparseable L cutoff_dt memo Hc Hp) as [->| ->];
        reflexivity. }
  split; [exact Hskip|]. split.
  - intros l1 l2. now apply OldMemosFacts.memos_to_delete_skip.
  - intros C W l1 l2 n. rewrite !OldMemosFacts.process_mutations.
    now rewrite (OldMemosFacts.memos_to_delete_skip L cutoff_dt l1 l2 memo Hskip).
Qed.

(** C4, on concrete memos: one without a date, one with a date that does
    not parse. *)
Lemma C4_ambiguous_date_is_skipped_witness :
  OldMemos.truthy_stamp (OldMemos.create_time Scenario.undated) = false /\
  OldMemos.classify Reference.old_memos_library Scenario.cutoff_2025
    Scenario.undated = OldMemos.Skip /\
  OldMemos.parse Reference.old_memos_library (OldMemos.Str "yesterday") = None /\
  OldMemos.classify Reference.old_memos_library Scenario.cutoff_2025
    Scenario.garbled = OldMemos.Skip.
Proof.
  split; [reflexivity|]. split.
  - apply (C4_ambiguous_date_is_skipped Reference.old_memos_library
             Scenario.cutoff_2025 Scenario.undated).
    left. reflexivity.
  - split; [reflexivity|].
    apply (C4_ambiguous_date_is_skipped Reference.old_memos_library
             Scenario.cutoff_2025 Scenario.garbled).
    right. exists (OldMemos.Str "yesterday"). split; reflexivity.
Defined.

(** C10.  When the cutoff is aware (its string carries a UTC offset) and
    the timestamp the loop reads is a number, the memo is a Skip:
    [fromtimestamp] gives a naive value, or fails; a naive value cannot be
    compared with the cutoff; either error is caught (a zero timestamp is
    skipped as missing).  The plan and the mutating requests of the run
    are what they would be without the memo. *)
Theorem C10_epoch_under_aware_cutoff (L : OldMemos.library)
    (cutoff_dt : datetime) (offset : Z) (memo : OldMemos.memo) (ts : Z) :
  tzinfo cutoff_dt = Some offset ->
  OldMemos.create_time memo = Some (OldMemos.Num ts) ->
  (forall dt, OldMemos.fromtimestamp L ts = Some dt -> tzinfo dt = None) ->
  OldMemos.classify L cutoff_dt memo = OldMemos.Skip /\
  (forall dt, OldMemos.fromtimestamp L ts = Some dt ->
              Datetime.lt dt cutoff_dt = None) /\
  (ts <> 0%Z -> OldMemos.examine L cutoff_dt memo = OldMemos.DateError) /\
  (forall l1 l2,
     OldMemos.memos_to_delete L cutoff_dt (l1 ++ memo :: l2)
     = OldMemos.memos_to_delete L cutoff_dt (l1 ++ l2)) /\
  (forall C W l1 l2 n,
     mutations (trace (OldMemos.process L C W cutoff_dt (l1 ++ memo :: l2)) n)
     = mutations (trace (OldMemos.process L C W cutoff_dt (l1 ++ l2)) n)).
Proof.
  intros Haware Hc Hnaive.
  assert (Hlt : forall dt, OldMemos.fromtimestamp L ts = Some dt ->
                           Datetime.lt dt cutoff_dt = None).
  { intros dt Hdt. unfold Datetime.lt. now rewrite (Hnaive dt Hdt), Haware. }
  assert (Herr : ts <> 0%Z ->
                 OldMemos.examine L cutoff_dt memo = OldMemos.DateError).
  { intros Hts.
    assert (Ht : OldMemos.truthy_stamp (Some (OldMemos.Num ts)) = true)
      by (simpl; now apply negb_true_iff, Z.eqb_neq).
    rewrite (OldMemosFacts.examine_parsed L cutoff_dt memo Hc Ht). simpl.
    destruct (OldMemos.fromtimestamp L ts) as [dt|] eqn:Hdt; [|reflexivity].
    now rewrite (Hlt dt eq_refl). }
  assert (Hskip : OldMemos.classify L cutoff_dt memo = OldMemos.Skip).
  { unfold OldMemos.classify. destruct (Z.eq_dec ts 0) as [->|Hts].
    - rewrite (OldMemosFacts.examine_no_timestamp L cutoff_dt memo);
        [reflexivity|now rewrite Hc].
    - now rewrite (Herr Hts). }
  split; [exact Hskip|]. split; [exact Hlt|]. split; [exact Herr|]. split.
  - intros l1 l2. now apply OldMemosFacts.memos_to_delete_skip.
  - intros C W l1 l2 n. rewrite !OldMemosFacts.process_mutations.
    now rewrite (OldMemosFacts.memos_to_delete_skip L cutoff_dt l1 l2 memo Hskip).
Qed.

(** C10, with the cutoff the script ships with and a memo of 2023 dated
    by its Unix time. *)
Lemma C10_epoch_under_aware_cutoff_witness :
  Reference.fromisoformat (Py.replace "Z" "+00:00" "2025-12-26T00:00:00Z")
  = Some Scenario.cutoff_default /\
  tzinfo Scenario.cutoff_default = Some 0%Z /\
  OldMemos.create_time Scenario.epoch = Some (OldMemos.Num 1700000000) /\
  OldMemos.classify Reference.old_memos_library Scenario.cutoff_default
    Scenario.epoch = OldMemos.Skip.
Proof.
  split; [reflexivity|]. split; [reflexivity|]. split; [reflexivity|].
  apply (@C10_epoch_under_aware_cutoff Reference.old_memos_library
           Scenario.cutoff_default 0%Z Scenario.epoch 1700000000%Z
           eq_refl eq_refl).
  intros dt Hdt. exact (@Reference_fromtimestamp_naive 1700000000%Z dt Hdt).
Defined.

(** ** C6, C7: a page that fails *)

Lemma fetch_pages_taken (L : Duplicates.library) (C : Duplicates.config)
    (W : Duplicates.world) (pages : list Duplicates.page) :
  forall fuel all_memos page_token page_count n,
    Forall Duplicates.continuing pages ->
    Duplicates.served W n pages ->
    exists taken,
      forallb DuplicatesReport.page_taken taken = true /\
      trace (Duplicates.fetch_pages L C W (length pages + fuel) all_memos
               page_token page_count) n
      = taken
        ++ trace (Duplicates.fetch_pages L C W fuel
                    (all_memos ++ Duplicates.records pages)
                    (Duplicates.token_after page_token pages)
                    (page_count + length pages)) (n + length pages).
Proof.
  induction pages as [|p pages IH];
    intros fuel all_memos page_token page_count n Hc Hs.
  - exists []. split; [reflexivity|].
    unfold Duplicates.records. simpl. now rewrite app_nil_r, !Nat.add_0_r.
  - inversion Hc as [|? ? [Hm Ht] Hc']; subst.
    simpl Duplicates.fetch_pages. rewrite trace_send.
    pose proof (fun r => Hs 0%nat p r eq_refl) as H0.
    rewrite Nat.add_0_r in H0. rewrite H0.
    change (raises_for_status 200) with false. cbv iota.
    destruct (Duplicates.memos p) as [|m ms] eqn:Em; [congruence|].
    rewrite trace_print, Ht.
    destruct (IH fuel (all_memos ++ m :: ms) (Duplicates.nextPageToken p)
                (S page_count) (n + 1)%nat Hc') as (taken & Htaken & Htrace).
    { rewrite Nat.add_1_r. eapply DuplicatesFacts.served_tail; eauto. }
    eexists (Sent _ :: Printed (Duplicates.PageFetched _ _) :: taken).
    split; [exact Htaken|].
    cbn [app]. do 2 f_equal. rewrite Htrace. f_equal.
    unfold Duplicates.records, Duplicates.token_after. simpl. rewrite Em.
    rewrite <- app_assoc.
    replace (n + S (length pages))%nat with (n + 1 + length pages)%nat by lia.
    replace (page_count + S (length pages))%nat
      with (S page_count + length pages)%nat by lia.
    reflexivity.
Qed.

Lemma fetch_pages_refused_trace (L : Duplicates.library)
    (C : Duplicates.config) (W : Duplicates.world) (fuel : nat)
    (all_memos : list Duplicates.memo) (page_token : option string)
    (page_count n : nat) (status_code : Z) (json : option Duplicates.page) :
  (forall r, Duplicates.get_memos W n r = Answered status_code json) ->
  raises_for_status status_code = true ->
  trace (Duplicates.fetch_pages L C W (S fuel) all_memos page_token page_count) n
  = Sent (DuplicatesReport.page_request L C page_token)
    :: DuplicatesReport.after_refusal status_code (S page_count) all_memos.
Proof.
  intros Hw Hs. simpl Duplicates.fetch_pages.
  rewrite trace_send, Hw, Hs. unfold DuplicatesReport.after_refusal.
  f_equal. destruct (status_code =? 400)%Z; [reflexivity|].
  destruct all_memos; reflexivity.
Qed.

Lemma page_taken_printed (taken : list (event Duplicates.message))
    (m : Duplicates.message) :
  forallb DuplicatesReport.page_taken taken = true ->
  In (Printed m) taken ->
  exists page_count k, m = Duplicates.PageFetched page_count k.
Proof.
  intros Hall Hin. rewrite forallb_forall in Hall.
  specialize (Hall _ Hin). destruct m; try discriminate. eauto.
Qed.

Lemma get_pages_taken (C : OldMemos.config) (W : OldMemos.world)
    (pages : list OldMemos.page) :
  forall fuel all_memos page_token page_count n,
    Forall OldMemos.continuing pages ->
    OldMemos.served W n pages ->
    exists taken,
      forallb OldMemosReport.page_taken taken = true /\
      trace (OldMemos.get_pages C W (length pages + fuel) all_memos
               page_token page_count) n
      = taken
        ++ trace (OldMemos.get_pages C W fuel
                    (all_memos ++ OldMemos.records pages)
                    (OldMemos.token_after page_token pages)
                    (page_count + length pages)) (n + length pages).
Proof.
  induction pages as [|p pages IH];
    intros fuel all_memos page_token page_count n Hc Hs.
  - exists []. split; [reflexivity|].
    unfold OldMemos.records. simpl. now rewrite app_nil_r, !Nat.add_0_r.
  - inversion Hc as [|? ? Ht Hc']; subst. unfold OldMemos.continuing in Ht.
    simpl OldMemos.get_pages. rewrite trace_send.
    pose proof (fun r => Hs 0%nat p r eq_refl) as H0.
    rewrite Nat.add_0_r in H0. rewrite H0.
    change (200 =? 200)%Z with true. cbv iota.
    rewrite trace_print, Ht.
    destruct (IH fuel (all_memos ++ OldMemos.memos p) (OldMemos.nextPageToken p)
                (S page_count) (n + 1)%nat Hc') as (taken & Htaken & Htrace).
    { rewrite Nat.add_1_r. eapply OldMemosFacts.served_rest; eauto. }
    eexists (Sent _ :: Printed (OldMemos.PageCount _ _) :: taken).
    split; [exact Htaken|].
    cbn [app]. do 2 f_equal. rewrite Htrace. f_equal.
    unfold OldMemos.records, OldMemos.token_after. simpl.
    rewrite <- app_assoc.
    replace (n + S (length pages))%nat with (n + 1 + length pages)%nat by lia.
    replace (page_count + S (length pages))%nat
      with (S page_count + length pages)%nat by lia.
    reflexivity.
Qed.

Lemma page_count_printed (taken : list (event OldMemos.message))
    (m : OldMemos.message) :
  forallb OldMemosReport.page_taken taken = true ->
  In (Printed m) taken ->
  exists page_count k, m = OldMemos.PageCount page_count k.
Proof.
  intros Hall Hin. rewrite forallb_forall in Hall.
  specialize (Hall _ Hin). destruct m; try discriminate. eauto.
Qed.

(** C6, the claim as worded fails: the duplicate cleaner whose second
    page request is answered 404, a 400-class status, does not end its
    pagination the way it does at the end of the stream.  The exception
    is raised again, the handler of the outer [try] reports a fetch error
    and the total is never announced.  The same request answered 400
    does end normally. *)
Lemma C6_not_found_goes_through_the_error_handler :
  let W := Scenario.dup_world_failing (Answered 404 None) in
  let run :=
    Duplicates.fetch_all_memos Reference.duplicates_library Scenario.dup_live
      W 2 in
  (forall r, Duplicates.get_memos W 1 r = Answered 404 None) /\
  (400 <= 404 < 500)%Z /\
  trace run 0
  = [Sent (Request GET "http://memos/api/v1/memos?pageSize=100" []);
     Printed (Duplicates.PageFetched 1 2);
     Sent (Request GET "http://memos/api/v1/memos?pageSize=100&pageToken=t1" []);
     Printed Duplicates.FetchError;
     Printed (Duplicates.ContinuingWith 2)] /\
  ~ DuplicatesReport.ends_normally (trace run 0) /\
  DuplicatesReport.ends_normally
    (trace (Duplicates.fetch_all_memos Reference.duplicates_library
              Scenario.dup_live (Scenario.dup_world_failing (Answered 400 None))
              2) 0).
Proof.
  intros W run.
  split; [reflexivity|]. split; [lia|]. split; [reflexivity|]. split.
  - intros [_ Hno]. apply Hno. vm_compute. tauto.
  - split.
    + exists 2%nat. vm_compute. tauto.
    + vm_compute. intros H.
      repeat (destruct H as [H|H]; [discriminate H|]). exact H.
Qed.

(** C6.  Let the first pages be served and let the next request be
    answered with an HTTP error status (4xx or 5xx).  Both fetchers stop
    there and return the memos of the pages before, having sent exactly
    one request per page, the refused one included: nothing is retried.
    [fetch_all_memos] takes the status 400, and no other, for the end of
    the results: it prints the bad request and the total, and its error
    handler does not run.  Every other error status goes through the
    error handler, which prints the fetch error and, when memos were
    gathered, that it continues with them; the total is not announced.
    [get_all_memos] treats every error status alike: it prints that the
    fetch failed, leaves its loop through [break] and announces the
    total. *)
Theorem C6_refused_page_ends_pagination :
  (forall L C W pages fuel n status_code json,
     Forall Duplicates.continuing pages ->
     Duplicates.served W n pages ->
     (forall r, Duplicates.get_memos W (n + length pages) r
                = Answered status_code json) ->
     (400 <= status_code < 600)%Z ->
     let run := Duplicates.fetch_all_memos L C W (length pages + S fuel) in
     result run n = Some (Duplicates.records pages) /\
     length (requests (trace run n)) = S (length pages) /\
     mutations (trace run n) = [] /\
     (status_code = 400%Z ->
      ~ In (Printed Duplicates.FetchError) (trace run n)) /\
     (exists taken,
        forallb DuplicatesReport.page_taken taken = true /\
        trace run n
        = taken
          ++ Sent (DuplicatesReport.page_request L C
                     (Duplicates.token_after None pages))
             :: DuplicatesReport.after_refusal status_code (S (length pages))
                  (Duplicates.records pages)) /\
     (status_code = 400%Z ->
      DuplicatesReport.ends_normally (trace run n) /\
      In (Printed (Duplicates.PageBadRequest (S (length pages)))) (trace run n)) /\
     (status_code <> 400%Z ->
      ~ DuplicatesReport.ends_normally (trace run n) /\
      In (Printed Duplicates.FetchError) (trace run n) /\
      forall total,
        ~ In (Printed (Duplicates.TotalFetched total)) (trace run n))) /\
  (forall C W pages fuel n status_code json,
     Forall OldMemos.continuing pages ->
     OldMemos.served W n pages ->
     (forall r, OldMemos.get_memos W (n + length pages) r
                = Answered status_code json) ->
     (400 <= status_code < 600)%Z ->
     let run := OldMemos.get_all_memos C W (length pages + S fuel) in
     result run n = Some (OldMemos.records pages) /\
     length (requests (trace run n)) = S (length pages) /\
     mutations (trace run n) = [] /\
     (exists taken,
        forallb OldMemosReport.page_taken taken = true /\
        trace run n
        = taken
          ++ [Sent (OldMemosReport.page_request C
                      (OldMemos.token_after None pages));
              Printed OldMemos.FailedToFetch;
              Printed (OldMemos.Fetched (length (OldMemos.records pages)))]) /\
     OldMemosReport.ends_normally (trace run n)).
Proof.
  split.
  - intros L C W pages fuel n status_code json Hc Hs Hw Hstatus run.
    assert (Hraise : raises_for_status status_code = true)
      by (unfold raises_for_status; apply andb_true_iff; split;
          [apply Z.leb_le|apply Z.ltb_lt]; lia).
    destruct (@DuplicatesFacts.fetch_pages_served L C W pages (S fuel) [] None 0 n
                Hc Hs) as (Hr & Hq & Hf).
    destruct (@DuplicatesFacts.fetch_pages_refused L C W fuel
                ([] ++ Duplicates.records pages)
                (Duplicates.token_after None pages) (0 + length pages)
                (n + length pages) status_code json Hw Hraise)
      as (Gr & Gq & Gf).
    destruct (@fetch_pages_taken L C W pages (S fuel) [] None 0%nat n Hc Hs)
      as (taken & Htaken & Htrace).
    rewrite (@fetch_pages_refused_trace L C W fuel
               ([] ++ Duplicates.records pages)
               (Duplicates.token_after None pages) (0 + length pages)
               (n + length pages) status_code json Hw Hraise) in Htrace.
    cbn [app plus] in Htrace.
    assert (Hprinted : forall m,
               In (Printed m) (trace run n) ->
               (exists page_count k, m = Duplicates.PageFetched page_count k) \/
               In (Printed m)
                 (DuplicatesReport.after_refusal status_code (S (length pages))
                    (Duplicates.records pages))).
    { intros m Hin. unfold run, Duplicates.fetch_all_memos in Hin.
      rewrite Htrace in Hin. apply in_app_or in Hin as [Hin|[Hin|Hin]].
      - left. eapply page_taken_printed; eauto.
      - discriminate Hin.
      - now right. }
    assert (Htail : forall e,
               In e (DuplicatesReport.after_refusal status_code (S (length pages))
                       (Duplicates.records pages)) ->
               In e (trace run n)).
    { intros e Hin. unfold run, Duplicates.fetch_all_memos. rewrite Htrace.
      apply in_or_app. right. now right. }
    unfold run, Duplicates.fetch_all_memos.
    split; [rewrite Hr; exact Gr|].
    split; [rewrite Hq, Gq; lia|].
    split; [apply quiet_mutations, DuplicatesFacts.fetch_pages_quiet|].
    split; [intros E Hin; apply Hf in Hin; now apply (Gf E)|].
    split; [exists taken; split; [exact Htaken|exact Htrace]|].
    split.
    + intros ->. split; [split|].
      * exists (length (Duplicates.records pages)).
        apply Htail. right. now left.
      * intros Hin. apply Hprinted in Hin as [(a & b & H)|H];
          [discriminate H|].
        destruct H as [H|[H|[]]]; discriminate H.
      * apply Htail. now left.
    + intros Hne. apply Z.eqb_neq in Hne.
      assert (Herr : In (Printed Duplicates.FetchError) (trace run n)).
      { apply Htail. unfold DuplicatesReport.after_refusal. rewrite Hne.
        now left. }
      split; [intros [_ Hno]; now apply Hno|]. split; [exact Herr|].
      intros total Hin. apply Hprinted in Hin as [(a & b & H)|H];
        [discriminate H|].
      unfold DuplicatesReport.after_refusal in H. rewrite Hne in H.
      destruct H as [H|H]; [discriminate H|].
      destruct (Duplicates.records pages); [destruct H|].
      destruct H as [H|[]]; discriminate H.
  - intros C W pages fuel n status_code json Hc Hs Hw Hstatus run.
    assert (Hne : status_code <> 200%Z) by lia.
    destruct (@OldMemosFacts.get_pages_served C W pages (S fuel) [] None 0 n
                Hc Hs) as (Hr & Hq).
    destruct (@OldMemosFacts.get_pages_refused C W fuel
                ([] ++ OldMemos.records pages)
                (OldMemos.token_after None pages) (0 + length pages)
                (n + length pages) status_code json Hw Hne)
      as (Gr & Gq).
    destruct (@get_pages_taken C W pages (S fuel) [] None 0%nat n Hc Hs)
      as (taken & Htaken & Htrace).
    assert (Hlast :
              trace (OldMemos.get_pages C W (S fuel)
                       ([] ++ OldMemos.records pages)
                       (OldMemos.token_after None pages) (0 + length pages))
                (n + length pages)
              = [Sent (OldMemosReport.page_request C
                         (OldMemos.token_after None pages));
                 Printed OldMemos.FailedToFetch;
                 Printed (OldMemos.Fetched (length (OldMemos.records pages)))]).
    { simpl OldMemos.get_pages. rewrite trace_send, Hw.
      apply Z.eqb_neq in Hne. rewrite Hne. reflexivity. }
    rewrite Hlast in Htrace.
    unfold run, OldMemos.get_all_memos.
    split; [rewrite Hr; exact Gr|].
    split; [rewrite Hq, Gq; lia|].
    split; [apply quiet_mutations, OldMemosFacts.get_pages_quiet|].
    split; [exists taken; split; [exact Htaken|exact Htrace]|].
    split.
    + exists (length (OldMemos.records pages)). rewrite Htrace.
      apply in_or_app. right. right. right. now left.
    + rewrite Htrace. intros Hin. apply in_app_or in Hin as [Hin|Hin].
      * destruct (@page_count_printed taken OldMemos.ErrorFetching Htaken Hin)
          as (a & b & H).
        discriminate H.
      * destruct Hin as [H|[H|[H|[]]]]; discriminate H.
Qed.

(** C6, on one page followed by a refusal: 400 for the duplicate
    cleaner, which ends normally, and 503 for the cutoff cleaner. *)
Lemma C6_refused_page_ends_pagination_witness :
  Forall Duplicates.continuing [Scenario.dup_first_page] /\
  Duplicates.served (Scenario.dup_world_failing (Answered 400 None)) 0
    [Scenario.dup_first_page] /\
  result (Duplicates.fetch_all_memos Reference.duplicates_library
            Scenario.dup_live (Scenario.dup_world_failing (Answered 400 None)) 2) 0
  = Some [Scenario.A; Scenario.B] /\
  DuplicatesReport.ends_normally
    (trace (Duplicates.fetch_all_memos Reference.duplicates_library
              Scenario.dup_live (Scenario.dup_world_failing (Answered 400 None))
              2) 0) /\
  Forall OldMemos.continuing [Scenario.old_first_page] /\
  result (OldMemos.get_all_memos Scenario.old_live
            (Scenario.old_world_failing (Answered 503 None)) 2) 0
  = Some [Scenario.before; Scenario.at_cutoff] /\
  OldMemosReport.ends_normally
    (trace (OldMemos.get_all_memos Scenario.old_live
              (Scenario.old_world_failing (Answered 503 None)) 2) 0).
Proof.
  assert (Hoc : Forall OldMemos.continuing [Scenario.old_first_page])
    by (constructor; [reflexivity|constructor]).
  assert (Hos : OldMemos.served (Scenario.old_world_failing (Answered 503 None))
                  0 [Scenario.old_first_page]).
  { intros k p r Hk. destruct k as [|k]; simpl in Hk.
    - injection Hk as <-. reflexivity.
    - destruct k; discriminate. }
  assert (Hc : Forall Duplicates.continuing [Scenario.dup_first_page]).
  { constructor; [|constructor]. split; [discriminate|reflexivity]. }
  assert (Hs : Duplicates.served (Scenario.dup_world_failing (Answered 400 None))
                 0 [Scenario.dup_first_page]).
  { intros k p r Hk. destruct k as [|k]; simpl in Hk.
    - injection Hk as <-. reflexivity.
    - destruct k; discriminate. }
  assert (Hd := proj1 C6_refused_page_ends_pagination
                  Reference.duplicates_library Scenario.dup_live
                  (Scenario.dup_world_failing (Answered 400 None))
                  [Scenario.dup_first_page] 0%nat 0%nat 400%Z None Hc Hs
                  (fun _ => eq_refl) ltac:(lia)).
  assert (Ho := proj2 C6_refused_page_ends_pagination
                  Scenario.old_live
                  (Scenario.old_world_failing (Answered 503 None))
                  [Scenario.old_first_page] 0%nat 0%nat 503%Z None Hoc Hos
                  (fun _ => eq_refl) ltac:(lia)).
  cbv zeta in Hd, Ho.
  destruct Hd as (Hd1 & _ & _ & _ & _ & Hd2 & _).
  destruct Ho as (Ho1 & _ & _ & _ & Ho2).
  split; [exact Hc|]. split; [exact Hs|]. split; [exact Hd1|].
  split; [exact (proj1 (Hd2 eq_refl))|]. split; [exact Hoc|].
  split; [exact Ho1|exact Ho2].
Defined.

(** C7.  Let the first pages be served and let the next request fail
    with a network-level exception.  Both fetchers return the memos of
    the pages before, and the run goes on with them: after the events of
    the fetch come those of the classifier and the executor applied to
    that partial list. *)
Theorem C7_partial_fetch_is_kept :
  (forall L C W pages fuel n,
     Py.truthy_opt (Duplicates.MEMOS_TOKEN C) = true ->
     Forall Duplicates.continuing pages ->
     Duplicates.served W n pages ->
     (forall r, Duplicates.get_memos W (n + length pages) r = Raised) ->
     let fetch := Duplicates.fetch_all_memos L C W (length pages + S fuel) in
     result fetch n = Some (Duplicates.records pages) /\
     length (requests (trace fetch n)) = S (length pages) /\
     trace (Duplicates.main L C W (length pages + S fuel)) n
     = trace fetch n
       ++ trace (Duplicates.process L C W (Duplicates.records pages))
            (n + S (length pages))) /\
  (forall L C W pages fuel n cutoff_dt,
     Py.truthy (OldMemos.MEMOS_URL C) && Py.truthy_opt (OldMemos.MEMOS_TOKEN C)
     = true ->
     OldMemos.fromisoformat L (Py.replace "Z" "+00:00" (OldMemos.CUTOFF_DATE C))
     = Some cutoff_dt ->
     Forall OldMemos.continuing pages ->
     OldMemos.served W n pages ->
     (forall r, OldMemos.get_memos W (n + length pages) r = Raised) ->
     let fetch := OldMemos.get_all_memos C W (length pages + S fuel) in
     result fetch n = Some (OldMemos.records pages) /\
     length (requests (trace fetch n)) = S (length pages) /\
     trace (OldMemos.main L C W (length pages + S fuel)) n
     = trace fetch n
       ++ trace (OldMemos.process L C W cutoff_dt (OldMemos.records pages))
            (n + S (length pages))).
Proof.
  split.
  - intros L C W pages fuel n Htoken Hc Hs Hw fetch.
    destruct (@DuplicatesFacts.fetch_pages_served L C W pages (S fuel) [] None 0 n
                Hc Hs) as (Hr & Hq & _).
    destruct (@DuplicatesFacts.fetch_pages_raised L C W fuel
                ([] ++ Duplicates.records pages)
                (Duplicates.token_after None pages) (0 + length pages)
                (n + length pages) Hw)
      as (Gr & Gq).
    assert (Er : result fetch n = Some (Duplicates.records pages))
      by (unfold fetch, Duplicates.fetch_all_memos; rewrite Hr; exact Gr).
    assert (Eq : length (requests (trace fetch n)) = S (length pages))
      by (unfold fetch, Duplicates.fetch_all_memos; rewrite Hq, Gq; lia).
    split; [exact Er|]. split; [exact Eq|].
    rewrite (@DuplicatesFacts.main_trace L C W _ n Htoken).
    fold fetch. rewrite Er. f_equal. f_equal. f_equal.
    rewrite quiet_interactions by apply DuplicatesFacts.fetch_pages_quiet.
    exact Eq.
  - intros L C W pages fuel n cutoff_dt Hcfg Hcut Hc Hs Hw fetch.
    destruct (@OldMemosFacts.get_pages_served C W pages (S fuel) [] None 0 n
                Hc Hs) as (Hr & Hq).
    destruct (@OldMemosFacts.get_pages_raised C W fuel
                ([] ++ OldMemos.records pages)
                (OldMemos.token_after None pages) (0 + length pages)
                (n + length pages) Hw)
      as (Gr & Gq).
    assert (Er : result fetch n = Some (OldMemos.records pages))
      by (unfold fetch, OldMemos.get_all_memos; rewrite Hr; exact Gr).
    assert (Eq : length (requests (trace fetch n)) = S (length pages))
      by (unfold fetch, OldMemos.get_all_memos; rewrite Hq, Gq; lia).
    split; [exact Er|]. split; [exact Eq|].
    rewrite (@OldMemosFacts.cleanup_trace L C W _ n cutoff_dt Hcfg Hcut).
    fold fetch. rewrite Er. f_equal. f_equal. f_equal.
    rewrite quiet_interactions by apply OldMemosFacts.get_pages_quiet.
    exact Eq.
Qed.

(** C7, on a concrete server: a first page with A and B, then a
    connection error; the duplicate policy still runs on A and B. *)
Lemma C7_partial_fetch_is_kept_witness :
  Py.truthy_opt (Duplicates.MEMOS_TOKEN Scenario.dup_dry) = true /\
  result (Duplicates.fetch_all_memos Reference.duplicates_library
            Scenario.dup_dry (Scenario.dup_world_failing Raised) 2) 0
  = Some [Scenario.A; Scenario.B] /\
  In (Printed (Duplicates.WouldDelete (Some "memos/B")))
    (trace (Duplicates.main Reference.duplicates_library Scenario.dup_dry
              (Scenario.dup_world_failing Raised) 2) 0) /\
  result (OldMemos.get_all_memos Scenario.old_dry
            (Scenario.old_world_failing Raised) 2) 0
  = Some [Scenario.before; Scenario.at_cutoff].
Proof.
  assert (Hoc : Forall OldMemos.continuing [Scenario.old_first_page])
    by (constructor; [reflexivity|constructor]).
  assert (Hos : OldMemos.served (Scenario.old_world_failing Raised)
                  0 [Scenario.old_first_page]).
  { intros k p r Hk. destruct k as [|k]; simpl in Hk.
    - injection Hk as <-. reflexivity.
    - destruct k; discriminate. }
  assert (Hc : Forall Duplicates.continuing [Scenario.dup_first_page]).
  { constructor; [|constructor]. split; [discriminate|reflexivity]. }
  assert (Hs : Duplicates.served (Scenario.dup_world_failing Raised)
                 0 [Scenario.dup_first_page]).
  { intros k p r Hk. destruct k as [|k]; simpl in Hk.
    - injection Hk as <-. reflexivity.
    - destruct k; discriminate. }
  destruct (proj1 C7_partial_fetch_is_kept
              Reference.duplicates_library Scenario.dup_dry
              (Scenario.dup_world_failing Raised)
              [Scenario.dup_first_page] 0 0 eq_refl Hc Hs
              (fun r => eq_refl)) as (Hr & _ & Ht).
  split; [reflexivity|]. split; [exact Hr|]. split.
  - change (length [Scenario.dup_first_page] + 1) with 2 in Ht.
    rewrite Ht. apply in_or_app. right. vm_compute. tauto.
  - exact (proj1 (proj2 C7_partial_fetch_is_kept
                    Reference.old_memos_library Scenario.old_dry
                    (Scenario.old_world_failing Raised)
                    [Scenario.old_first_page] 0 0 Scenario.cutoff_2025
                    eq_refl eq_refl Hoc Hos (fun r => eq_refl))).
Defined.

(** ** C8: create, then backdate *)

(** C8.  [create_memo] first sends the creation request: a POST to
    <MEMOS_URL>/api/v1/memos that carries the text and the visibility and
    no timestamp.  When the creation succeeded and a timestamp was
    supplied, the next request is a separate update of the memo just
    created: a PATCH to <MEMOS_URL>/api/v1/<name>, the name being the one
    the creation answered with, whose only field sets createTime to that
    timestamp.  When this update fails (an exception, or a status other
    than 200) the failure is printed; an exception is printed with the
    line of a failed creation.  In no case does [create_memo] send a
    delete request: a memo that was created stays. *)
Theorem C8_create_then_backdate (L : Scraper.library) (C : Scraper.config)
    (W : Scraper.world) (text : string) (timestamp : option string)
    (images : list (option string)) (video_url : option string) (n : nat) :
  let t := trace (Scraper.create_memo L C W text timestamp images video_url) n in
  let base := Py.str_opt (Scraper.MEMOS_URL C) in
  (exists rest,
     t = Sent (Scraper.create_request C text) :: rest /\
     Scraper.create_request C text
     = Request POST (base ++ "/api/v1/memos")
         [("content", text); ("visibility", "PRIVATE")] /\
     In ("content", text) (fields (Scraper.create_request C text))) /\
  (forall r, In (Sent r) t -> meth r <> DELETE) /\
  (forall status_code memo_name ts,
     Scraper.post_memo W n (Scraper.create_request C text)
     = Answered status_code (Some memo_name) ->
     raises_for_status status_code = false ->
     timestamp = Some ts -> Py.truthy ts = true ->
     exists rest,
       t = Sent (Scraper.create_request C text)
           :: Printed (Scraper.MemoCreated memo_name)
           :: Sent (Scraper.backdate_request C memo_name ts)
           :: rest /\
       Scraper.backdate_request C memo_name ts
       = Request PATCH (base ++ "/api/v1/" ++ Py.str_opt memo_name)
           [("createTime", ts)] /\
       fields (Scraper.backdate_request C memo_name ts) = [("createTime", ts)] /\
       match Scraper.patch_memo W (n + 1)
               (Scraper.backdate_request C memo_name ts) with
       | Raised => In (Printed Scraper.FailedToCreateMemo) rest
       | Answered patch_status _ =>
           patch_status <> 200%Z ->
           In (Printed (Scraper.TimestampUpdateFailed patch_status)) rest
       end).
Proof.
  intros t base. split; [|split].
  - unfold t. rewrite ScraperFacts.create_memo_trace.
    eexists. split; [reflexivity|]. split; [reflexivity|]. now left.
  - intros r. apply ScraperFacts.create_memo_no_delete.
  - intros status_code memo_name ts Hpost Hok -> Hts.
    unfold t. rewrite ScraperFacts.create_memo_trace, Hpost, Hok.
    simpl Py.truthy_opt. rewrite Hts. simpl Py.str_opt. cbv zeta.
    eexists. split; [reflexivity|]. split; [reflexivity|].
    split; [reflexivity|].
    destruct (Scraper.patch_memo W (n + 1) _) as [|patch_status body].
    + now left.
    + intros Hne. apply Z.eqb_neq in Hne. rewrite Hne. now left.
Qed.

(** C8, on a tweet whose update is refused with status 500: the update
    is the PATCH of memos/9, the memo the creation answered with, and the
    refusal is printed. *)
Lemma C8_create_then_backdate_witness :
  raises_for_status 200 = false /\
  Py.truthy "2024-05-01T08:00:00.000Z" = true /\
  (exists rest,
     trace (Scraper.create_memo Reference.scraper_library Scenario.scraper_config
              (Scenario.scraper_world 500) "hello"
              (Some "2024-05-01T08:00:00.000Z") [] None) 0
     = Sent (Request POST "http://memos/api/v1/memos"
               [("content", "hello"); ("visibility", "PRIVATE")])
       :: Printed (Scraper.MemoCreated (Some "memos/9"))
       :: Sent (Request PATCH "http://memos/api/v1/memos/9"
                  [("createTime", "2024-05-01T08:00:00.000Z")])
       :: rest) /\
  In (Printed (Scraper.TimestampUpdateFailed 500))
    (trace (Scraper.create_memo Reference.scraper_library Scenario.scraper_config
              (Scenario.scraper_world 500) "hello"
              (Some "2024-05-01T08:00:00.000Z") [] None) 0).
Proof.
  split; [reflexivity|]. split; [reflexivity|].
  destruct (proj2 (proj2 (@C8_create_then_backdate Reference.scraper_library
                            Scenario.scraper_config (Scenario.scraper_world 500)
                            "hello" (Some "2024-05-01T08:00:00.000Z") [] None 0))
              200%Z (Some "memos/9") "2024-05-01T08:00:00.000Z"
              eq_refl eq_refl eq_refl eq_refl) as (rest & Ht & _ & _ & Hfail).
  split.
  - exists rest. exact Ht.
  - rewrite Ht. right. right. right. apply Hfail. discriminate.
Defined.

(** ** C9: one memo per signature *)

(** C9.  During a scraping run the set of seen signatures only grows, in
    every pass over the visible tweets and across the scrolls.  A tweet
    whose signature (the digest of its text, its timestamp, the number of
    its images and whether a video URL was found) is already in the set
    adds no request to the run.  At the end of the run the set holds no
    signature twice and has one member for every creation request that
    was sent: no signature gave rise to two memos. *)
Theorem C9_one_memo_per_signature (L : Scraper.library) (C : Scraper.config)
    (W : Scraper.world) :
  (forall n,
     NoDup (result (Scraper.scrape_x L C W) n) /\
     length (Scraper.creations C (trace (Scraper.scrape_x L C W) n))
     = length (result (Scraper.scrape_x L C W) n)) /\
  (forall tweets seen_tweets found_new n,
     incl seen_tweets
       (fst (result (Scraper.scan L C W tweets seen_tweets found_new) n))) /\
  (forall remaining seen_tweets n,
     incl seen_tweets (result (Scraper.scroll L C W remaining seen_tweets) n)) /\
  (forall t text tweets seen_tweets found_new n,
     Scraper.text_of t = Some text ->
     Scraper.mem
       (Scraper.signature L text (Scraper.timestamp_of t) (Scraper.img_srcs t)
          (Scraper.video_url_of t)) seen_tweets = true ->
     requests (trace (Scraper.scan L C W (Some t :: tweets) seen_tweets found_new) n)
     = requests (trace (Scraper.scan L C W tweets seen_tweets found_new) n) /\
     result (Scraper.scan L C W (Some t :: tweets) seen_tweets found_new) n
     = result (Scraper.scan L C W tweets seen_tweets found_new) n).
Proof.
  split; [|split; [|split]].
  - intros n. unfold Scraper.scrape_x.
    destruct (@ScraperFacts.scroll_spec L C W (Scraper.MAX_SCROLLS C) [] n
                (NoDup_nil _)) as (H1 & _ & H3).
    split; [exact H1|].
    unfold Scraper.creations. rewrite <- H3. simpl. lia.
  - intros tweets seen_tweets found_new n. apply ScraperFacts.scan_grows.
  - intros remaining seen_tweets n. apply ScraperFacts.scroll_grows.
  - intros t text tweets seen_tweets found_new n Ht Hmem.
    destruct (@ScraperFacts.scan_cons L C W t text tweets seen_tweets found_new n Ht)
      as [Hq Hr].
    cbv zeta in Hq, Hr. rewrite Hmem in Hq, Hr. split; assumption.
Qed.

(** C9, on a concrete page: the same tweet is visible twice in each of two
    scrolls, next to another one; two memos are created. *)
Lemma C9_one_memo_per_signature_witness :
  Scraper.text_of Scenario.tweet1 = Some "hello" /\
  length (Scraper.creations Scenario.scraper_config
            (trace (Scraper.scrape_x Reference.scraper_library
                      Scenario.scraper_config (Scenario.scraper_world 200)) 0))
  = 2 /\
  requests
    (trace (Scraper.scan Reference.scraper_library Scenario.scraper_config
              (Scenario.scraper_world 200) [Some Scenario.tweet1]
              ["hello2024-05-01T08:00:00.000Z0False"] false) 0) = [].
Proof.
  split; [reflexivity|]. split.
  - rewrite (proj2 (proj1 (@C9_one_memo_per_signature Reference.scraper_library
                             Scenario.scraper_config (Scenario.scraper_world 200))
                      0)).
    reflexivity.
  - rewrite (proj1 (proj2 (proj2 (proj2
               (@C9_one_memo_per_signature Reference.scraper_library
                  Scenario.scraper_config (Scenario.scraper_world 200))))
               Scenario.tweet1 "hello" []
               ["hello2024-05-01T08:00:00.000Z0False"] false 0
               eq_refl eq_refl)).
    reflexivity.
Defined.

(** * Further properties of the scripts *)

(** ** Pagination that runs to its end *)

Lemma nth_error_nil_page {A} (k : nat) : nth_error (@nil A) k = None.
Proof. now destruct k. Qed.

(** X1.  [fetch_all_memos]: when the pages are served one after the other
    and the last one has no next token, or holds no memo, the fetch
    returns the memos of all of them in order, with one request per page
    and without going through its error handler.  A page without memos
    ends the fetch even when it carries a next token. *)
Theorem X1_fetch_all_memos_complete (L : Duplicates.library)
    (C : Duplicates.config) (W : Duplicates.world)
    (pages : list Duplicates.page) (last : Duplicates.page) (fuel n : nat) :
  Forall Duplicates.continuing pages ->
  Duplicates.served W n pages ->
  (forall r, Duplicates.get_memos W (n + length pages) r
             = Answered 200 (Some last)) ->
  Duplicates.memos last = []
  \/ Py.truthy_opt (Duplicates.nextPageToken last) = false ->
  let run := Duplicates.fetch_all_memos L C W (length pages + S fuel) in
  result run n = Some (Duplicates.records pages ++ Duplicates.memos last) /\
  length (requests (trace run n)) = S (length pages) /\
  ~ In (Printed Duplicates.FetchError) (trace run n).
Proof.
  intros Hc Hs Hw Hlast run.
  destruct (@DuplicatesFacts.fetch_pages_served L C W pages (S fuel) [] None 0 n
              Hc Hs) as (Hr & Hq & Hf).
  unfold run, Duplicates.fetch_all_memos. rewrite Hr, Hq, Hf. clear Hr Hq Hf.
  simpl Duplicates.fetch_pages. rewrite result_send, trace_send, Hw.
  change (raises_for_status 200) with false. cbv iota.
  destruct (Duplicates.memos last) as [|m ms] eqn:Em.
  - unfold Duplicates.finish. rewrite !result_print, !trace_print. simpl.
    rewrite app_nil_r. repeat split; [lia|].
    intros [H|[H|[H|[]]]]; discriminate.
  - destruct Hlast as [Hlast|Hlast]; [discriminate|]. rewrite Hlast.
    unfold Duplicates.finish. rewrite !result_print, !trace_print. simpl.
    repeat split; [lia|].
    intros [H|[H|[H|[]]]]; discriminate.
Qed.

(** X1, on a concrete server: one page with A, B and C and no token. *)
Lemma X1_fetch_all_memos_complete_witness :
  result (Duplicates.fetch_all_memos Reference.duplicates_library
            Scenario.dup_live (Scenario.dup_world None) 1) 0
  = Some [Scenario.A; Scenario.B; Scenario.C].
Proof.
  refine (proj1 (@X1_fetch_all_memos_complete Reference.duplicates_library
                   Scenario.dup_live (Scenario.dup_world None) []
                   (Duplicates.Page [Scenario.A; Scenario.B; Scenario.C] None)
                   0 0 (Forall_nil _) _ (fun r => eq_refl) (or_intror eq_refl))).
  intros k p r Hk. rewrite nth_error_nil_page in Hk. discriminate.
Defined.

(** X2.  [get_all_memos]: when the pages are served one after the other
    and the last one has no next token, the fetch returns the memos of
    all of them in order with one request per page.  Here a page goes on
    to the next whenever it carries a token, with or without memos. *)
Theorem X2_get_all_memos_complete (C : OldMemos.config) (W : OldMemos.world)
    (pages : list OldMemos.page) (last : OldMemos.page) (fuel n : nat) :
  Forall OldMemos.continuing pages ->
  OldMemos.served W n pages ->
  (forall r, OldMemos.get_memos W (n + length pages) r
             = Answered 200 (Some last)) ->
  Py.truthy_opt (OldMemos.nextPageToken last) = false ->
  let run := OldMemos.get_all_memos C W (length pages + S fuel) in
  result run n = Some (OldMemos.records pages ++ OldMemos.memos last) /\
  length (requests (trace run n)) = S (length pages).
Proof.
  intros Hc Hs Hw Hlast run.
  destruct (@OldMemosFacts.get_pages_served C W pages (S fuel) [] None 0 n
              Hc Hs) as (Hr & Hq).
  unfold run, OldMemos.get_all_memos. rewrite Hr, Hq. clear Hr Hq.
  simpl OldMemos.get_pages. rewrite result_send, trace_send, Hw.
  change (200 =? 200)%Z with true. cbv iota.
  rewrite result_print, trace_print, Hlast.
  unfold OldMemos.done. rewrite !result_print, !trace_print. simpl.
  split; [reflexivity|lia].
Qed.

(** X2, on a concrete server: a first page with a token, then a last page
    without. *)
Lemma X2_get_all_memos_complete_witness :
  result (OldMemos.get_all_memos Scenario.old_live More.old_world_two_pages 2) 0
  = Some [Scenario.before; Scenario.at_cutoff; Scenario.epoch].
Proof.
  refine (proj1 (@X2_get_all_memos_complete Scenario.old_live
                   More.old_world_two_pages [Scenario.old_first_page]
                   (OldMemos.Page [Scenario.epoch] None) 0 0 _ _
                   (fun r => eq_refl) eq_refl)).
  - constructor; [reflexivity|constructor].
  - intros k p r Hk. destruct k as [|k]; simpl in Hk.
    + injection Hk as <-. reflexivity.
    + rewrite nth_error_nil_page in Hk. discriminate.
Defined.

(** ** The page token *)

Lemma fetch_pages_requests (L : Duplicates.library) (C : Duplicates.config)
    (W : Duplicates.world) (pages : list Duplicates.page) :
  forall fuel all_memos page_token page_count n,
    Forall Duplicates.continuing pages ->
    Duplicates.served W n pages ->
    exists rest,
      requests (trace (Duplicates.fetch_pages L C W (length pages + S fuel)
                         all_memos page_token page_count) n)
      = map (DuplicatesReport.page_request L C)
          (page_token :: map Duplicates.nextPageToken pages) ++ rest.
Proof.
  induction pages as [|p pages IH];
    intros fuel all_memos page_token page_count n Hc Hs.
  - simpl. rewrite trace_send. simpl. eexists. reflexivity.
  - inversion Hc as [|? ? [Hm Ht] Hc']; subst.
    simpl. rewrite trace_send.
    pose proof (fun r => Hs 0%nat p r eq_refl) as H0.
    rewrite Nat.add_0_r in H0. rewrite H0.
    change (raises_for_status 200) with false. cbv iota.
    destruct (Duplicates.memos p) as [|m ms] eqn:Em; [congruence|].
    rewrite trace_print, Ht. cbn [requests].
    destruct (IH fuel (all_memos ++ m :: ms) (Duplicates.nextPageToken p)
                (S page_count) (n + 1)%nat Hc') as (rest & Hrest).
    { rewrite Nat.add_1_r. eapply DuplicatesFacts.served_tail; eauto. }
    exists rest. simpl in Hrest. rewrite Hrest. reflexivity.
Qed.

Lemma get_pages_requests (C : OldMemos.config) (W : OldMemos.world)
    (pages : list OldMemos.page) :
  forall fuel all_memos page_token page_count n,
    Forall OldMemos.continuing pages ->
    OldMemos.served W n pages ->
    exists rest,
      requests (trace (OldMemos.get_pages C W (length pages + S fuel)
                         all_memos page_token page_count) n)
      = map (OldMemosReport.page_request C)
          (page_token :: map OldMemos.nextPageToken pages) ++ rest.
Proof.
  induction pages as [|p pages IH];
    intros fuel all_memos page_token page_count n Hc Hs.
  - simpl. rewrite trace_send. simpl. eexists. reflexivity.
  - inversion Hc as [|? ? Ht Hc']; subst. unfold OldMemos.continuing in Ht.
    simpl. rewrite trace_send.
    pose proof (fun r => Hs 0%nat p r eq_refl) as H0.
    rewrite Nat.add_0_r in H0. rewrite H0.
    change (200 =? 200)%Z with true. cbv iota.
    rewrite trace_print, Ht. cbn [requests].
    destruct (IH fuel (all_memos ++ OldMemos.memos p) (OldMemos.nextPageToken p)
                (S page_count) (n + 1)%nat Hc') as (rest & Hrest).
    { rewrite Nat.add_1_r. eapply OldMemosFacts.served_rest; eauto. }
    exists rest. simpl in Hrest. rewrite Hrest. reflexivity.
Qed.

(** X3.  Both fetchers send their first page request without a token and
    every following one with the next token of the page just received:
    [fetch_all_memos] appends it, quoted, to the URL, [get_all_memos]
    passes it as the parameter pageToken. *)
Theorem X3_page_token_is_threaded :
  (forall L C W pages fuel n,
     Forall Duplicates.continuing pages ->
     Duplicates.served W n pages ->
     exists rest,
       requests (trace (Duplicates.fetch_all_memos L C W (length pages + S fuel)) n)
       = map (DuplicatesReport.page_request L C)
           (None :: map Duplicates.nextPageToken pages) ++ rest) /\
  (forall C W pages fuel n,
     Forall OldMemos.continuing pages ->
     OldMemos.served W n pages ->
     exists rest,
       requests (trace (OldMemos.get_all_memos C W (length pages + S fuel)) n)
       = map (OldMemosReport.page_request C)
           (None :: map OldMemos.nextPageToken pages) ++ rest) /\
  (forall L C token,
     Py.truthy token = true ->
     url (DuplicatesReport.page_request L C (Some token))
     = (Py.str_opt (Duplicates.MEMOS_URL C) ++ "/api/v1/memos?pageSize=100"
        ++ "&pageToken=" ++ Duplicates.quote L token)%string) /\
  (forall C token,
     Py.truthy token = true ->
     fields (OldMemosReport.page_request C (Some token))
     = [("pageSize", "100"); ("pageToken", token)]).
Proof.
  split; [|split; [|split]].
  - intros L C W pages fuel n Hc Hs. now apply fetch_pages_requests.
  - intros C W pages fuel n Hc Hs. now apply get_pages_requests.
  - intros L C token Ht. unfold DuplicatesReport.page_request, Duplicates.page_url.
    simpl. rewrite Ht.
    induction (Py.str_opt (Duplicates.MEMOS_URL C)) as [|c s IH]; simpl;
      [reflexivity|]. f_equal. exact IH.
  - intros C token Ht. unfold OldMemosReport.page_request, OldMemos.page_params.
    simpl. now rewrite Ht.
Qed.

(** X3, on a concrete server: the second request carries the token "t1"
    of the first page. *)
Lemma X3_page_token_is_threaded_witness :
  exists rest,
    requests (trace (Duplicates.fetch_all_memos Reference.duplicates_library
                       Scenario.dup_live
                       (Scenario.dup_world_failing Raised) 2) 0)
    = [Request GET "http://memos/api/v1/memos?pageSize=100" [];
       Request GET "http://memos/api/v1/memos?pageSize=100&pageToken=t1" []]
      ++ rest.
Proof.
  refine (proj1 X3_page_token_is_threaded Reference.duplicates_library
            Scenario.dup_live (Scenario.dup_world_failing Raised)
            [Scenario.dup_first_page] 0 0 _ _).
  - constructor; [|constructor]. split; [discriminate|reflexivity].
  - intros k p r Hk. destruct k as [|k]; simpl in Hk.
    + injection Hk as <-. reflexivity.
    + rewrite nth_error_nil_page in Hk. discriminate.
Defined.

(** ** The duplicate cleaner's executor *)

Section DuplicatesExecutor.
Variable C : Duplicates.config.
Variable W : Duplicates.world.



End DuplicatesExecutor.



Lemma fold_left_count {X} (f : X -> nat) (l : list X) (acc : nat) :
  fold_left (fun total x => (total + f x)%nat) l acc
  = (acc + list_sum (map f l))%nat.
Proof.
  revert acc. induction l as [|x l IH]; intros acc; simpl.
  - now rewrite Nat.add_0_r.
  - rewrite IH. lia.
Qed.

Lemma total_to_delete_plan (duplicates : Duplicates.groups) :
  DuplicatesReport.total_to_delete duplicates
  = length (Duplicates.plan_of duplicates).
Proof.
  rewrite <- DuplicatesFacts.to_delete_plan_of.
  unfold DuplicatesReport.total_to_delete, Duplicates.to_delete.
  rewrite !fold_left_count. simpl.
  rewrite <- (firstn_skipn DuplicatesReport.display_limit duplicates) at 3.
  now rewrite map_app, list_sum_app.
Qed.

(** X5.  The numbers shown before anything is deleted are the number of
    deletions attempted: the total that [find_duplicates] adds up over the
    sets it displays and the sets it does not, and the count in the
    confirmation prompt of [delete_duplicates], both equal the number of
    delete requests the run sends once the answer is yes. *)
Theorem X5_announced_count_is_attempted (C : Duplicates.config)
    (W : Duplicates.world) (duplicates : Duplicates.groups) (n : nat) :
  Duplicates.DRY_RUN C = false ->
  duplicates <> [] ->
  says_yes (Duplicates.stdin W n) = true ->
  let t := trace (Duplicates.delete_duplicates C W duplicates) n in
  In (Printed (Duplicates.WillPermanentlyDelete (length (mutations t)))) t /\
  DuplicatesReport.total_to_delete duplicates = length (mutations t).
Proof.
  intros Hlive Hd Hyes t.
  assert (Hm : length (mutations t) = length (Duplicates.plan_of duplicates)).
  { unfold t. rewrite (@DuplicatesFacts.delete_duplicates_live C W _ n Hlive Hd).
    rewrite Hyes. cbn [mutations].
    rewrite mutations_requests.
    destruct (@DuplicatesFacts.delete_confirmed_live C W duplicates (n + 1) Hlive)
      as (-> & _ & _).
    unfold Duplicates.delete_request.
    rewrite (filter_mutating_deletes
               (fun m => Duplicates.memo_url C (Duplicates.name m))).
    now rewrite length_map. }
  split.
  - rewrite Hm, <- DuplicatesFacts.to_delete_plan_of. unfold t.
    rewrite (@DuplicatesFacts.delete_duplicates_live C W _ n Hlive Hd).
    right. now left.
  - now rewrite Hm, total_to_delete_plan.
Qed.

(** X5, on the scenario of the specification: one deletion announced, one
    delete request sent. *)
Lemma X5_announced_count_is_attempted_witness :
  Duplicates.DRY_RUN Scenario.dup_live = false /\
  says_yes (Duplicates.stdin (Scenario.dup_world (Some "Yes")) 1) = true /\
  DuplicatesReport.total_to_delete
    (Duplicates.find_duplicates Reference.duplicates_library
       [Scenario.A; Scenario.B; Scenario.C])
  = length
      (mutations
         (trace (Duplicates.delete_duplicates Scenario.dup_live
                   (Scenario.dup_world (Some "Yes"))
                   (Duplicates.find_duplicates Reference.duplicates_library
                      [Scenario.A; Scenario.B; Scenario.C])) 1)).
Proof.
  split; [reflexivity|]. split; [reflexivity|].
  refine (proj2 (@X5_announced_count_is_attempted Scenario.dup_live
                   (Scenario.dup_world (Some "Yes"))
                   (Duplicates.find_duplicates Reference.duplicates_library
                      [Scenario.A; Scenario.B; Scenario.C]) 1 eq_refl _ eq_refl)).
  vm_compute. discriminate.
Defined.

(** X6.  The memo that [find_duplicates] announces as kept ("Will keep:
    ... (oldest)") is the first of the set in fetch order; the memo that
    [delete_duplicates] keeps is the first after sorting.  The two are the
    same memo exactly when no later member of the set has a createTime
    strictly below that of the first. *)
Theorem X6_announced_keep_and_kept (first : Duplicates.memo)
    (rest : list Duplicates.memo) :
  let created := fun x => Duplicates.get (Duplicates.createTime x) "" in
  DuplicatesReport.will_keep (first :: rest) = Some first /\
  (DuplicatesReport.kept (first :: rest) = Some first
   <-> forall m, In m rest -> String.ltb (created m) (created first) = false).
Proof.
  intros created. split; [reflexivity|].
  unfold DuplicatesReport.kept, Duplicates.sort_by_create_time.
  fold created.
  destruct (Py.sort created (first :: rest)) as [|x s] eqn:Es.
  { pose proof (sort_length created (first :: rest)) as Hl.
    rewrite Es in Hl. discriminate. }
  destruct (sort_head_first_min created (first :: rest) Es)
    as (l1 & l2 & Hl & Hlt & Hle).
  simpl. split.
  - intros E. assert (Ex : x = first) by congruence. clear E. subst x.
    destruct l1 as [|a l1]; simpl in Hl.
    + assert (Hr : rest = l2) by congruence. subst l2.
      intros m Hm. apply ltb_false_leb. now apply Hle.
    + assert (Ha : first = a) by congruence. subst a.
      specialize (Hlt first (or_introl eq_refl)).
      rewrite ltb_irrefl in Hlt. discriminate.
  - intros Hmin. destruct l1 as [|a l1]; simpl in Hl.
    + f_equal. congruence.
    + assert (Ha : first = a) by congruence. subst a.
      assert (Hr : rest = l1 ++ x :: l2) by congruence.
      specialize (Hlt first (or_introl eq_refl)).
      rewrite Hmin in Hlt; [discriminate|].
      rewrite Hr. apply in_or_app. right. now left.
Qed.

(** X6, on a set fetched newest first: B is announced as kept, A is
    kept. *)
Lemma X6_announced_keep_and_kept_witness :
  DuplicatesReport.will_keep [Scenario.B; Scenario.A] = Some Scenario.B /\
  DuplicatesReport.kept [Scenario.B; Scenario.A] = Some Scenario.A /\
  ~ (forall m, In m [Scenario.A] ->
       String.ltb (Duplicates.get (Duplicates.createTime m) "")
         (Duplicates.get (Duplicates.createTime Scenario.B) "") = false).
Proof.
  split; [reflexivity|]. split; [reflexivity|].
  intros H.
  apply (proj2 (proj2 (@X6_announced_keep_and_kept Scenario.B [Scenario.A]))) in H.
  discriminate H.
Defined.

(** ** The duplicate sets *)

Lemma NoDup_keys_filter {K V} (f : K * V -> bool) (l : list (K * V)) :
  NoDup (map fst l) -> NoDup (map fst (filter f l)).
Proof.
  induction l as [|kv l IH]; simpl; intros H; [constructor|].
  inversion H as [|? ? Hk Hl]; subst.
  destruct (f kv); simpl; [|now apply IH].
  constructor; [|now apply IH].
  intros Hin. apply Hk. apply in_map_iff in Hin as (x & Hx & Hin).
  apply filter_In in Hin as [Hin _]. apply in_map_iff. eauto.
Qed.

(** X7.  The dict that [find_duplicates] returns has one entry per derived
    key, each with two memos or more; an entry holds exactly the fetched
    memos that have a content and that key, in fetch order.  It is empty
    exactly when no derived key is shared by two memos with content, and
    in particular when nothing was fetched. *)
Theorem X7_find_duplicates_sets (L : Duplicates.library)
    (memos : list Duplicates.memo) :
  NoDup (map fst (Duplicates.find_duplicates L memos)) /\
  (forall key memo_list,
     In (key, memo_list) (Duplicates.find_duplicates L memos) ->
     (2 <= length memo_list)%nat /\
     memo_list = Duplicates.group_of L memos key /\
     forall m, In m memo_list ->
       In m memos /\
       Py.truthy (Duplicates.get (Duplicates.content m) "") = true /\
       Duplicates.composite_key L m = key) /\
  (Duplicates.find_duplicates L memos = []
   <-> forall key, (length (Duplicates.group_of L memos key) <= 1)%nat) /\
  Duplicates.find_duplicates L [] = [].
Proof.
  split; [|split; [|split]].
  - unfold Duplicates.find_duplicates. apply NoDup_keys_filter.
    apply DuplicatesFacts.content_date_groups_spec.
  - intros key memo_list Hin.
    apply DuplicatesFacts.find_duplicates_spec in Hin as [-> Hlen].
    split; [exact Hlen|]. split; [reflexivity|].
    intros m Hm. now apply DuplicatesFacts.group_of_In in Hm.
  - split.
    + intros Hempty key.
      destruct (le_lt_dec (length (Duplicates.group_of L memos key)) 1)
        as [Hle|Hgt]; [exact Hle|].
      assert (Hin : In (key, Duplicates.group_of L memos key)
                      (Duplicates.find_duplicates L memos))
        by (apply DuplicatesFacts.find_duplicates_spec; split; [reflexivity|lia]).
      rewrite Hempty in Hin. destruct Hin.
    + intros Hall.
      destruct (Duplicates.find_duplicates L memos) as [|[key memo_list] d] eqn:E;
        [reflexivity|].
      assert (Hin : In (key, memo_list) (Duplicates.find_duplicates L memos))
        by (rewrite E; now left).
      apply DuplicatesFacts.find_duplicates_spec in Hin as [-> Hlen].
      specialize (Hall key). lia.
  - reflexivity.
Qed.

(** X7, on the scenario of the specification: the key of A and B has a
    set, so the dict is not empty. *)
Lemma X7_find_duplicates_sets_witness :
  In ("hi_2024-01-01", [Scenario.A; Scenario.B])
    (Duplicates.find_duplicates Reference.duplicates_library
       [Scenario.A; Scenario.B; Scenario.C]) /\
  Duplicates.composite_key Reference.duplicates_library Scenario.B
  = "hi_2024-01-01".
Proof.
  assert (Hin : In ("hi_2024-01-01", [Scenario.A; Scenario.B])
                  (Duplicates.find_duplicates Reference.duplicates_library
                     [Scenario.A; Scenario.B; Scenario.C]))
    by (vm_compute; tauto).
  split; [exact Hin|].
  apply (proj1 (proj2 (@X7_find_duplicates_sets Reference.duplicates_library
                         [Scenario.A; Scenario.B; Scenario.C]))
           "hi_2024-01-01" [Scenario.A; Scenario.B] Hin).
  right. now left.
Defined.

Lemma would_delete_names_app (t1 t2 : list (event Duplicates.message)) :
  DuplicatesReport.would_delete_names (t1 ++ t2)
  = DuplicatesReport.would_delete_names t1
    ++ DuplicatesReport.would_delete_names t2.
Proof. apply flat_map_app. Qed.

Lemma would_delete_names_sets (C : Duplicates.config) (W : Duplicates.world)
    (total idx : nat) (d : Duplicates.groups) (c : nat * nat) (n : nat) :
  Duplicates.DRY_RUN C = true ->
  DuplicatesReport.would_delete_names
    (trace (Duplicates.delete_sets C W total idx d c) n)
  = map Duplicates.name (Duplicates.plan_of d).
Proof.
  intros Hdry. revert idx c n.
  induction d as [|[k l] d IH]; intros idx [dc fc] n; [reflexivity|].
  simpl Duplicates.delete_sets. simpl Duplicates.plan_of.
  rewrite trace_bind, trace_when, !would_delete_names_app, IH, map_app.
  f_equal.
  - unfold trace. rewrite DuplicatesFacts.delete_each_dry by assumption.
    simpl snd. clear. induction (tl _) as [|m ms IHm]; simpl; [reflexivity|].
    now rewrite IHm.
  - destruct (_ =? _)%nat; reflexivity.
Qed.

(** X8.  A dry run is a faithful preview: the names it prints as "would
    delete" are, in the same order, the names the live run sends its
    delete requests for. *)
Theorem X8_dry_run_previews_live_run (Cdry Clive : Duplicates.config)
    (Wdry Wlive : Duplicates.world) (duplicates : Duplicates.groups)
    (n k : nat) :
  Duplicates.DRY_RUN Cdry = true ->
  Duplicates.DRY_RUN Clive = false ->
  requests (trace (Duplicates.delete_confirmed Clive Wlive duplicates) k)
  = map (fun memo_name =>
           Request DELETE (Duplicates.memo_url Clive memo_name) [])
      (DuplicatesReport.would_delete_names
         (trace (Duplicates.delete_confirmed Cdry Wdry duplicates) n)).
Proof.
  intros Hdry Hlive.
  destruct (@DuplicatesFacts.delete_confirmed_live Clive Wlive duplicates k Hlive)
    as (-> & _ & _).
  destruct (@DuplicatesFacts.delete_confirmed_dry Cdry Wdry duplicates n Hdry)
    as (-> & _).
  rewrite would_delete_names_app, would_delete_names_sets by assumption.
  simpl. rewrite app_nil_r, map_map. reflexivity.
Qed.

(** X8, on the scenario of the specification. *)
Lemma X8_dry_run_previews_live_run_witness :
  Duplicates.DRY_RUN Scenario.dup_dry = true /\
  Duplicates.DRY_RUN Scenario.dup_live = false /\
  DuplicatesReport.would_delete_names
    (trace (Duplicates.delete_confirmed Scenario.dup_dry (Scenario.dup_world None)
              (Duplicates.find_duplicates Reference.duplicates_library
                 [Scenario.A; Scenario.B; Scenario.C])) 1)
  = [Some "memos/B"] /\
  requests
    (trace (Duplicates.delete_confirmed Scenario.dup_live
              (Scenario.dup_world (Some "yes"))
              (Duplicates.find_duplicates Reference.duplicates_library
                 [Scenario.A; Scenario.B; Scenario.C])) 2)
  = [Request DELETE "http://memos/api/v1/memos/B" []].
Proof.
  split; [reflexivity|]. split; [reflexivity|]. split; [reflexivity|].
  rewrite (@X8_dry_run_previews_live_run Scenario.dup_dry Scenario.dup_live
             (Scenario.dup_world None) (Scenario.dup_world (Some "yes"))
             _ 1 2 eq_refl eq_refl).
  reflexivity.
Defined.

(** In a group of two or more, all but the first after sorting are
    planned. *)
Lemma planned_rest_of_group (L : Duplicates.library)
    (memos : list Duplicates.memo) (key : string) :
  (2 <= length (Duplicates.group_of L memos key))%nat ->
  exists kept rest,
    Permutation (Duplicates.group_of L memos key) (kept :: rest) /\
    incl rest (Duplicates.plan L memos).
Proof.
  intros Hlen.
  set (G := Duplicates.group_of L memos key) in *.
  set (created := fun x => Duplicates.get (Duplicates.createTime x) "").
  assert (Hdup : In (key, G) (Duplicates.find_duplicates L memos))
    by (apply DuplicatesFacts.find_duplicates_spec; auto).
  assert (Hsort : Duplicates.sort_by_create_time G = Py.sort created G)
    by reflexivity.
  destruct (Py.sort created G) as [|kept rest] eqn:Es.
  { pose proof (sort_length created G) as Hl.
    rewrite Es in Hl. simpl in Hl. lia. }
  exists kept, rest. split.
  - rewrite <- Es. apply sort_perm.
  - intros x Hx. unfold Duplicates.plan, Duplicates.plan_of.
    apply in_flat_map. exists (key, G). split; [assumption|].
    simpl. rewrite Hsort. exact Hx.
Qed.

(** X9.  Memos are told apart by nothing but their place in the fetched
    list: a memo with content that the service returns twice forms a
    duplicate set with itself, is planned for deletion, and the live run
    sends a delete request for its resource name, the one it also
    keeps. *)
Theorem X9_memo_fetched_twice_is_deleted (L : Duplicates.library)
    (C : Duplicates.config) (W : Duplicates.world)
    (l1 l2 l3 : list Duplicates.memo) (m : Duplicates.memo) (n : nat) :
  Py.truthy (Duplicates.get (Duplicates.content m) "") = true ->
  Duplicates.DRY_RUN C = false ->
  let memos := l1 ++ m :: l2 ++ m :: l3 in
  In m (Duplicates.plan L memos) /\
  In (Duplicates.delete_request C m)
    (requests
       (trace (Duplicates.delete_confirmed C W (Duplicates.find_duplicates L memos))
          n)).
Proof.
  intros Hcontent Hlive memos.
  assert (Hplan : In m (Duplicates.plan L memos)).
  { set (key := Duplicates.composite_key L m).
    set (G := Duplicates.group_of L memos key).
    assert (HG : exists g1 g2, G = g1 ++ m :: g2 /\ In m (g1 ++ g2)).
    { unfold G, memos.
      assert (Hm : forall l, Duplicates.group_of L (m :: l) key
                             = m :: Duplicates.group_of L l key).
      { intros l. unfold Duplicates.group_of. simpl. fold key.
        now rewrite Hcontent, String.eqb_refl. }
      exists (Duplicates.group_of L l1 key),
             (Duplicates.group_of L l2 key ++ m :: Duplicates.group_of L l3 key).
      rewrite DuplicatesFacts.group_of_app, Hm, DuplicatesFacts.group_of_app, Hm.
      split; [reflexivity|]. apply in_or_app. right. apply in_or_app. right.
      now left. }
    destruct HG as (g1 & g2 & HG & Hin).
    assert (Hlen : (2 <= length G)%nat).
    { rewrite HG, length_app. simpl.
      apply in_split in Hin as (a & b & Hab).
      apply (f_equal (@length _)) in Hab. rewrite !length_app in Hab.
      simpl in Hab. lia. }
    destruct (@planned_rest_of_group L memos key Hlen)
      as (kept & rest & Hperm & Hrest).
    change (Permutation G (kept :: rest)) in Hperm.
    apply Hrest.
    assert (Hk : In m (kept :: rest))
      by (apply (Permutation_in _ Hperm); rewrite HG; apply in_or_app;
          right; now left).
    destruct Hk as [->|Hk]; [|exact Hk].
    rewrite HG in Hperm. apply Permutation_sym in Hperm.
    apply Permutation_cons_app_inv in Hperm.
    apply (Permutation_in _ (Permutation_sym Hperm)). exact Hin. }
  split; [exact Hplan|].
  destruct (@DuplicatesFacts.delete_confirmed_live C W
              (Duplicates.find_duplicates L memos) n Hlive) as (-> & _ & _).
  apply in_map. exact Hplan.
Qed.

(** X9, on a concrete list: A comes back on two pages. *)
Lemma X9_memo_fetched_twice_is_deleted_witness :
  Py.truthy (Duplicates.get (Duplicates.content Scenario.A) "") = true /\
  Duplicates.DRY_RUN Scenario.dup_live = false /\
  In Scenario.A
    (Duplicates.plan Reference.duplicates_library
       [Scenario.A; Scenario.C; Scenario.A]).
Proof.
  split; [reflexivity|]. split; [reflexivity|].
  exact (proj1 (@X9_memo_fetched_twice_is_deleted Reference.duplicates_library
                  Scenario.dup_live (Scenario.dup_world None)
                  [] [Scenario.C] [] Scenario.A 0 eq_refl eq_refl)).
Defined.

(** ** [extract_date] *)

Lemma replace_Z_idempotent (s : string) :
  Py.replace "Z" "+00:00" (Py.replace "Z" "+00:00" s)
  = Py.replace "Z" "+00:00" s.
Proof.
  induction s as [|a s IH]; [reflexivity|].
  simpl. destruct (Ascii.eqb a "Z") eqn:E.
  - simpl. now rewrite IH.
  - simpl. now rewrite E, IH.
Qed.

Lemma replace_Z_truthy (s : string) :
  Py.truthy (Py.replace "Z" "+00:00" s) = Py.truthy s.
Proof.
  destruct s as [|a s]; [reflexivity|].
  simpl. now destruct (Ascii.eqb a "Z").
Qed.

(** X10.  [extract_date] answers "unknown" for an empty timestamp and for
    one that does not parse, and the formatted date otherwise.  It reads
    a timestamp written with Z and the same timestamp written with
    +00:00 alike, so the two spellings of a memo's time give the same
    derived key. *)
Theorem X10_extract_date (L : Duplicates.library) (timestamp_str : string) :
  Duplicates.extract_date L "" = "unknown" /\
  (Duplicates.fromisoformat L (Py.replace "Z" "+00:00" timestamp_str) = None ->
   Duplicates.extract_date L timestamp_str = "unknown") /\
  (forall dt,
     Py.truthy timestamp_str = true ->
     Duplicates.fromisoformat L (Py.replace "Z" "+00:00" timestamp_str) = Some dt ->
     Duplicates.extract_date L timestamp_str = Duplicates.strftime L "%Y-%m-%d" dt) /\
  Duplicates.extract_date L (Py.replace "Z" "+00:00" timestamp_str)
  = Duplicates.extract_date L timestamp_str /\
  (forall name1 name2 content,
     Duplicates.composite_key L
       (Duplicates.Memo name1 content
          (Some (Py.replace "Z" "+00:00" timestamp_str)))
     = Duplicates.composite_key L
         (Duplicates.Memo name2 content (Some timestamp_str))).
Proof.
  assert (Hsame : Duplicates.extract_date L (Py.replace "Z" "+00:00" timestamp_str)
                  = Duplicates.extract_date L timestamp_str).
  { unfold Duplicates.extract_date.
    now rewrite replace_Z_truthy, replace_Z_idempotent. }
  split; [reflexivity|]. split; [|split; [|split]].
  - intros Hnone. unfold Duplicates.extract_date. rewrite Hnone.
    now destruct (negb (Py.truthy timestamp_str)).
  - intros dt Ht Hdt. unfold Duplicates.extract_date. now rewrite Ht, Hdt.
  - exact Hsame.
  - intros name1 name2 content. unfold Duplicates.composite_key. simpl.
    now rewrite Hsame.
Qed.

(** X10, on concrete timestamps. *)
Lemma X10_extract_date_witness :
  Duplicates.fromisoformat Reference.duplicates_library
    (Py.replace "Z" "+00:00" "yesterday") = None /\
  Duplicates.extract_date Reference.duplicates_library "yesterday" = "unknown" /\
  Duplicates.extract_date Reference.duplicates_library "2024-01-01T10:00:00Z"
  = "2024-01-01".
Proof.
  split; [reflexivity|]. split.
  - exact (proj1 (proj2 (@X10_extract_date Reference.duplicates_library
                           "yesterday")) eq_refl).
  - exact (proj1 (proj2 (proj2 (@X10_extract_date Reference.duplicates_library
                                  "2024-01-01T10:00:00Z")))
             (Datetime 2024 1 1 10 0 0 0 (Some 0%Z)) eq_refl eq_refl).
Defined.

(** ** The cutoff cleaner's executor *)

(** X11.  [delete_memo] sends exactly one delete request: to the resource
    name when the memo has one, to memos/<id> otherwise.  It answers true
    only for the status 200: any other status, 204 included, and any
    exception count as a failure. *)
Theorem X11_delete_memo (C : OldMemos.config) (W : OldMemos.world)
    (memo_name memo_id : option string) (n : nat) :
  let request := Request DELETE (OldMemos.delete_url C memo_name memo_id) [] in
  requests (trace (OldMemos.delete_memo C W memo_name memo_id) n) = [request] /\
  (result (OldMemos.delete_memo C W memo_name memo_id) n = true
   <-> exists json, OldMemos.delete W n request = Answered 200 json) /\
  (Py.truthy_opt memo_name = true ->
   url request
   = (OldMemos.MEMOS_URL C ++ "/api/v1/" ++ Py.str_opt memo_name)%string) /\
  (Py.truthy_opt memo_name = false ->
   url request
   = (OldMemos.MEMOS_URL C ++ "/api/v1/memos/" ++ Py.str_opt memo_id)%string).
Proof.
  intros request. unfold OldMemos.delete_memo. cbv zeta. fold request.
  rewrite trace_send, result_send.
  split; [|split; [|split]].
  - destruct (OldMemos.delete W n request); reflexivity.
  - destruct (OldMemos.delete W n request) as [|status_code json]; simpl.
    + split; [discriminate|]. intros [json H]. discriminate.
    + unfold result, ret. simpl. split.
      * intros H. apply Z.eqb_eq in H. subst. now exists json.
      * intros [json' H]. injection H as -> _. reflexivity.
  - intros H. unfold request, OldMemos.delete_url. simpl. now rewrite H.
  - intros H. unfold request, OldMemos.delete_url. simpl. now rewrite H.
Qed.

(** X11, on concrete answers: a name is used when there is one, and the
    status 204 is a failure. *)
Lemma X11_delete_memo_witness :
  Py.truthy_opt (Some "memos/1") = true /\
  url (Request DELETE
         (OldMemos.delete_url Scenario.old_live (Some "memos/1") (Some "7")) [])
  = "http://memos/api/v1/memos/1" /\
  result (OldMemos.delete_memo Scenario.old_live
            (OldMemos.World (fun _ _ => Raised)
               (fun _ _ => Answered 204 (Some tt)))
            (Some "memos/1") None) 0 = false.
Proof.
  split; [reflexivity|]. split.
  - exact (proj1 (proj2 (proj2 (@X11_delete_memo Scenario.old_live
                                  (Scenario.old_world []) (Some "memos/1")
                                  (Some "7") 0))) eq_refl).
  - reflexivity.
Defined.

Lemma sleeps_app {Msg} (t1 t2 : list (event Msg)) :
  Count.sleeps (t1 ++ t2) = (Count.sleeps t1 + Count.sleeps t2)%nat.
Proof. unfold Count.sleeps. now rewrite filter_app, length_app. Qed.




(** ** Runs that stop early *)

(** X13.  Both scripts stop before their first request when their
    configuration is not usable: the duplicate cleaner without a token,
    the cutoff cleaner without a URL or a token, or with a cutoff that
    does not parse.  The duplicate cleaner that finds no duplicate set
    neither reads the console nor sends a request. *)
Theorem X13_nothing_is_sent_without_configuration :
  (forall L C W fuel n,
     Py.truthy_opt (Duplicates.MEMOS_TOKEN C) = false ->
     Duplicates.main L C W fuel n
     = (Some Duplicates.Returned, [Printed Duplicates.MissingToken])) /\
  (forall L C W fuel n,
     Py.truthy (OldMemos.MEMOS_URL C) && Py.truthy_opt (OldMemos.MEMOS_TOKEN C)
     = false ->
     OldMemos.main L C W fuel n = (Some tt, [Printed OldMemos.MissingConfiguration])) /\
  (forall L C W fuel n,
     Py.truthy (OldMemos.MEMOS_URL C) && Py.truthy_opt (OldMemos.MEMOS_TOKEN C)
     = true ->
     OldMemos.fromisoformat L (Py.replace "Z" "+00:00" (OldMemos.CUTOFF_DATE C))
     = None ->
     OldMemos.main L C W fuel n = (Some tt, [Printed OldMemos.InvalidCutoff])) /\
  (forall L C W memos n,
     Duplicates.find_duplicates L memos = [] ->
     requests (trace (Duplicates.process L C W memos) n) = [] /\
     forall p a, ~ In (Asked p a) (trace (Duplicates.process L C W memos) n)).
Proof.
  split; [|split; [|split]].
  - intros L C W fuel n H. unfold Duplicates.main. now rewrite H.
  - intros L C W fuel n H. unfold OldMemos.main. now rewrite H.
  - intros L C W fuel n H Hp. unfold OldMemos.main. now rewrite H, Hp.
  - intros L C W memos n H. unfold Duplicates.process.
    destruct memos as [|m ms].
    + split; [reflexivity|]. intros p a [E|[]]. discriminate.
    + rewrite H. split; [reflexivity|]. intros p a [].
Qed.

(** X13, on a cutoff that is not a date: the run prints one line and
    sends nothing. *)
Lemma X13_nothing_is_sent_without_configuration_witness :
  OldMemos.fromisoformat Reference.old_memos_library
    (Py.replace "Z" "+00:00" "next week") = None /\
  OldMemos.main Reference.old_memos_library
    (OldMemos.Config Scenario.url (Some "token") "next week" false)
    (Scenario.old_world [Scenario.before]) 3 0
  = (Some tt, [Printed OldMemos.InvalidCutoff]).
Proof.
  split; [reflexivity|].
  exact (proj1 (proj2 (proj2 X13_nothing_is_sent_without_configuration))
           Reference.old_memos_library
           (OldMemos.Config Scenario.url (Some "token") "next week" false)
           (Scenario.old_world [Scenario.before]) 3 0 eq_refl eq_refl).
Defined.

(** ** The cutoff classifier on comparable and incomparable dates *)

(** X14.  When the timestamp of a memo and the cutoff are both aware, the
    classifier compares the instants they denote, whatever their
    offsets: the memo is a Delete exactly when its instant is strictly
    before that of the cutoff, and a memo at the very instant of the
    cutoff is a Skip. *)
Theorem X14_aware_dates_compare_as_instants (L : OldMemos.library)
    (cutoff_dt memo_dt : datetime) (memo : OldMemos.memo) (ct : OldMemos.stamp)
    (memo_instant cutoff_instant : Z) :
  OldMemos.create_time memo = Some ct ->
  OldMemos.truthy_stamp (Some ct) = true ->
  OldMemos.parse L ct = Some memo_dt ->
  Datetime.instant memo_dt = Some memo_instant ->
  Datetime.instant cutoff_dt = Some cutoff_instant ->
  (OldMemos.classify L cutoff_dt memo = OldMemos.Delete
   <-> (memo_instant < cutoff_instant)%Z) /\
  (memo_instant = cutoff_instant ->
   OldMemos.classify L cutoff_dt memo = OldMemos.Skip).
Proof.
  intros Hc Ht Hp Hm Hcut.
  assert (Hlt : Datetime.lt memo_dt cutoff_dt
                = Some (memo_instant <? cutoff_instant)%Z).
  { unfold Datetime.instant in Hm, Hcut. unfold Datetime.lt.
    destruct (tzinfo memo_dt); [|discriminate].
    destruct (tzinfo cutoff_dt); [|discriminate].
    injection Hm as <-. injection Hcut as <-. reflexivity. }
  pose proof (@OldMemosFacts.classify_comparable L cutoff_dt memo_dt memo ct _
                Hc Ht Hp Hlt) as Hiff.
  split.
  - rewrite Hiff. apply Z.ltb_lt.
  - intros ->. rewrite Z.ltb_irrefl in Hiff.
    destruct (OldMemos.classify L cutoff_dt memo); [|reflexivity].
    destruct Hiff as [Hiff _]. discriminate (Hiff eq_refl).
Qed.

(** X14, on a memo stamped 01:00 on New Year's Day two hours east of
    Greenwich: it is before the cutoff at midnight UTC. *)
Lemma X14_aware_dates_compare_as_instants_witness :
  OldMemos.classify Reference.old_memos_library Scenario.cutoff_2025
    (OldMemos.Memo (Some "memos/6") None None (Some "east")
       (Some (OldMemos.Str "2025-01-01T01:00:00+02:00")) None)
  = OldMemos.Delete.
Proof.
  refine (proj2 (proj1 (@X14_aware_dates_compare_as_instants
                          Reference.old_memos_library Scenario.cutoff_2025
                          (Datetime 2025 1 1 1 0 0 0 (Some 7200%Z))
                          (OldMemos.Memo (Some "memos/6") None None (Some "east")
                             (Some (OldMemos.Str "2025-01-01T01:00:00+02:00")) None)
                          (OldMemos.Str "2025-01-01T01:00:00+02:00")
                          _ _ eq_refl eq_refl eq_refl eq_refl eq_refl)) _).
  vm_compute. reflexivity.
Defined.

(** X15.  A timestamp and a cutoff of which one is aware and the other
    naive cannot be compared: the memo is skipped with a date error.  So
    a cutoff written without an offset deletes nothing from a list of
    memos whose timestamps all carry one. *)
Theorem X15_mixed_awareness_is_skipped (L : OldMemos.library)
    (cutoff_dt : datetime) :
  (forall memo ct memo_dt,
     OldMemos.create_time memo = Some ct ->
     OldMemos.truthy_stamp (Some ct) = true ->
     OldMemos.parse L ct = Some memo_dt ->
     (tzinfo memo_dt = None <-> tzinfo cutoff_dt <> None) ->
     OldMemos.examine L cutoff_dt memo = OldMemos.DateError /\
     OldMemos.classify L cutoff_dt memo = OldMemos.Skip) /\
  (forall memos,
     tzinfo cutoff_dt = None ->
     (forall memo, In memo memos ->
        exists ct memo_dt offset,
          OldMemos.create_time memo = Some ct /\
          OldMemos.parse L ct = Some memo_dt /\
          tzinfo memo_dt = Some offset) ->
     OldMemos.memos_to_delete L cutoff_dt memos = []).
Proof.
  assert (Hone : forall memo ct memo_dt,
             OldMemos.create_time memo = Some ct ->
             OldMemos.parse L ct = Some memo_dt ->
             (tzinfo memo_dt = None <-> tzinfo cutoff_dt <> None) ->
             OldMemos.classify L cutoff_dt memo = OldMemos.Skip /\
             (OldMemos.truthy_stamp (Some ct) = true ->
              OldMemos.examine L cutoff_dt memo = OldMemos.DateError)).
  { intros memo ct memo_dt Hc Hp Hmix.
    assert (Hlt : Datetime.lt memo_dt cutoff_dt = None).
    { unfold Datetime.lt.
      destruct (tzinfo memo_dt) as [o|], (tzinfo cutoff_dt) as [o'|];
        try reflexivity.
      - destruct Hmix as [_ Hmix]. discriminate Hmix. discriminate.
      - destruct Hmix as [Hmix _]. now elim (Hmix eq_refl). }
    unfold OldMemos.classify.
    destruct (OldMemos.truthy_stamp (Some ct)) eqn:Ht.
    - rewrite (@OldMemosFacts.examine_parsed L cutoff_dt memo ct Hc Ht), Hp, Hlt.
      split; reflexivity.
    - rewrite (OldMemosFacts.examine_no_timestamp L cutoff_dt memo)
        by (now rewrite Hc).
      split; [reflexivity|discriminate]. }
  split.
  - intros memo ct memo_dt Hc Ht Hp Hmix.
    destruct (Hone memo ct memo_dt Hc Hp Hmix) as [Hs He]. auto.
  - intros memos Hnaive Hall. induction memos as [|memo memos IH]; [reflexivity|].
    change (OldMemos.memos_to_delete L cutoff_dt (memo :: memos))
      with (OldMemos.memos_to_delete L cutoff_dt ([] ++ memo :: memos)).
    rewrite OldMemosFacts.memos_to_delete_skip.
    + apply IH. intros m Hm. apply Hall. now right.
    + destruct (Hall memo (or_introl eq_refl)) as (ct & memo_dt & o & Hc & Hp & Ho).
      apply (Hone memo ct memo_dt Hc Hp).
      rewrite Ho, Hnaive. split; [discriminate|intros H; now elim H].
Qed.

(** X15, with the cutoff written without Z: the memo of 2024 stays. *)
Lemma X15_mixed_awareness_is_skipped_witness :
  Reference.fromisoformat (Py.replace "Z" "+00:00" "2025-01-01T00:00:00")
  = Some (Datetime 2025 1 1 0 0 0 0 None) /\
  OldMemos.classify Reference.old_memos_library
    (Datetime 2025 1 1 0 0 0 0 None) Scenario.before = OldMemos.Skip.
Proof.
  split; [reflexivity|].
  refine (proj2 (proj1 (@X15_mixed_awareness_is_skipped
                          Reference.old_memos_library
                          (Datetime 2025 1 1 0 0 0 0 None))
                   Scenario.before (OldMemos.Str "2024-12-31T23:59:59Z")
                   (Datetime 2024 12 31 23 59 59 0 (Some 0%Z))
                   eq_refl eq_refl eq_refl _)).
  simpl. split; [discriminate|intros H; now elim H].
Defined.

(** X16.  The plan of the cutoff cleaner is the list of the memos
    classified Delete, in fetch order: its entries carry their names one
    for one, and the loop that builds it sends no request. *)
Theorem X16_plan_is_the_deleted_memos (L : OldMemos.library)
    (cutoff_dt : datetime) (memos : list OldMemos.memo) (n : nat) :
  map OldMemos.entry_name (OldMemos.memos_to_delete L cutoff_dt memos)
  = map OldMemos.name (filter (OldMemosReport.is_delete L cutoff_dt) memos) /\
  result (OldMemos.filter_memos L cutoff_dt memos) n
  = OldMemos.memos_to_delete L cutoff_dt memos /\
  requests (trace (OldMemos.filter_memos L cutoff_dt memos) n) = [] /\
  OldMemos.memos_to_delete L cutoff_dt [] = [].
Proof.
  split; [|split; [|split]].
  - induction memos as [|memo memos IH]; [reflexivity|].
    unfold OldMemos.memos_to_delete in *. simpl.
    unfold OldMemosReport.is_delete, OldMemos.classify.
    destruct (OldMemos.examine L cutoff_dt memo) as [e| | |] eqn:E; simpl;
      try exact IH.
    f_equal; [|exact IH].
    unfold OldMemos.examine in E.
    destruct (negb _); [discriminate|].
    destruct (OldMemos.or_ _ _) as [ct|]; [|discriminate].
    destruct (OldMemos.parse L ct) as [dt|]; [|discriminate].
    destruct (Datetime.lt dt cutoff_dt) as [[|]|]; try discriminate.
    injection E as <-. reflexivity.
  - apply OldMemosFacts.filter_memos_spec.
  - apply OldMemosFacts.filter_memos_spec.
  - reflexivity.
Qed.

(** ** [create_memo] when a step fails *)

(** X17.  When the creation request raises, is refused, or is answered
    with a body that does not decode, [create_memo] prints the failure
    and stops: no update, no image, no video is sent after it. *)
Theorem X17_failed_creation_sends_nothing_more (L : Scraper.library)
    (C : Scraper.config) (W : Scraper.world) (text : string)
    (timestamp : option string) (images : list (option string))
    (video_url : option string) (n : nat) :
  ScraperReport.creation_failed
    (Scraper.post_memo W n (Scraper.create_request C text)) ->
  trace (Scraper.create_memo L C W text timestamp images video_url) n
  = [Sent (Scraper.create_request C text); Printed Scraper.FailedToCreateMemo].
Proof.
  intros Hfail. rewrite ScraperFacts.create_memo_trace.
  destruct (Scraper.post_memo W n _) as [|status_code json]; [reflexivity|].
  simpl in Hfail. destruct (raises_for_status status_code); [reflexivity|].
  destruct Hfail as [Hfail|Hfail]; [discriminate|]. now rewrite Hfail.
Qed.

(** X17, on a service that refuses the creation with 401. *)
Lemma X17_failed_creation_sends_nothing_more_witness :
  requests
    (trace (Scraper.create_memo Reference.scraper_library Scenario.scraper_config
              (Scraper.World (fun _ => []) (fun _ _ => Answered 401 None)
                 (fun _ _ => Raised) (fun _ _ => Raised) (fun _ _ => Raised)
                 (fun _ => None))
              "hello" (Some "2024-05-01T08:00:00.000Z")
              [Some "https://pbs.twimg.com/media/a.jpg"] None) 0)
  = [Scraper.create_request Scenario.scraper_config "hello"].
Proof.
  rewrite (@X17_failed_creation_sends_nothing_more Reference.scraper_library
             Scenario.scraper_config
             (Scraper.World (fun _ => []) (fun _ _ => Answered 401 None)
                (fun _ _ => Raised) (fun _ _ => Raised) (fun _ _ => Raised)
                (fun _ => None))
             "hello" (Some "2024-05-01T08:00:00.000Z")
             [Some "https://pbs.twimg.com/media/a.jpg"] None 0
             (or_introl eq_refl)).
  reflexivity.
Defined.

(** X18.  After a successful creation with a timestamp, what the update
    of the timestamp comes back with decides the rest.  An answer with
    any status, 200 or not, lets [create_memo] go on to the images and the
    video.  An exception ends it there: the memo exists, without its
    date and without its attachments. *)
Theorem X18_backdate_exception_drops_attachments (L : Scraper.library)
    (C : Scraper.config) (W : Scraper.world) (text ts : string)
    (images : list (option string)) (video_url : option string) (n : nat)
    (status_code : Z) (memo_name : option string) :
  Scraper.post_memo W n (Scraper.create_request C text)
  = Answered status_code (Some memo_name) ->
  raises_for_status status_code = false ->
  Py.truthy ts = true ->
  let t := trace (Scraper.create_memo L C W text (Some ts) images video_url) n in
  let update := Scraper.backdate_request C memo_name ts in
  (Scraper.patch_memo W (n + 1) update = Raised ->
   t = [Sent (Scraper.create_request C text);
        Printed (Scraper.MemoCreated memo_name);
        Sent update;
        Printed Scraper.FailedToCreateMemo]) /\
  (forall patch_status body,
     Scraper.patch_memo W (n + 1) update = Answered patch_status body ->
     exists line,
       t = [Sent (Scraper.create_request C text);
            Printed (Scraper.MemoCreated memo_name);
            Sent update;
            Printed line]
           ++ trace (Scraper.attach L C W images video_url memo_name) (n + 1 + 1)).
Proof.
  intros Hpost Hok Hts t update.
  unfold t. rewrite ScraperFacts.create_memo_trace, Hpost, Hok.
  simpl Py.truthy_opt. rewrite Hts. simpl Py.str_opt. cbv zeta. fold update.
  split.
  - intros ->. reflexivity.
  - intros patch_status body ->. eexists. reflexivity.
Qed.

(** X18, on a service whose update times out: the image is never
    downloaded. *)
Lemma X18_backdate_exception_drops_attachments_witness :
  raises_for_status 200 = false /\
  Py.truthy "2024-05-01T08:00:00.000Z" = true /\
  ScraperReport.downloads
    (trace (Scraper.create_memo Reference.scraper_library Scenario.scraper_config
              (Scraper.World (fun _ => [])
                 (fun _ _ => Answered 200 (Some (Some "memos/9")))
                 (fun _ _ => Raised) (fun _ _ => Answered 200 (Some "bytes"))
                 (fun _ _ => Answered 200 (Some (Some "attachments/1")))
                 (fun _ => None))
              "hello" (Some "2024-05-01T08:00:00.000Z")
              [Some "https://pbs.twimg.com/media/a.jpg"] None) 0) = [].
Proof.
  split; [reflexivity|]. split; [reflexivity|].
  rewrite (proj1 (@X18_backdate_exception_drops_attachments
                    Reference.scraper_library Scenario.scraper_config
                    (Scraper.World (fun _ => [])
                       (fun _ _ => Answered 200 (Some (Some "memos/9")))
                       (fun _ _ => Raised) (fun _ _ => Answered 200 (Some "bytes"))
                       (fun _ _ => Answered 200 (Some (Some "attachments/1")))
                       (fun _ => None))
                    "hello" "2024-05-01T08:00:00.000Z"
                    [Some "https://pbs.twimg.com/media/a.jpg"] None 0
                    200%Z (Some "memos/9") eq_refl eq_refl eq_refl) eq_refl).
  reflexivity.
Defined.

(** X19.  Without a timestamp (none, or an empty one) [create_memo] sends
    no update at all: after the creation come only the attachments. *)
Theorem X19_no_timestamp_no_update (L : Scraper.library)
    (C : Scraper.config) (W : Scraper.world) (text : string)
    (timestamp : option string) (images : list (option string))
    (video_url : option string) (n : nat) :
  Py.truthy_opt timestamp = false ->
  let t := trace (Scraper.create_memo L C W text timestamp images video_url) n in
  (forall r, In (Sent r) t -> meth r <> PATCH) /\
  (forall status_code memo_name,
     Scraper.post_memo W n (Scraper.create_request C text)
     = Answered status_code (Some memo_name) ->
     raises_for_status status_code = false ->
     t = Sent (Scraper.create_request C text)
         :: Printed (Scraper.MemoCreated memo_name)
         :: trace (Scraper.attach L C W images video_url memo_name) (n + 1)).
Proof.
  intros Hts t. unfold t. rewrite ScraperFacts.create_memo_trace, Hts. split.
  - intros r [H|H]; [injection H as <-; discriminate|].
    destruct (Scraper.post_memo W n _) as [|status_code json];
      [destruct H as [H|[]]; discriminate|].
    destruct (raises_for_status status_code);
      [destruct H as [H|[]]; discriminate|].
    destruct json as [memo_name|]; [|destruct H as [H|[]]; discriminate].
    destruct H as [H|H]; [discriminate|].
    apply (proj2 (ScraperFacts.harmless_requests C _
                    (ScraperFacts.attach_harmless L C W images video_url
                       memo_name (n + 1))) r H).
  - intros status_code memo_name -> ->. reflexivity.
Qed.

(** X19, on a tweet without a time element. *)
Lemma X19_no_timestamp_no_update_witness :
  Py.truthy_opt None = false /\
  requests
    (trace (Scraper.create_memo Reference.scraper_library Scenario.scraper_config
              (Scenario.scraper_world 200) "hello" None [] None) 0)
  = [Scraper.create_request Scenario.scraper_config "hello"].
Proof.
  split; [reflexivity|].
  rewrite (proj2 (@X19_no_timestamp_no_update Reference.scraper_library
                    Scenario.scraper_config (Scenario.scraper_world 200)
                    "hello" None [] None 0 eq_refl)
             200%Z (Some "memos/9") eq_refl eq_refl).
  reflexivity.
Defined.

(** ** [upload_image_to_memos] *)

Lemma string_length_app (s t : string) :
  String.length (s ++ t) = (String.length s + String.length t)%nat.
Proof. induction s as [|c s IH]; simpl; [reflexivity|now rewrite IH]. Qed.

Lemma substring_all (t : string) : substring 0 (String.length t) t = t.
Proof. induction t as [|c t IH]; simpl; [reflexivity|now rewrite IH]. Qed.

Lemma substring_suffix (s t : string) :
  substring (String.length s) (String.length t) (s ++ t) = t.
Proof.
  induction s as [|c s IH]; simpl; [apply substring_all|exact IH].
Qed.

Lemma endswith_app (s suffix : string) :
  Scraper.endswith suffix (s ++ suffix) = true.
Proof.
  unfold Scraper.endswith. rewrite string_length_app.
  apply andb_true_iff. split.
  - apply Nat.leb_le. lia.
  - replace (String.length s + String.length suffix - String.length suffix)%nat
      with (String.length s) by lia.
    rewrite substring_suffix. apply String.eqb_refl.
Qed.

(** X20.  [upload_image_to_memos] without a URL sends nothing.  With one
    it first downloads the large JPEG of the image, the query string of
    the URL dropped.  When the download fails it stops there and nothing
    is posted.  When the download succeeds its second and last request
    posts the attachment: a POST to <MEMOS_URL>/api/v1/attachments with
    the encoded bytes, the type image/jpeg, the memo it is for, and a
    file name that is the last segment of the address, given the
    extension .jpg unless it already ends in a known image extension;
    the name the server answers with is returned, and a failed post
    returns nothing and prints the failure.  It sends two requests at
    most. *)
Theorem X20_upload_image_to_memos (L : Scraper.library) (C : Scraper.config)
    (W : Scraper.world) (memo_name : option string) (n : nat) :
  Scraper.upload_image_to_memos L C W None memo_name n
  = (None, [Printed Scraper.UnexpectedImageError]) /\
  (forall img_url,
     let run := Scraper.upload_image_to_memos L C W (Some img_url) memo_name in
     let download := Request GET (ScraperReport.large_url img_url) [] in
     exists rest,
       trace run n = Sent download :: rest /\
       (length (requests rest) <= 1)%nat /\
       (forall r, In r (requests rest) ->
          meth r = POST /\
          url r = Scraper.api C "attachments" /\
          In ("memo", Py.str_opt memo_name) (fields r) /\
          exists filename,
            In ("filename", filename) (fields r) /\
            ScraperReport.known_extension filename = true) /\
       ((Scraper.get_image W n download = Raised \/
         exists status_code body,
           Scraper.get_image W n download = Answered status_code body /\
           raises_for_status status_code = true) ->
        run n = (None, [Sent download; Printed Scraper.FailedToUploadImage])) /\
       (forall status_code body,
          Scraper.get_image W n download = Answered status_code body ->
          raises_for_status status_code = false ->
          let segment :=
            Scraper.before_question_mark
              (Scraper.after_last_slash (ScraperReport.large_url img_url)) in
          exists filename,
            let post :=
              Request POST
                (Py.str_opt (Scraper.MEMOS_URL C) ++ "/api/v1/attachments")
                [("filename", filename);
                 ("content",
                  Scraper.b64encode L
                    match body with Some b => b | None => "" end);
                 ("type", "image/jpeg");
                 ("memo", Py.str_opt memo_name)] in
            filename
            = (if ScraperReport.known_extension segment then segment
               else segment ++ ".jpg")%string /\
            ScraperReport.known_extension filename = true /\
            requests (trace run n) = [download; post] /\
            match Scraper.post_attachment W (n + 1) post with
            | Raised =>
                run n = (None, [Sent download; Sent post;
                                Printed Scraper.FailedToUploadImage])
            | Answered status json =>
                if raises_for_status status then
                  run n = (None, [Sent download; Sent post;
                                  Printed Scraper.FailedToUploadImage])
                else
                  match json with
                  | Some attachment =>
                      run n = (attachment, [Sent download; Sent post])
                  | None =>
                      run n = (None, [Sent download; Sent post;
                                      Printed Scraper.FailedToUploadImage])
                  end
            end)).
Proof.
  split; [reflexivity|].
  intros img_url run download.
  unfold run, Scraper.upload_image_to_memos. cbv zeta.
  change (Scraper.before_question_mark img_url ++ "?format=jpg&name=large")%string
    with (ScraperReport.large_url img_url).
  fold download. rewrite trace_send.
  eexists. split; [reflexivity|].
  destruct (Scraper.get_image W n download) as [|status_code body] eqn:Eg.
  - split; [simpl; lia|]. split; [intros r []|]. split.
    + intros _. unfold bind, send, print, ret. now rewrite Eg.
    + intros s b H. discriminate H.
  - destruct (raises_for_status status_code) eqn:Er.
    + split; [simpl; lia|]. split; [intros r []|]. split.
      * intros _. unfold bind, send, print, ret. now rewrite Eg, Er.
      * intros s b H Hs. injection H as <- <-. congruence.
    + rewrite trace_send.
      set (name0 := Scraper.before_question_mark
                      (Scraper.after_last_slash (ScraperReport.large_url img_url))).
      set (filename :=
             if existsb (fun ext => Scraper.endswith ext name0)
                  [".jpg"; ".jpeg"; ".png"; ".gif"; ".webp"]
             then name0 else (name0 ++ ".jpg")%string).
      assert (Hext : ScraperReport.known_extension filename = true).
      { unfold filename, ScraperReport.known_extension.
        destruct (existsb _ _) eqn:Ex; [exact Ex|].
        simpl. now rewrite endswith_app. }
      set (post := Request POST (Scraper.api C "attachments")
                     [("filename", filename);
                      ("content",
                       Scraper.b64encode L
                         match body with Some b => b | None => "" end);
                      ("type", "image/jpeg");
                      ("memo", Py.str_opt memo_name)]).
      assert (Hrest : forall t : list (event Scraper.message),
                 requests t = [] ->
                 (length (requests (Sent post :: t)) <= 1)%nat /\
                 forall r,
                   In r (requests (Sent post :: t)) ->
                   meth r = POST /\
                   url r = Scraper.api C "attachments" /\
                   In ("memo", Py.str_opt memo_name) (fields r) /\
                   exists f, In ("filename", f) (fields r) /\
                             ScraperReport.known_extension f = true).
      { intros t Ht. cbn [requests]. rewrite Ht. split; [simpl; lia|].
        intros r [<-|[]]. simpl. repeat split; auto.
        exists filename. split; [now left|exact Hext]. }
      assert (Hquiet :
                requests
                  (trace
                     match Scraper.post_attachment W (n + 1) post with
                     | Raised =>
                         print Scraper.FailedToUploadImage ;; ret None
                     | Answered status_code0 json =>
                         if raises_for_status status_code0
                         then print Scraper.FailedToUploadImage ;; ret None
                         else
                           match json with
                           | Some attachment => ret attachment
                           | None => print Scraper.FailedToUploadImage ;; ret None
                           end
                     end (n + 1 + 1)) = []).
      { destruct (Scraper.post_attachment W (n + 1) post) as [|st json];
          [reflexivity|].
        destruct (raises_for_status st); [reflexivity|].
        destruct json; reflexivity. }
      split; [|split; [|split]].
      * now apply Hrest.
      * now apply Hrest.
      * intros [H|(s & b & H & Hs)]; [discriminate|].
        injection H as <- <-. congruence.
      * intros s b H Hs. injection H as <- <-.
        exists filename. cbv zeta.
        change (Py.str_opt (Scraper.MEMOS_URL C) ++ "/api/v1/attachments")%string
          with (Scraper.api C "attachments").
        fold post.
        split; [reflexivity|]. split; [exact Hext|]. split.
        { cbn [requests]. now rewrite Hquiet. }
        match goal with
        | |- context [?m n = _] =>
            assert (Hrun : m n
                           = (result m n, trace m n))
              by apply surjective_pairing;
            rewrite Hrun; clear Hrun
        end.
        rewrite result_send, trace_send, Eg, Er, result_send, trace_send.
        fold post.
        destruct (Scraper.post_attachment W (n + 1) post) as [|st json];
          [reflexivity|].
        destruct (raises_for_status st); [reflexivity|].
        destruct json; reflexivity.
Qed.

(** X20, on an image whose download is refused, and on one that is
    downloaded and attached. *)
Lemma X20_upload_image_to_memos_witness :
  Scraper.upload_image_to_memos Reference.scraper_library Scenario.scraper_config
    (Scenario.scraper_world 200)
    (Some "https://pbs.twimg.com/media/a.jpg?format=png&name=small")
    (Some "memos/9") 0
  = (None,
     [Sent (Request GET "https://pbs.twimg.com/media/a.jpg?format=jpg&name=large" []);
      Printed Scraper.FailedToUploadImage]) /\
  raises_for_status 200 = false /\
  Scraper.upload_image_to_memos Reference.scraper_library Scenario.scraper_config
    More.scraper_world_images
    (Some "https://pbs.twimg.com/media/b?format=png&name=small")
    (Some "memos/9") 0
  = (Some "attachments/1",
     [Sent (Request GET "https://pbs.twimg.com/media/b?format=jpg&name=large" []);
      Sent (Request POST "http://memos/api/v1/attachments"
              [("filename", "b.jpg"); ("content", "bytes");
               ("type", "image/jpeg"); ("memo", "memos/9")])]).
Proof.
  split; [|split; [reflexivity|]].
  - destruct (proj2 (@X20_upload_image_to_memos Reference.scraper_library
                       Scenario.scraper_config (Scenario.scraper_world 200)
                       (Some "memos/9") 0)
                "https://pbs.twimg.com/media/a.jpg?format=png&name=small")
      as (rest & _ & _ & _ & Hfail & _).
    apply Hfail. left. reflexivity.
  - destruct (proj2 (@X20_upload_image_to_memos Reference.scraper_library
                       Scenario.scraper_config More.scraper_world_images
                       (Some "memos/9") 0)
                "https://pbs.twimg.com/media/b?format=png&name=small")
      as (rest & _ & _ & _ & _ & Hok).
    destruct (Hok 200%Z (Some "bytes") eq_refl eq_refl)
      as (filename & Hname & _ & _ & Hrun).
    cbv zeta in Hname, Hrun. rewrite Hname in Hrun. exact Hrun.
Defined.

(** ** The passes of the scraper *)

Section AwakeFacts.
Import ScraperReport.

Lemma Awake_ret {A} (a : A) : Awake (ret a).
Proof. intros n. reflexivity. Qed.

Lemma Awake_print (x : Scraper.message) : Awake (print x).
Proof. intros n. reflexivity. Qed.

Lemma Awake_send {B} (oracle : nat -> request -> response B) (r : request) :
  Awake (send oracle r).
Proof. intros n. reflexivity. Qed.

Lemma Awake_look {B} (oracle : nat -> B) : Awake (look oracle).
Proof. intros n. reflexivity. Qed.

Lemma Awake_bind {A B} (m : M Scraper.message A) (f : A -> M Scraper.message B) :
  Awake m -> (forall a, Awake (f a)) -> Awake (bind m f).
Proof.
  intros Hm Hf n. rewrite trace_bind, forallb_app, Hm, Hf. reflexivity.
Qed.

Lemma awake_sleeps (t : list (event Scraper.message)) :
  forallb awake t = true -> Count.sleeps t = 0%nat.
Proof.
  unfold Count.sleeps. induction t as [|e t IH]; simpl; intros H; [reflexivity|].
  apply andb_true_iff in H as [He H]. destruct e; try discriminate; now apply IH.
Qed.
End AwakeFacts.

Ltac awake :=
  repeat first
    [ apply Awake_ret | apply Awake_print | apply Awake_send | apply Awake_look
    | apply Awake_bind; [|intros ?]
    | match goal with
      | |- ScraperReport.Awake (match ?x with _ => _ end) => destruct x
      | |- ScraperReport.Awake (if ?b then _ else _) => destruct b
      end ].

Lemma upload_images_awake (L : Scraper.library) (C : Scraper.config)
    (W : Scraper.world) (images : list (option string))
    (memo_name : option string) :
  ScraperReport.Awake (Scraper.upload_images L C W images memo_name).
Proof.
  induction images as [|img images IH]; simpl; [apply Awake_ret|].
  apply Awake_bind; [unfold Scraper.upload_image_to_memos; awake|intros a].
  apply Awake_bind; [awake|intros _; exact IH].
Qed.

Lemma create_memo_awake (L : Scraper.library) (C : Scraper.config)
    (W : Scraper.world) (text : string) (timestamp : option string)
    (images : list (option string)) (video_url : option string) :
  ScraperReport.Awake (Scraper.create_memo L C W text timestamp images video_url).
Proof.
  assert (Ha : forall memo_name,
             ScraperReport.Awake (Scraper.attach L C W images video_url memo_name)).
  { intros memo_name. unfold Scraper.attach.
    apply Awake_bind; [apply upload_images_awake|intros _].
    unfold Scraper.download_video_with_ytdlp, Scraper.upload_video_to_memos.
    awake. }
  unfold Scraper.create_memo.
  repeat first
    [ apply Ha | apply Awake_ret | apply Awake_print | apply Awake_send
    | apply Awake_bind; [|intros ?]
    | match goal with
      | |- ScraperReport.Awake (match ?x with _ => _ end) => destruct x
      | |- ScraperReport.Awake (if ?b then _ else _) => destruct b
      end ].
Qed.

Lemma scan_awake (L : Scraper.library) (C : Scraper.config) (W : Scraper.world)
    (tweets : list (option Scraper.tweet)) :
  forall seen_tweets found_new,
    ScraperReport.Awake (Scraper.scan L C W tweets seen_tweets found_new).
Proof.
  induction tweets as [|[t|] tweets IH]; intros seen_tweets found_new.
  - apply Awake_ret.
  - simpl Scraper.scan.
    repeat first
      [ apply IH | apply create_memo_awake
      | apply Awake_ret | apply Awake_print
      | apply Awake_bind; [|intros ?]
      | match goal with
        | |- ScraperReport.Awake (match ?x with _ => _ end) => destruct x
        | |- ScraperReport.Awake (if ?b then _ else _) => destruct b
        end ].
  - simpl Scraper.scan. apply Awake_bind; [apply Awake_print|intros _; apply IH].
Qed.

Lemma scroll_sleeps (L : Scraper.library) (C : Scraper.config) (W : Scraper.world)
    (remaining : nat) :
  forall seen_tweets n,
    Count.sleeps (trace (Scraper.scroll L C W remaining seen_tweets) n) = remaining.
Proof.
  induction remaining as [|remaining IH]; intros seen_tweets n; [reflexivity|].
  simpl Scraper.scroll.
  rewrite trace_look, trace_print, trace_bind, trace_when, trace_print, trace_sleep.
  match goal with
  | |- context [Printed Scraper.Scrolling :: Slept :: ?t] =>
      change (Printed Scraper.Scrolling :: Slept :: t)
        with ([Printed Scraper.Scrolling; Slept] ++ t)
  end.
  match goal with
  | |- context [Looked :: Printed ?x :: ?t] =>
      change (Looked :: Printed x :: t) with ([Looked; Printed x] ++ t)
  end.
  rewrite !sleeps_app, IH.
  rewrite (awake_sleeps _ (scan_awake L C W _ _ _ _)).
  destruct (negb _); reflexivity.
Qed.

Lemma scan_all_seen (L : Scraper.library) (C : Scraper.config)
    (W : Scraper.world) (seen_tweets : list string)
    (tweets : list (option Scraper.tweet)) :
  forall found_new j,
    ScraperReport.all_seen L tweets seen_tweets ->
    result (Scraper.scan L C W tweets seen_tweets found_new) j
    = (seen_tweets, found_new) /\
    requests (trace (Scraper.scan L C W tweets seen_tweets found_new) j) = [] /\
    interactions (trace (Scraper.scan L C W tweets seen_tweets found_new) j)
    = 0%nat.
Proof.
  unfold ScraperReport.all_seen, ScraperReport.signatures.
  induction tweets as [|[t|] tweets IHt]; intros found_new j Hall.
  - repeat split.
  - assert (Hrest : forall sig,
               In sig (ScraperReport.signatures L tweets) ->
               Scraper.mem sig seen_tweets = true)
      by (intros sig Hin; apply Hall; simpl; apply in_or_app; now right).
    destruct (IHt found_new j Hrest) as (Hr & Hq & Hi).
    simpl Scraper.scan.
    destruct (Scraper.text_of t) as [text|] eqn:Ht; [|repeat split; assumption].
    assert (Hmem : Scraper.mem
                     (Scraper.signature L text (Scraper.timestamp_of t)
                        (Scraper.img_srcs t) (Scraper.video_url_of t))
                     seen_tweets = true).
    { apply Hall. simpl. unfold Scraper.signature_of. rewrite Ht. now left. }
    rewrite result_silent by apply ScraperFacts.silent_repost.
    rewrite requests_silent by apply ScraperFacts.silent_repost.
    rewrite interactions_silent by apply ScraperFacts.silent_repost.
    rewrite result_silent by apply silent_when.
    rewrite requests_silent by apply silent_when.
    rewrite interactions_silent by apply silent_when.
    rewrite Hmem. repeat split; assumption.
  - assert (Hrest : forall sig,
               In sig (ScraperReport.signatures L tweets) ->
               Scraper.mem sig seen_tweets = true)
      by (intros sig Hin; apply Hall; exact Hin).
    destruct (IHt found_new j Hrest) as (Hr & Hq & Hi).
    simpl Scraper.scan. rewrite result_print, trace_print.
    repeat split; assumption.
Qed.

(** X21.  The scraper pauses exactly MAX_SCROLLS times, once at the end
    of every pass over the page, whatever the passes find and whatever
    the server answers: creating a memo and attaching its files never
    pauses.  With MAX_SCROLLS at zero it looks at nothing and sends
    nothing. *)
Theorem X21_scrape_x_makes_max_scrolls_passes (L : Scraper.library)
    (C : Scraper.config) (W : Scraper.world) (n : nat) :
  Count.sleeps (trace (Scraper.scrape_x L C W) n) = Scraper.MAX_SCROLLS C /\
  (Scraper.MAX_SCROLLS C = 0%nat ->
   Scraper.scrape_x L C W n = ([], [Printed (Scraper.Finished 0)])).
Proof.
  split; [apply scroll_sleeps|].
  intros H. unfold Scraper.scrape_x. now rewrite H.
Qed.

(** X21, on the concrete page: two scrolls asked for, two pauses; none
    asked for, nothing done. *)
Lemma X21_scrape_x_makes_max_scrolls_passes_witness :
  Count.sleeps
    (trace (Scraper.scrape_x Reference.scraper_library Scenario.scraper_config
              (Scenario.scraper_world 200)) 0) = 2%nat /\
  Scraper.scrape_x Reference.scraper_library
    (Scraper.Config (Some Scenario.url) (Some "token") 0)
    (Scenario.scraper_world 200) 0
  = ([], [Printed (Scraper.Finished 0)]).
Proof.
  split.
  - exact (proj1 (@X21_scrape_x_makes_max_scrolls_passes
                    Reference.scraper_library Scenario.scraper_config
                    (Scenario.scraper_world 200) 0)).
  - exact (proj2 (@X21_scrape_x_makes_max_scrolls_passes
                    Reference.scraper_library
                    (Scraper.Config (Some Scenario.url) (Some "token") 0)
                    (Scenario.scraper_world 200) 0) eq_refl).
Defined.

(** X22.  A pass over a page whose tweets have all been seen sends no
    request, reports that it found no new tweet, pauses once and leaves
    the set of seen tweets as it was: the scraper does not stop early,
    it goes on with the passes that remain. *)
Theorem X22_pass_without_new_tweets (L : Scraper.library)
    (C : Scraper.config) (W : Scraper.world) (remaining : nat)
    (seen_tweets : list string) (k : nat)
    (Hseen : ScraperReport.all_seen L (Scraper.visible W k) seen_tweets) :
  exists lines,
    trace (Scraper.scroll L C W (S remaining) seen_tweets) k
    = Looked :: lines ++ Slept
        :: trace (Scraper.scroll L C W remaining seen_tweets) (k + 1) /\
    requests lines = [] /\
    Count.sleeps lines = 0%nat /\
    In (Printed Scraper.NoNewTweets) lines.
Proof.
  destruct (@scan_all_seen L C W seen_tweets (Scraper.visible W k) false
              (k + 1)%nat Hseen) as (Hr & Hq & Hi).
  simpl Scraper.scroll.
  rewrite trace_look, trace_print, trace_bind, Hr, Hi, Nat.add_0_r.
  simpl fst. simpl snd. simpl negb. cbv iota.
  rewrite !trace_print, trace_sleep.
  exists (Printed (Scraper.Scanning (length (Scraper.visible W k)))
          :: trace (Scraper.scan L C W (Scraper.visible W k) seen_tweets false)
               (k + 1)
          ++ [Printed Scraper.NoNewTweets; Printed Scraper.Scrolling]).
  split; [|split; [|split]].
  - simpl. rewrite <- app_assoc. reflexivity.
  - cbn [requests]. rewrite requests_app, Hq. reflexivity.
  - change (Printed ?x :: ?t ++ ?u) with ([Printed x] ++ t ++ u).
    rewrite !sleeps_app.
    rewrite (awake_sleeps _ (scan_awake L C W _ _ _ _)). reflexivity.
  - right. apply in_or_app. right. now left.
Qed.

(** X22, on the concrete page once its two tweets are known. *)
Lemma X22_pass_without_new_tweets_witness :
  let L := Reference.scraper_library in
  let seen :=
    [Scraper.signature L "world" (Some "2024-05-02T08:00:00.000Z") [] None;
     Scraper.signature L "hello" (Some "2024-05-01T08:00:00.000Z") [] None] in
  ScraperReport.all_seen L (Scraper.visible (Scenario.scraper_world 200) 0) seen /\
  exists lines,
    trace (Scraper.scroll L Scenario.scraper_config (Scenario.scraper_world 200)
             1 seen) 0
    = Looked :: lines ++ Slept
        :: trace (Scraper.scroll L Scenario.scraper_config
                    (Scenario.scraper_world 200) 0 seen) 1 /\
    requests lines = [] /\
    Count.sleeps lines = 0%nat /\
    In (Printed Scraper.NoNewTweets) lines.
Proof.
  intros L seen.
  assert (H : ScraperReport.all_seen L
                (Scraper.visible (Scenario.scraper_world 200) 0) seen).
  { intros sig Hin. vm_compute in Hin.
    destruct Hin as [<-|[<-|[<-|[]]]]; vm_compute; reflexivity. }
  split; [exact H|].
  exact (@X22_pass_without_new_tweets L Scenario.scraper_config
           (Scenario.scraper_world 200) 0 seen 0 H).
Defined.

(** ** Attachments *)

Lemma downloads_app (t1 t2 : list (event Scraper.message)) :
  ScraperReport.downloads (t1 ++ t2)
  = ScraperReport.downloads t1 ++ ScraperReport.downloads t2.
Proof. unfold ScraperReport.downloads. now rewrite requests_app, filter_app. Qed.

Lemma upload_image_downloads (L : Scraper.library) (C : Scraper.config)
    (W : Scraper.world) (img_url memo_name : option string) (n : nat) :
  ScraperReport.downloads
    (trace (Scraper.upload_image_to_memos L C W img_url memo_name) n)
  = match img_url with
    | Some u => [Request GET (ScraperReport.large_url u) []]
    | None => []
    end.
Proof.
  destruct img_url as [u|]; [|reflexivity].
  unfold Scraper.upload_image_to_memos, ScraperReport.large_url.
  rewrite trace_send.
  destruct (Scraper.get_image W n _) as [|status_code body]; [reflexivity|].
  destruct (raises_for_status status_code); [reflexivity|].
  rewrite trace_send.
  match goal with
  | |- context [Scraper.post_attachment W ?k ?r] =>
      destruct (Scraper.post_attachment W k r) as [|status json]
  end; [reflexivity|].
  destruct (raises_for_status status); [reflexivity|].
  destruct json; reflexivity.
Qed.

Lemma upload_images_downloads (L : Scraper.library) (C : Scraper.config)
    (W : Scraper.world) (images : list (option string))
    (memo_name : option string) :
  forall n,
    ScraperReport.downloads
      (trace (Scraper.upload_images L C W images memo_name) n)
    = map (fun u => Request GET (ScraperReport.large_url u) [])
        (ScraperReport.present images).
Proof.
  induction images as [|img images IH]; intros n; [reflexivity|].
  simpl Scraper.upload_images.
  rewrite trace_bind, downloads_app, upload_image_downloads.
  rewrite trace_bind, downloads_app, IH.
  assert (Hq : forall (a : option string) k,
             ScraperReport.downloads
               (trace (match a with
                       | Some a0 =>
                           if Py.truthy a0 then print (Scraper.Attached a0)
                           else ret tt
                       | None => ret tt
                       end) k) = []).
  { intros [a0|] k; [destruct (Py.truthy a0)|]; reflexivity. }
  rewrite Hq. destruct img; reflexivity.
Qed.

Lemma no_downloads_bind {A B} (m : M Scraper.message A)
    (f : A -> M Scraper.message B) :
  (forall n, ScraperReport.downloads (trace m n) = []) ->
  (forall a n, ScraperReport.downloads (trace (f a) n) = []) ->
  forall n, ScraperReport.downloads (trace (bind m f) n) = [].
Proof.
  intros Hm Hf n. now rewrite trace_bind, downloads_app, Hm, Hf.
Qed.

Lemma video_no_downloads (L : Scraper.library) (C : Scraper.config)
    (W : Scraper.world) (video_url memo_name : option string) (n : nat) :
  ScraperReport.downloads
    (trace (Scraper.attach L C W [] video_url memo_name) n) = [].
Proof.
  revert n. unfold Scraper.attach. simpl Scraper.upload_images.
  apply no_downloads_bind; [reflexivity|intros _].
  destruct video_url as [url|]; [|reflexivity].
  destruct (Py.truthy url); [|reflexivity].
  apply no_downloads_bind.
  - unfold Scraper.download_video_with_ytdlp.
    apply no_downloads_bind; [reflexivity|intros _].
    apply no_downloads_bind; [reflexivity|intros [path|]]; reflexivity.
  - intros [path|]; [|reflexivity].
    destruct (Py.truthy path); [|reflexivity].
    apply no_downloads_bind; [|reflexivity].
    unfold Scraper.upload_video_to_memos.
    apply no_downloads_bind; [reflexivity|intros _].
    apply no_downloads_bind.
    + intros k. reflexivity.
    + intros [|status json] k; [reflexivity|].
      destruct (raises_for_status status); [reflexivity|].
      destruct json; reflexivity.
Qed.

(** X23.  Once a memo is created, every image of the tweet that has a
    source is downloaded, once and in order, from its address without the
    query string and with the large JPEG asked for: an image that cannot
    be downloaded or attached does not keep the following ones from being
    tried, and the video adds no download of its own.  When no image
    can be downloaded, the loop over the images sends the downloads and
    posts nothing. *)
Theorem X23_every_image_is_tried (L : Scraper.library) (C : Scraper.config)
    (W : Scraper.world) (images : list (option string))
    (video_url memo_name : option string) (n : nat) :
  ScraperReport.downloads
    (trace (Scraper.attach L C W images video_url memo_name) n)
  = map (fun u => Request GET (ScraperReport.large_url u) [])
      (ScraperReport.present images) /\
  ((forall k r, Scraper.get_image W k r = Raised) ->
   requests (trace (Scraper.upload_images L C W images memo_name) n)
   = map (fun u => Request GET (ScraperReport.large_url u) [])
       (ScraperReport.present images)).
Proof.
  split.
  - unfold Scraper.attach.
    rewrite trace_bind, downloads_app, upload_images_downloads.
    rewrite <- app_nil_r. f_equal.
    match goal with
    | |- ScraperReport.downloads (trace _ ?k) = [] =>
        pose proof (@video_no_downloads L C W video_url memo_name k) as H
    end.
    unfold Scraper.attach in H. simpl Scraper.upload_images in H.
    rewrite trace_bind in H. cbn [trace ret snd interactions app] in H.
    rewrite Nat.add_0_r in H. exact H.
  - intros Hfail. revert n.
    induction images as [|[u|] images IH]; intros n; [reflexivity| |].
    + simpl Scraper.upload_images.
      rewrite trace_bind, requests_app.
      unfold Scraper.upload_image_to_memos.
      rewrite trace_send, result_send, !Hfail, result_print, trace_print.
      cbn [result ret fst trace snd].
      rewrite trace_bind, requests_app, IH. reflexivity.
    + simpl Scraper.upload_images.
      rewrite trace_bind, requests_app.
      cbn [Scraper.upload_image_to_memos].
      rewrite !trace_bind, !requests_app, IH. reflexivity.
Qed.

(** X23, on a tweet with two images and one image without a source,
    against a server from which no image can be downloaded: both are
    tried, and nothing else is sent. *)
Lemma X23_every_image_is_tried_witness :
  let images := [Some "https://pbs.twimg.com/media/a.jpg?name=small"; None;
                 Some "https://pbs.twimg.com/media/b"] in
  let tried :=
    [Request GET "https://pbs.twimg.com/media/a.jpg?format=jpg&name=large" [];
     Request GET "https://pbs.twimg.com/media/b?format=jpg&name=large" []] in
  (forall k r, Scraper.get_image (Scenario.scraper_world 200) k r = Raised) /\
  ScraperReport.downloads
    (trace (Scraper.attach Reference.scraper_library Scenario.scraper_config
              (Scenario.scraper_world 200) images None (Some "memos/9")) 0)
  = tried /\
  requests
    (trace (Scraper.upload_images Reference.scraper_library
              Scenario.scraper_config (Scenario.scraper_world 200) images
              (Some "memos/9")) 0)
  = tried.
Proof.
  intros images tried.
  split; [reflexivity|]. split.
  - exact (proj1 (@X23_every_image_is_tried Reference.scraper_library
                    Scenario.scraper_config (Scenario.scraper_world 200)
                    images None (Some "memos/9") 0)).
  - exact (proj2 (@X23_every_image_is_tried Reference.scraper_library
                    Scenario.scraper_config (Scenario.scraper_world 200)
                    images None (Some "memos/9") 0)
             (fun _ _ => eq_refl)).
Defined.

(** ** What tells two tweets apart *)



